(** * Password store engine (Fozzyack/password-charm): a Rocq model

    The development follows the Go packages of the repository:
    - [GoStrings], [Utf8]: the fragments of the Go standard library the
      sources call ([strings], [unicode/utf8], [regexp] on one pattern);
    - [Utils]: [utils/generator.go] (password generator, filename codec);
    - [Fileio]: [fileio/fileio.go] over a small file-system model;
    - [Encryption]: [encryption/encryption.go] over an abstract cipher and
      an abstract JSON codec;
    - [Menus]: the [menus] package ([Login], [getAllPasswordEntries],
      [ChangeMasterPassword]);
    - [Tea], [Bubbles]: the event loop of Bubble Tea and the text input
      of bubbles, as far as the views use them;
    - [Form], [Change], [PasswordList], [Detail], [Confirm], [MainMenu]:
      the views ([Update] and what it calls);
    - [MenuViews]: the methods of the [menus] package that run a view
      ([ShowMainMenu], [AddNewPassword], [ListAllPasswords]).

    Go strings and byte slices are sequences of bytes: they are modelled
    by [string] (a list of 8-bit [ascii]).  Go's [int] is [Z]. *)

From Stdlib Require Import ZArith List String Ascii Lia Permutation Bool.
From stdpp Require Import gmap strings list fin_maps.

Local Open Scope string_scope.

(** Go's [(T, error)] results. *)
Inductive result (A : Type) : Type :=
| Ok (a : A)
| Err (msg : string).
Arguments Ok {A} a.
Arguments Err {A} msg.

Definition is_Ok {A} (r : result A) : bool :=
  match r with Ok _ => true | Err _ => false end.

(** ** Package [strings] (byte-level functions used by the sources) *)
Module GoStrings.

Definition len (s : string) : Z := Z.of_nat (String.length s).

(** [s[i:]] and [s[:i]] for in-range [i]. *)
Definition slice_from (s : string) (i : nat) : string :=
  substring i (String.length s - i) s.
Definition slice_to (s : string) (i : nat) : string :=
  substring 0 i s.

Definition HasPrefix (s prefix : string) : bool := String.prefix prefix s.

Definition HasSuffix (s suffix : string) : bool :=
  (String.length suffix <=? String.length s)%nat
  && String.eqb (slice_from s (String.length s - String.length suffix)) suffix.

Definition TrimSuffix (s suffix : string) : string :=
  if HasSuffix s suffix
  then slice_to s (String.length s - String.length suffix)
  else s.

Fixpoint Contains (s substr : string) : bool :=
  String.prefix substr s
  || match s with
     | EmptyString => false
     | String _ t => Contains t substr
     end.

(** Index of the last occurrence, [None] when there is none. *)
Fixpoint last_index (s substr : string) : option nat :=
  match s with
  | EmptyString => if String.prefix substr "" then Some 0%nat else None
  | String _ t =>
      match last_index t substr with
      | Some i => Some (S i)
      | None => if String.prefix substr s then Some 0%nat else None
      end
  end.

(** [strings.LastIndex]: [-1] when [substr] does not occur. *)
Definition LastIndex (s substr : string) : Z :=
  match last_index s substr with
  | Some i => Z.of_nat i
  | None => (-1)%Z
  end.

(** [strings.ReplaceAll] for a non-empty [old]: leftmost, non-overlapping
    occurrences.  [skip] counts the bytes of the occurrence that was just
    replaced and are still to be dropped. *)
Fixpoint replace_from (skip : nat) (s old new : string) : string :=
  match s with
  | EmptyString => EmptyString
  | String c t =>
      match skip with
      | S k => replace_from k t old new
      | O =>
          if String.prefix old s
          then new +:+ replace_from (String.length old - 1) t old new
          else String c (replace_from 0 t old new)
      end
  end.

Definition ReplaceAll (s old new : string) : string :=
  replace_from 0 s old new.

Definition is_upper (c : ascii) : bool :=
  (65 <=? nat_of_ascii c)%nat && (nat_of_ascii c <=? 90)%nat.
Definition is_lower (c : ascii) : bool :=
  (97 <=? nat_of_ascii c)%nat && (nat_of_ascii c <=? 122)%nat.
Definition is_digit (c : ascii) : bool :=
  (48 <=? nat_of_ascii c)%nat && (nat_of_ascii c <=? 57)%nat.

Definition lower_byte (c : ascii) : ascii :=
  if is_upper c then ascii_of_nat (nat_of_ascii c + 32) else c.

(** [strings.ToLower] on its ASCII path (the only one the sources reach:
    it is applied to the output of the filename regexp, which is ASCII). *)
Fixpoint ToLower (s : string) : string :=
  match s with
  | EmptyString => EmptyString
  | String c t => String (lower_byte c) (ToLower t)
  end.

End GoStrings.

(** ** Package [unicode/utf8]: width of the first rune of a string *)
Module Utf8.

Definition byte_at (s : string) (i : nat) : nat :=
  match String.get i s with
  | Some c => nat_of_ascii c
  | None => 0%nat
  end.

Definition continuation (b : nat) : bool :=
  (128 <=? b)%nat && (b <=? 191)%nat.

(** Size and accepted range of the second byte, from the leading byte
    (the tables [first] and [acceptRanges] of the Go library); [None]
    for ASCII and for bytes that cannot start a sequence. *)
Definition lead (b0 : nat) : option (nat * (nat * nat)) :=
  if (b0 <? 194)%nat then None
  else if (b0 <=? 223)%nat then Some (2, (128, 191))%nat
  else if (b0 =? 224)%nat then Some (3, (160, 191))%nat
  else if (b0 <=? 236)%nat then Some (3, (128, 191))%nat
  else if (b0 =? 237)%nat then Some (3, (128, 159))%nat
  else if (b0 <=? 239)%nat then Some (3, (128, 191))%nat
  else if (b0 =? 240)%nat then Some (4, (144, 191))%nat
  else if (b0 <=? 243)%nat then Some (4, (128, 191))%nat
  else if (b0 =? 244)%nat then Some (4, (128, 143))%nat
  else None.

(** Second component of [utf8.DecodeRuneInString] on a non-empty string:
    the number of bytes of the first rune; an invalid or truncated
    sequence decodes as [RuneError] of width 1. *)
Definition rune_width (s : string) : nat :=
  match lead (byte_at s 0) with
  | None => 1
  | Some (sz, (lo, hi)) =>
      if (String.length s <? sz)%nat then 1
      else if negb ((lo <=? byte_at s 1)%nat && (byte_at s 1 <=? hi)%nat) then 1
      else if (sz <=? 2)%nat then 2
      else if negb (continuation (byte_at s 2)) then 1
      else if (sz <=? 3)%nat then 3
      else if negb (continuation (byte_at s 3)) then 1
      else 4
  end%nat.

End Utf8.

(** ** Packages [unicode] and [strings]: white space

    A string is read as Go reads it, one rune after the other; a rune is
    kept as the bytes that encode it. *)
Module GoUnicode.

(** The runes of a string, each as its bytes.  [skip] counts the bytes
    of the current rune that are still to be passed over. *)
Fixpoint split_runes (skip : nat) (s : string) : list string :=
  match s with
  | EmptyString => []
  | String _ t =>
      match skip with
      | S k => split_runes k t
      | O =>
          substring 0 (Utf8.rune_width s) s
          :: split_runes (Utf8.rune_width s - 1) t
      end
  end.

Definition code_bytes (rune : string) : list nat :=
  map nat_of_ascii (list_ascii_of_string rune).

(** [unicode.IsSpace]: tab, line feed, vertical tab, form feed, carriage
    return, space, U+0085, U+00A0, U+1680, U+2000 to U+200A, U+2028,
    U+2029, U+202F, U+205F and U+3000, in their UTF-8 encodings. *)
Definition IsSpace (rune : string) : bool :=
  match code_bytes rune with
  | [b] => ((9 <=? b) && (b <=? 13) || (b =? 32))%nat
  | [b0; b1] => ((b0 =? 194) && ((b1 =? 133) || (b1 =? 160)))%nat
  | [b0; b1; b2] =>
      ((b0 =? 225) && (b1 =? 154) && (b2 =? 128)
       || (b0 =? 226) && (b1 =? 128)
          && ((128 <=? b2) && (b2 <=? 138)
              || (b2 =? 168) || (b2 =? 169) || (b2 =? 175))
       || (b0 =? 226) && (b1 =? 129) && (b2 =? 159)
       || (b0 =? 227) && (b1 =? 128) && (b2 =? 128))%nat
  | _ => false
  end.

Fixpoint drop_spaces (runes : list string) : list string :=
  match runes with
  | [] => []
  | r :: rest => if IsSpace r then drop_spaces rest else runes
  end.

Fixpoint join (runes : list string) : string :=
  match runes with
  | [] => EmptyString
  | r :: rest => r +:+ join rest
  end.

(** [strings.TrimSpace]: the string without its leading and trailing
    white space. *)
Definition TrimSpace (s : string) : string :=
  join (rev (drop_spaces (rev (drop_spaces (split_runes 0 s))))).

End GoUnicode.

(** Wall-clock instants, as the civil fields [time.Time.Format] prints. *)
Record Time : Type := mkTime {
  t_year : nat; t_month : nat; t_day : nat;
  t_hour : nat; t_minute : nat; t_second : nat
}.

Module GoTime.

Definition digit (n : nat) : ascii := ascii_of_nat (48 + n mod 10).

Fixpoint digits (fuel n : nat) (acc : string) : string :=
  match fuel with
  | O => acc
  | S f =>
      let acc' := String (digit n) acc in
      if (n / 10 =? 0)%nat then acc' else digits f (n / 10) acc'
  end.

Definition itoa (n : nat) : string := digits (S n) n "".

Fixpoint zeros (k : nat) : string :=
  match k with O => "" | S k' => String "0" (zeros k') end.

(** [appendInt]: decimal, zero-padded on the left up to [width]. *)
Definition appendInt (n width : nat) : string :=
  zeros (width - String.length (itoa n)) +:+ itoa n.

(** [t.Format("20060102_150405")]. *)
Definition Format_20060102_150405 (t : Time) : string :=
  appendInt (t_year t) 4 +:+ appendInt (t_month t) 2 +:+ appendInt (t_day t) 2
  +:+ "_" +:+
  appendInt (t_hour t) 2 +:+ appendInt (t_minute t) 2 +:+ appendInt (t_second t) 2.

End GoTime.

(** ** Package [utils] ([utils/generator.go]) *)
Module Utils.
Import GoStrings.

(** *** Entropy: [crypto/rand]

    The reader is an oracle: its [k]-th answer is [src k], [None] when
    the reader reports an error.  Computations thread the position. *)
Definition Entropy : Type := nat -> option nat.
Definition Rand (A : Type) : Type := Entropy -> nat -> A * nat.

Definition ret {A} (a : A) : Rand A := fun _ k => (a, k).
Definition bind {A B} (c : Rand A) (f : A -> Rand B) : Rand B :=
  fun src k => let (a, k') := c src k in f a src k'.

Notation "x <- c ;; k" := (bind c (fun x => k))
  (at level 62, c at next level, right associativity).

(** [rand.Int(rand.Reader, max)] for [max > 0]: uniform in [[0, max)]. *)
Definition rand_Int (max : nat) : Rand (result nat) :=
  fun src k =>
    (match src k with
     | Some v => Ok (v mod max)%nat
     | None => Err "entropy source failed"
     end, S k).

(** *** Password generation *)
Record PasswordOptions : Type := mkPasswordOptions {
  Length : Z;
  IncludeUppercase : bool;
  IncludeLowercase : bool;
  IncludeNumbers : bool;
  IncludeSymbols : bool;
  ExcludeAmbiguous : bool
}.

Definition uppercaseChars : string := "ABCDEFGHIJKLMNOPQRSTUVWXYZ".
Definition lowercaseChars : string := "abcdefghijklmnopqrstuvwxyz".
Definition numberChars : string := "0123456789".
Definition symbolChars : string := "!@#$%^&*()-_=+[]{}|;:,.<>?".
Definition ambiguousChars : string := "0O1lI".

Definition DefaultPasswordOptions : PasswordOptions :=
  {| Length := 16;
     IncludeUppercase := true; IncludeLowercase := true;
     IncludeNumbers := true; IncludeSymbols := true;
     ExcludeAmbiguous := true |}.

Definition removeAmbiguousChars (charset : string) : string :=
  fold_left
    (fun result ambiguous => ReplaceAll result (String ambiguous "") "")
    (list_ascii_of_string ambiguousChars) charset.

(** [charset[i]]; every index the sources use is in range. *)
Definition byte_of (charset : string) (i : nat) : ascii :=
  match String.get i charset with
  | Some c => c
  | None => zero
  end.

Definition getRandomChar (charset : string) : Rand (result string) :=
  if (String.length charset =? 0)%nat then ret (Err "charset is empty")
  else
    randomIndex <- rand_Int (String.length charset) ;;
    match randomIndex with
    | Err e => ret (Err e)
    | Ok i => ret (Ok (String (byte_of charset i) ""))
    end.

(** [slice[i], slice[j] = slice[j], slice[i]]. *)
Definition swap (slice : list ascii) (i j : nat) : list ascii :=
  match slice !! i, slice !! j with
  | Some x, Some y => <[i:=y]> (<[j:=x]> slice)
  | _, _ => slice
  end.

(** The loop of [shuffleBytes], entered at index [i]. *)
Fixpoint shuffle_from (i : nat) (slice : list ascii)
  : Rand (list ascii * option string) :=
  match i with
  | O => ret (slice, None)
  | S i' =>
      randomIndex <- rand_Int (i + 1) ;;
      match randomIndex with
      | Err e => ret (slice, Some e)
      | Ok j => shuffle_from i' (swap slice i j)
      end
  end.

(** Fisher-Yates on the slice, in place; the slice comes back with the
    error, if any. *)
Definition shuffleBytes (slice : list ascii)
  : Rand (list ascii * option string) :=
  shuffle_from (length slice - 1) slice.

(** [for i, char := range guaranteedChars { if i < len(password) {...} }]
    from byte offset [i] on (the characters are ASCII, one byte each). *)
Fixpoint place (i : nat) (guaranteedChars : list ascii)
    (password : list ascii) : list ascii :=
  match guaranteedChars with
  | [] => password
  | char :: rest =>
      place (S i) rest
        (if (i <? length password)%nat then <[i:=char]> password
         else password)
  end.

(** [for i := ...; i < opts.Length; i++] with [n] iterations left. *)
Fixpoint fill (n i : nat) (charset : string) (password : list ascii)
  : Rand (result (list ascii)) :=
  match n with
  | O => ret (Ok password)
  | S n' =>
      randomChar <- getRandomChar charset ;;
      match randomChar with
      | Err e => ret (Err ("failed to generate random character: " +:+ e))
      | Ok rc => fill n' (S i) charset (<[i:=byte_of rc 0]> password)
      end
  end.

(** One [if opts.IncludeX { ... }] block: extend the charset and draw
    the guaranteed character of the class. *)
Definition include_class (chars : string) (acc : string * string)
  : Rand (string * string) :=
  let (charset, guaranteedChars) := acc in
  char <- getRandomChar chars ;;
  ret (charset +:+ chars,
       match char with
       | Ok c => guaranteedChars +:+ c
       | Err _ => guaranteedChars
       end).

Definition GeneratePassword (opts : PasswordOptions) : Rand (result string) :=
  if ((Length opts <? 8) || (Length opts >? 64))%Z
  then ret (Err "password length must be between 8 and 64 characters")
  else if negb (IncludeUppercase opts) && negb (IncludeLowercase opts)
          && negb (IncludeNumbers opts) && negb (IncludeSymbols opts)
  then ret (Err "at least one character type must be included")
  else
    acc <- (if IncludeUppercase opts
            then include_class
                   (if ExcludeAmbiguous opts
                    then removeAmbiguousChars uppercaseChars
                    else uppercaseChars) ("", "")
            else ret ("", "")) ;;
    acc <- (if IncludeLowercase opts
            then include_class
                   (if ExcludeAmbiguous opts
                    then removeAmbiguousChars lowercaseChars
                    else lowercaseChars) acc
            else ret acc) ;;
    acc <- (if IncludeNumbers opts
            then include_class
                   (if ExcludeAmbiguous opts
                    then removeAmbiguousChars numberChars
                    else numberChars) acc
            else ret acc) ;;
    acc <- (if IncludeSymbols opts
            then include_class symbolChars acc
            else ret acc) ;;
    let (charset, guaranteedChars) := acc in
    let password := replicate (Z.to_nat (Length opts)) zero in
    let password := place 0 (list_ascii_of_string guaranteedChars) password in
    filled <- fill (Z.to_nat (Length opts) - String.length guaranteedChars)
                   (String.length guaranteedChars) charset password ;;
    match filled with
    | Err e => ret (Err e)
    | Ok password =>
        shuffled <- shuffleBytes password ;;
        match shuffled with
        | (_, Some e) => ret (Err ("failed to shuffle password: " +:+ e))
        | (password, None) => ret (Ok (string_of_list_ascii password))
        end
    end.

(** *** Filename codec *)

(** Membership in the class [a-zA-Z0-9\-_]. *)
Definition in_name_class (c : ascii) : bool :=
  is_lower c || is_upper c || is_digit c
  || Ascii.eqb c "-" || Ascii.eqb c "_".

(** [regexp.MustCompile(`[^a-zA-Z0-9\-_]`).ReplaceAllString(s, "_")]:
    the pattern matches one rune; a rune outside the class, whatever
    its width in bytes, becomes one ["_"].  [skip] counts the bytes of
    the rune being replaced that are still to be dropped. *)
Fixpoint clean_from (skip : nat) (s : string) : string :=
  match s with
  | EmptyString => EmptyString
  | String c t =>
      match skip with
      | S k => clean_from k t
      | O =>
          if in_name_class c then String c (clean_from 0 t)
          else String "_" (clean_from (Utf8.rune_width s - 1) t)
      end
  end.

Definition GenerateFilename (now : Time) (siteName : string) : string :=
  let cleanName := clean_from 0 siteName in
  let cleanName := ToLower cleanName in
  let cleanName :=
    if (20 <? String.length cleanName)%nat then slice_to cleanName 20
    else cleanName in
  let timestamp := GoTime.Format_20060102_150405 now in
  cleanName +:+ "_" +:+ timestamp.

Definition ParseFilenameToSiteName (filename : string) : string :=
  let filename :=
    if HasSuffix filename ".gpg" then TrimSuffix filename ".gpg"
    else filename in
  let lastUnderscore := LastIndex filename "_" in
  if (lastUnderscore =? -1)%Z then ReplaceAll filename "_" " "
  else
    let potentialTimestamp :=
      slice_from filename (Z.to_nat (lastUnderscore + 1)) in
    if (len potentialTimestamp =? 15)%Z && Contains potentialTimestamp "_"
    then
      let siteName := slice_to filename (Z.to_nat lastUnderscore) in
      ReplaceAll siteName "_" " "
    else ReplaceAll filename "_" " ".

(** *** Strength, sanitizing, truncation *)

(** [regexp.MatchString] on a one-character class: some rune of the
    string is in the class.  The classes below are sets of ASCII
    characters or the complement of one, and an ASCII byte is always a
    rune of its own, so the test can be made byte by byte. *)
Fixpoint any_byte (class : ascii -> bool) (s : string) : bool :=
  match s with
  | EmptyString => false
  | String c t => class c || any_byte class t
  end.

Definition is_alnum (c : ascii) : bool := is_lower c || is_upper c || is_digit c.

Definition descriptions : list string :=
  ["Very Weak"; "Weak"; "Fair"; "Good"; "Strong"].

(** [descriptions[score]] panics out of range: [None]. *)
Definition EvaluatePasswordStrength (password : string) : Z * option string :=
  let score := 0%Z in
  let score := if (8 <=? len password)%Z then (score + 1)%Z else score in
  let score := if (12 <=? len password)%Z then (score + 1)%Z else score in
  let score := if any_byte is_lower password then (score + 1)%Z else score in
  let score := if any_byte is_upper password then (score + 1)%Z else score in
  let score := if any_byte is_digit password then (score + 1)%Z else score in
  let score :=
    if any_byte (fun c => negb (is_alnum c)) password then (score + 1)%Z
    else score in
  let score := if (score >? 4)%Z then 4%Z else score in
  (score, if (score <? 0)%Z then None else descriptions !! Z.to_nat score).

(** Membership in the class [\x00-\x1F\x7F]. *)
Definition is_control (c : ascii) : bool :=
  (nat_of_ascii c <=? 31)%nat || (nat_of_ascii c =? 127)%nat.

(** [reg.ReplaceAllString(input, "")] for that class: the control
    characters are single bytes, they are dropped. *)
Fixpoint strip_controls (s : string) : string :=
  match s with
  | EmptyString => EmptyString
  | String c t =>
      if is_control c then strip_controls t else String c (strip_controls t)
  end.

Definition SanitizeInput (input : string) : string :=
  let sanitized := strip_controls input in
  let sanitized := GoUnicode.TrimSpace sanitized in
  sanitized.

(** [s[:maxLen]] panics for a negative [maxLen]: [None]. *)
Definition TruncateString (s : string) (maxLen : Z) : option string :=
  if (len s <=? maxLen)%Z then Some s
  else if (maxLen <=? 3)%Z then
    if (maxLen <? 0)%Z then None else Some (slice_to s (Z.to_nat maxLen))
  else Some (slice_to s (Z.to_nat (maxLen - 3)) +:+ "...").

End Utils.

(** ** The file system ([os.WriteFile], [os.ReadFile], [os.ReadDir], ...)

    Paths are compared literally (no links, no normalisation).  A node is
    a regular file with its bytes and permission bits, or a directory.
    Access checks against the permission bits are not part of the model:
    the process is taken to have access to what exists. *)
Module Os.
Import GoStrings.

Inductive Node : Type :=
| File (content : string) (perm : Z)
| Directory (perm : Z).

Record FileSystem : Type := mkFS {
  nodes : gmap string Node;
  umask : Z
}.

Record DirEntry : Type := mkDirEntry {
  Name : string;
  IsDir : bool
}.

(** The directory a path lies in: everything before its last ["/"]. *)
Definition parent (path : string) : option string :=
  match last_index path "/" with
  | Some i => Some (slice_to path i)
  | None => None
  end.

Definition is_directory (fs : FileSystem) (path : string) : bool :=
  match nodes fs !! path with
  | Some (Directory _) => true
  | _ => false
  end.

(** [os.WriteFile(name, data, perm)]: open with
    [O_WRONLY|O_CREATE|O_TRUNC]; a new file gets [perm] minus the
    process umask, an existing file keeps its permission bits. *)
Definition WriteFile (name data : string) (perm : Z) (fs : FileSystem)
  : option string * FileSystem :=
  match nodes fs !! name with
  | Some (Directory _) => (Some "is a directory", fs)
  | Some (File _ old) =>
      (None, mkFS (<[name := File data old]> (nodes fs)) (umask fs))
  | None =>
      if match parent name with
         | Some dir => is_directory fs dir
         | None => true
         end
      then (None, mkFS (<[name := File data (Z.ldiff perm (umask fs))]> (nodes fs))
                       (umask fs))
      else (Some "no such file or directory", fs)
  end.

Definition ReadFile (name : string) (fs : FileSystem) : result string :=
  match nodes fs !! name with
  | Some (File content _) => Ok content
  | Some (Directory _) => Err "is a directory"
  | None => Err "no such file or directory"
  end.

(** [os.Stat] followed by [os.IsNotExist(err)]. *)
Definition Stat_IsNotExist (name : string) (fs : FileSystem) : bool :=
  match nodes fs !! name with
  | Some _ => false
  | None => true
  end.

(** Some node lies below [dir]. *)
Definition has_children (fs : FileSystem) (dir : string) : bool :=
  existsb (fun kv => String.prefix (dir +:+ "/") (fst kv))
    (map_to_list (nodes fs)).

(** [os.Remove]: a file, or an empty directory. *)
Definition Remove (name : string) (fs : FileSystem)
  : option string * FileSystem :=
  match nodes fs !! name with
  | Some (File _ _) => (None, mkFS (delete name (nodes fs)) (umask fs))
  | Some (Directory _) =>
      if has_children fs name then (Some "directory not empty", fs)
      else (None, mkFS (delete name (nodes fs)) (umask fs))
  | None => (Some "no such file or directory", fs)
  end.

(** [os.Mkdir(name, perm)]: the directory must not exist and its parent
    must. *)
Definition Mkdir (name : string) (perm : Z) (fs : FileSystem)
  : option string * FileSystem :=
  match nodes fs !! name with
  | Some _ => (Some "file exists", fs)
  | None =>
      if match parent name with
         | Some dir => is_directory fs dir
         | None => true
         end
      then (None, mkFS (<[name := Directory (Z.ldiff perm (umask fs))]> (nodes fs))
                       (umask fs))
      else (Some "no such file or directory", fs)
  end.

(** [os.IsNotExist] of the error of [os.ReadDir(name)]. *)
Definition ReadDir_IsNotExist (name : string) (fs : FileSystem) : bool :=
  match nodes fs !! name with
  | None => true
  | Some _ => false
  end.

(** The entry a node at [path] contributes to the listing of [dir]:
    its name, when it lies directly in [dir]. *)
Definition entry_in (dir : string) (kv : string * Node) : option DirEntry :=
  let (path, node) := kv in
  if String.prefix (dir +:+ "/") path then
    let name := slice_from path (String.length dir + 1) in
    if String.eqb name "" || Contains name "/" then None
    else Some (mkDirEntry name
                 match node with Directory _ => true | File _ _ => false end)
  else None.

Fixpoint insert_sorted (e : DirEntry) (l : list DirEntry) : list DirEntry :=
  match l with
  | [] => [e]
  | x :: l' =>
      if String.leb (Name e) (Name x) then e :: l
      else x :: insert_sorted e l'
  end.

(** [os.ReadDir(name)]: the entries of the directory, sorted by
    filename. *)
Definition ReadDir (name : string) (fs : FileSystem) : result (list DirEntry) :=
  if is_directory fs name
  then Ok (foldr insert_sorted []
             (omap (entry_in name) (map_to_list (nodes fs))))
  else Err "no such file or directory".

End Os.

(** ** Package [fileio] ([fileio/fileio.go]) *)
Module Fileio.
Import Os.

Record PasswordFolder : Type := mkPasswordFolder {
  FolderLocation : string;
  Dirs : list DirEntry;
  InitCheck : bool;
  Password : string
}.

(** [fmt.Sprintf("%s/%s.gpg", pf.FolderLocation, fileName)]. *)
Definition path_of (pf : PasswordFolder) (fileName : string) : string :=
  FolderLocation pf +:+ "/" +:+ fileName +:+ ".gpg".

Definition FileExists (fileName : string) (fs : FileSystem) : bool :=
  if Stat_IsNotExist fileName fs then false else true.

(** The permission bits [WriteToFile] passes to [os.WriteFile]: octal
    [0666]. *)
Definition write_perm : Z := 0x1b6.

(** The error, when there is one, is also logged ([log.Printf]); the log
    is not part of the state. *)
Definition WriteToFile (pf : PasswordFolder) (fileName input : string)
    (fs : FileSystem) : option string * FileSystem :=
  match WriteFile (path_of pf fileName) input write_perm fs with
  | (Some err, fs') => (Some err, fs')
  | (None, fs') => (None, fs')
  end.

Definition ReadFromFile (pf : PasswordFolder) (fileName : string)
    (fs : FileSystem) : result string :=
  match ReadFile (path_of pf fileName) fs with
  | Err err => Err err
  | Ok data => Ok data
  end.

Definition RefreshDirectoryListing (pf : PasswordFolder) (fs : FileSystem)
  : option string * PasswordFolder :=
  match ReadDir (FolderLocation pf) fs with
  | Err err =>
      (Some ("failed to read directory " +:+ FolderLocation pf +:+ ": " +:+ err),
       pf)
  | Ok dirs =>
      (None, mkPasswordFolder (FolderLocation pf) dirs (InitCheck pf) (Password pf))
  end.

Definition DeleteFile (pf : PasswordFolder) (fileName : string)
    (fs : FileSystem) : option string * FileSystem :=
  let filePath := path_of pf fileName in
  if negb (FileExists filePath fs)
  then (Some ("password file '" +:+ fileName +:+ ".gpg' does not exist"), fs)
  else
    match Remove filePath fs with
    | (Some err, fs') =>
        (Some ("failed to delete password file '" +:+ fileName +:+ ".gpg': " +:+ err),
         fs')
    | (None, fs') => (None, fs')
    end.

(** How the start-up ends: [log.Fatal] stops the process, or the folder
    is ready. *)
Inductive Startup : Type :=
| Fatal (msg : string) (fs : FileSystem)
| Ready (pf : PasswordFolder) (fs : FileSystem).

(** The permission bits [getDir] passes to [os.Mkdir]: octal [0750]. *)
Definition dir_perm : Z := 488.

(** The end of [getDir], once the two directories are there. *)
Definition finish_getDir (passwordEncFolder : string) (dirs : list DirEntry)
    (passwordFolder : PasswordFolder) (fs : FileSystem) : Startup :=
  let initCheck :=
    if negb (FileExists (passwordEncFolder +:+ "/.checker/init.gpg") fs)
    then false else InitCheck passwordFolder in
  Ready (mkPasswordFolder passwordEncFolder dirs initCheck
           (Password passwordFolder)) fs.

(** [getDir]; [home] is [os.Getenv("HOME")].  The errors of [os.Mkdir]
    are not looked at, as in the source. *)
Definition getDir (home : string) (passwordFolder : PasswordFolder)
    (fs : FileSystem) : Startup :=
  let passwordEncFolder := home +:+ "/.password-manager-store" in
  let (dirs, fs) :=
    if ReadDir_IsNotExist passwordEncFolder fs
    then
      let fs := snd (Mkdir passwordEncFolder dir_perm fs) in
      (ReadDir passwordEncFolder fs, fs)
    else (ReadDir passwordEncFolder fs, fs) in
  match dirs with
  | Err err => Fatal ("There was an error opening the file " +:+ err) fs
  | Ok dirs =>
      let checker := passwordEncFolder +:+ "/.checker" in
      match ReadDir checker fs with
      | Err err =>
          if ReadDir_IsNotExist checker fs
          then finish_getDir passwordEncFolder dirs passwordFolder
                 (snd (Mkdir checker dir_perm fs))
          else Fatal err fs
      | Ok _ => finish_getDir passwordEncFolder dirs passwordFolder fs
      end
  end.

Definition InitPasswordFolder (home : string) (fs : FileSystem) : Startup :=
  let passwordFolder := mkPasswordFolder "" [] true "" in
  getDir home passwordFolder fs.

End Fileio.

(** ** Package [types] *)
Module Types.
Record Options : Type := mkOptions {
  LoggedIn : bool;
  Quit : bool;
  ErrorMessage : string
}.
End Types.

(** ** The state of the process

    The [Menu], the [EncryptionFunctions] and the text-input widgets all
    hold pointers to one [PasswordFolder] and one [Options]: the state
    carries that one object of each, next to the file system, the number
    of clock readings and of cipher calls made so far, and the messages
    printed (terminal control sequences and the "Press Enter" prompts are
    left out). *)
Record World : Type := mkWorld {
  fs : Os.FileSystem;
  passwordFolder : Fileio.PasswordFolder;
  options : Types.Options;
  ticks : nat;
  seed : nat;
  stdout : list string
}.

Definition set_fs (fs' : Os.FileSystem) (w : World) : World :=
  mkWorld fs' (passwordFolder w) (options w) (ticks w) (seed w) (stdout w).

Definition set_passwordFolder (pf : Fileio.PasswordFolder) (w : World) : World :=
  mkWorld (fs w) pf (options w) (ticks w) (seed w) (stdout w).

Definition set_Password (p : string) (w : World) : World :=
  set_passwordFolder
    (Fileio.mkPasswordFolder (Fileio.FolderLocation (passwordFolder w))
       (Fileio.Dirs (passwordFolder w)) (Fileio.InitCheck (passwordFolder w)) p)
    w.

Definition set_InitCheck (b : bool) (w : World) : World :=
  set_passwordFolder
    (Fileio.mkPasswordFolder (Fileio.FolderLocation (passwordFolder w))
       (Fileio.Dirs (passwordFolder w)) b (Fileio.Password (passwordFolder w)))
    w.

Definition set_Quit (b : bool) (w : World) : World :=
  mkWorld (fs w) (passwordFolder w)
    (Types.mkOptions (Types.LoggedIn (options w)) b (Types.ErrorMessage (options w)))
    (ticks w) (seed w) (stdout w).

Definition set_ErrorMessage (msg : string) (w : World) : World :=
  mkWorld (fs w) (passwordFolder w)
    (Types.mkOptions (Types.LoggedIn (options w)) (Types.Quit (options w)) msg)
    (ticks w) (seed w) (stdout w).

Definition next_seed (w : World) : World :=
  mkWorld (fs w) (passwordFolder w) (options w) (ticks w) (S (seed w)) (stdout w).

Definition next_tick (w : World) : World :=
  mkWorld (fs w) (passwordFolder w) (options w) (S (ticks w)) (seed w) (stdout w).

(** [fmt.Printf] / [fmt.Println]. *)
Definition print (line : string) (w : World) : World :=
  mkWorld (fs w) (passwordFolder w) (options w) (ticks w) (seed w)
    (stdout w ++ [line]).

(** ** Package [encryption] ([encryption/encryption.go]) *)
Module Encryption.

Record Data : Type := mkData {
  Password : string;
  Username : string;
  Email : string;
  URL : string;
  CreatedAt : Time;
  UpdatedAt : Time
}.

(** [Data{}]. *)
Definition zeroTime : Time := mkTime 1 1 1 0 0 0.
Definition zeroData : Data := mkData "" "" "" "" zeroTime zeroTime.

(** The collaborators the engine calls and does not implement:
    [encoding/json] on [Data], the password-based OpenPGP encryption of
    gopenpgp, and the wall clock.
    - [json_Unmarshal bs d] fills [d] from [bs] and returns it with the
      error, if any (on an error the struct may be partly filled);
    - [pgp_Encrypt seed password plaintext] stands for
      [Encryption().Password(password).New()], [Encrypt] and
      [ArmorBytes]; [seed] is the randomness the cipher draws;
    - [pgp_Decrypt password armored] stands for
      [Decryption().Password(password).New()] and [Decrypt];
    - [time_Now k] is the answer of the [k]-th call of [time.Now()]. *)
Class Externals : Type := {
  json_Marshal : Data -> result string;
  json_Unmarshal : string -> Data -> Data * option string;
  pgp_Encrypt : nat -> string -> string -> result string;
  pgp_Decrypt : string -> string -> result string;
  time_Now : nat -> Time
}.

(** What the engine relies on from them: serialization round-trips and
    does not fail (as [encoding/json] does on the records the engine
    builds: text in UTF-8, years of four digits); a ciphertext opens
    under the passphrase it was made with and under no other;
    encryption under a non-empty passphrase does not fail. *)
Class Contract (X : Externals) : Prop := {
  json_roundtrip : forall d js,
    json_Marshal d = Ok js -> json_Unmarshal js zeroData = (d, None);
  json_total : forall d, exists js, json_Marshal d = Ok js;
  pgp_roundtrip : forall seed pw pt c,
    pgp_Encrypt seed pw pt = Ok c -> pgp_Decrypt pw c = Ok pt;
  pgp_authentic : forall seed pw pw' pt c,
    pgp_Encrypt seed pw pt = Ok c -> pw' <> pw ->
    exists e, pgp_Decrypt pw' c = Err e;
  pgp_total : forall seed pw pt,
    pw <> "" -> exists c, pgp_Encrypt seed pw pt = Ok c
}.

Section EncryptionFunctions.
Context {X : Externals}.

Definition EncryptPasswordAndWriteToFile (fileName : string) (data : Data)
    (w : World) : option string * World :=
  match json_Marshal data with
  | Err err => (Some err, w)
  | Ok jsonData =>
      let password := Fileio.Password (passwordFolder w) in
      match pgp_Encrypt (seed w) password jsonData with
      | Err err => (Some err, next_seed w)
      | Ok armored =>
          let w := next_seed w in
          match Fileio.WriteToFile (passwordFolder w) fileName armored (fs w) with
          | (Some err, fs') => (Some err, set_fs fs' w)
          | (None, fs') => (None, set_fs fs' w)
          end
      end
  end.

(** Reads only, so the state is not returned.  The error of
    [json.Unmarshal] is dropped, as in the source. *)
Definition DecryptPasswordFromFile (fileName : string) (w : World)
  : Data * option string :=
  let data := zeroData in
  match Fileio.ReadFromFile (passwordFolder w) fileName (fs w) with
  | Err err => (data, Some err)
  | Ok fileData =>
      let password := Fileio.Password (passwordFolder w) in
      match pgp_Decrypt password fileData with
      | Err err => (data, Some err)
      | Ok decrypted =>
          let (data, _) := json_Unmarshal decrypted data in
          (data, None)
      end
  end.

End EncryptionFunctions.

End Encryption.

(** ** Package [menus] *)
Module Menus.
Import GoStrings.

(** How a run of the text-input program ends ([textinput.model.Update]):
    Enter stores the typed value through the [output] pointer, Esc or
    Ctrl-C sets [options.Quit], or [p.Run()] fails. *)
Inductive Prompt : Type :=
| Enter (value : string)
| Esc
| RunError (err : string).

(** The final state of the change-password form ([change.ChangeModel]),
    or the error of [p.Run()]. *)
Record ChangeModel : Type := mkChangeModel {
  submitted : bool;
  cancelled : bool;
  currentPass : string;
  newPass : string;
  confirmPass : string
}.

(** [list.PasswordEntry]. *)
Record PasswordEntry : Type := mkPasswordEntry {
  Filename : string;
  SiteName : string;
  Username : string;
  Email : string;
  CreatedAt : Time
}.

Definition validatePassword (password : string) : bool * string :=
  let minPasswordLength := 8%Z in
  if (len password <? minPasswordLength)%Z
  then (false, "Master password must be at least 8 characters long")
  else (true, "").

Definition validatePhrase (phrase : string) : bool * string :=
  let minPhraseLength := 12%Z in
  if (len phrase <? minPhraseLength)%Z
  then (false, "Phrase must be at least 12 characters long")
  else (true, "").

(** The key of the validation record. *)
Definition validationKey : string := ".checker/init".

(** Where a loop of [Login] leaves the function: it returned, it was
    left by [break] with the rest of the user's answers, or the user
    has not answered yet. *)
Inductive Flow (A : Type) : Type :=
| Returned (r : bool * option string) (w : World)
| Break (a : A) (script : list Prompt) (w : World)
| Waiting.
Arguments Returned {A} r w.
Arguments Break {A} a script w.
Arguments Waiting {A}.

Section Menu.
Import Encryption.
Context {X : Externals}.

(** [p.Run()] of a text input whose [output] is
    [&menu.passwordFolder.Password]. *)
Definition run_password_input (ev : Prompt) (w : World)
  : option string * World :=
  match ev with
  | Enter value => (None, set_Password value w)
  | Esc => (None, set_Quit true w)
  | RunError err => (Some err, w)
  end.

(** [p.Run()] of a text input whose [output] is the local [&phrase]. *)
Definition run_phrase_input (ev : Prompt) (phrase : string) (w : World)
  : option string * (string * World) :=
  match ev with
  | Enter value => (None, (value, w))
  | Esc => (None, (phrase, set_Quit true w))
  | RunError err => (Some err, (phrase, w))
  end.

(** First loop of the set-up: the master password. *)
Fixpoint master_password_loop (script : list Prompt) (w : World) : Flow unit :=
  match script with
  | [] => Waiting
  | ev :: script =>
      match run_password_input ev w with
      | (Some err, w) => Returned (false, Some err) w
      | (None, w) =>
          if Types.Quit (options w) then Returned (false, None) w
          else
            let (valid, errorMsg) :=
              validatePassword (Fileio.Password (passwordFolder w)) in
            if valid then Break tt script w
            else
              let w := set_ErrorMessage errorMsg w in
              let w := set_Password "" w in
              master_password_loop script w
      end
  end.

(** Second loop of the set-up: the validation phrase. *)
Fixpoint phrase_loop (script : list Prompt) (phrase : string) (w : World)
  : Flow string :=
  match script with
  | [] => Waiting
  | ev :: script =>
      let w := set_ErrorMessage "" w in
      match run_phrase_input ev phrase w with
      | (Some err, (_, w)) => Returned (false, Some err) w
      | (None, (phrase, w)) =>
          if Types.Quit (options w) then Returned (false, None) w
          else
            let (valid, errorMsg) := validatePhrase phrase in
            if valid then Break phrase script w
            else
              let w := set_ErrorMessage errorMsg w in
              phrase_loop script "" w
      end
  end.

(** The [if !menu.passwordFolder.InitCheck { ... }] block. *)
Definition setup (script : list Prompt) (w : World) : Flow unit :=
  match master_password_loop script w with
  | Returned r w => Returned r w
  | Waiting => Waiting
  | Break _ script w =>
      match phrase_loop script "" w with
      | Returned r w => Returned r w
      | Waiting => Waiting
      | Break phrase script w =>
          let w := set_InitCheck false w in
          let createdAt := time_Now (ticks w) in
          let w := next_tick w in
          let updatedAt := time_Now (ticks w) in
          let w := next_tick w in
          let data := mkData phrase "" "" "" createdAt updatedAt in
          match EncryptPasswordAndWriteToFile validationKey data w with
          | (Some err, w) => Returned (false, Some err) w
          | (None, w) =>
              let w := set_InitCheck true w in
              let w := set_Password "" w in
              Break tt script w
          end
      end
  end.

(** [Login]: [script] is what the user answers to the successive
    prompts; [None] when the function is still waiting for an answer. *)
Definition Login (script : list Prompt) (w : World)
  : option ((bool * option string) * World) :=
  let w := set_ErrorMessage "" w in
  match (if negb (Fileio.InitCheck (passwordFolder w))
         then setup script w
         else Break tt script w) with
  | Returned r w => Some (r, w)
  | Waiting => None
  | Break _ [] _ => None
  | Break _ (ev :: _) w =>
      match run_password_input ev w with
      | (Some err, w) => Some ((false, Some err), w)
      | (None, w) =>
          match DecryptPasswordFromFile validationKey w with
          | (_, Some _) => Some ((false, None), w)
          | (data, None) =>
              let w := set_Password (Password data) w in
              Some ((true, None), w)
          end
      end
  end.

(** The body of the loop of [getAllPasswordEntries]. *)
Definition visit (w : World) (entries : list PasswordEntry)
    (dirEntry : Os.DirEntry) : list PasswordEntry :=
  if Os.IsDir dirEntry || negb (HasSuffix (Os.Name dirEntry) ".gpg")
  then entries
  else if String.eqb (Os.Name dirEntry) "init.gpg" then entries
  else if Contains (Os.Name dirEntry) ".checker" then entries
  else
    let filename := TrimSuffix (Os.Name dirEntry) ".gpg" in
    match DecryptPasswordFromFile filename w with
    | (_, Some _) => entries
    | (passwordData, None) =>
        let siteName := Utils.ParseFilenameToSiteName filename in
        let entry :=
          mkPasswordEntry filename siteName
            (Encryption.Username passwordData)
            (Encryption.Email passwordData)
            (Encryption.CreatedAt passwordData) in
        entries ++ [entry]
    end.

Definition getAllPasswordEntries (w : World)
  : result (list PasswordEntry) * World :=
  match Fileio.RefreshDirectoryListing (passwordFolder w) (fs w) with
  | (Some err, _) =>
      (Err ("failed to refresh directory listing: " +:+ err), w)
  | (None, pf) =>
      let w := set_passwordFolder pf w in
      (Ok (fold_left (visit w) (Fileio.Dirs (passwordFolder w)) []), w)
  end.

(** [ChangeMasterPassword]; [form] is the outcome of running the
    change-password form. *)
Definition ChangeMasterPassword (form : result ChangeModel) (w : World)
  : (bool * option string) * World :=
  let w := set_ErrorMessage "" w in
  match form with
  | Err err => ((false, Some ("error running change password form: " +:+ err)), w)
  | Ok formModel =>
      if cancelled formModel
      then ((false, None), set_Quit false w) (* Esc in the form clears Quit *)
      else if negb (submitted formModel) then ((false, None), w)
      else
        let currentPass := currentPass formModel in
        let newPass := newPass formModel in
        (* Step 1 *)
        let oldPassword := Fileio.Password (passwordFolder w) in
        let w := set_Password currentPass w in
        match DecryptPasswordFromFile validationKey w with
        | (_, Some _) =>
            let w := set_Password oldPassword w in
            let w := print "❌ Error: Current password is incorrect" w in
            ((false, None), w)
        | (validationData, None) =>
            (* Step 2 *)
            let w := set_Password newPass w in
            let updatedAt := time_Now (ticks w) in
            let w := next_tick w in
            let validationData :=
              mkData (Password validationData)
                (Encryption.Username validationData)
                (Encryption.Email validationData) (URL validationData)
                (Encryption.CreatedAt validationData) updatedAt in
            match EncryptPasswordAndWriteToFile validationKey validationData w with
            | (Some err, w) =>
                let w := set_Password oldPassword w in
                let w := print ("❌ Error saving new master password: " +:+ err) w in
                ((false, None), w)
            | (None, w) =>
                (* Step 3 *)
                match DecryptPasswordFromFile validationKey w with
                | (_, Some err) =>
                    let w := print "❌ Critical Error: Cannot decrypt with new password. Please check your password store manually." w in
                    ((false,
                      Some ("critical error: new password verification failed: " +:+ err)),
                     w)
                | (testData, None) =>
                    if negb (String.eqb (Password testData) (Password validationData))
                    then
                      let w := print "❌ Critical Error: Validation data corrupted during password change." w in
                      ((false, Some "validation data integrity check failed"), w)
                    else
                      (* Step 4 *)
                      let w := print "✅ Master password changed successfully!" w in
                      let w := print "Your new master password is now active." w in
                      let w := print "You will need to use the new password for future logins." w in
                      ((true, None), w)
                end
            end
        end
  end.

End Menu.

End Menus.

(** ** Go slices *)
Module GoSlice.

Definition len {A} (l : list A) : Z := Z.of_nat (length l).

(** [l[i]]; out of range is a run-time panic ([None]). *)
Definition index {A} (l : list A) (i : Z) : option A :=
  if (i <? 0)%Z then None else l !! Z.to_nat i.

(** [l[i] = f(l[i])]. *)
Definition modify {A} (l : list A) (i : Z) (f : A -> A) : option (list A) :=
  match index l i with
  | Some x => Some (<[Z.to_nat i := f x]> l)
  | None => None
  end.

End GoSlice.

(** ** Bubble Tea: messages and the event loop *)
Module Tea.

(** A message: a key press, under the name [KeyMsg.String()] gives it,
    or any other message (window size, cursor blink, ...). *)
Inductive Msg : Type :=
| KeyMsg (key : string)
| OtherMsg.

Definition key_in (key : string) (keys : list string) : bool :=
  existsb (String.eqb key) keys.

(** How a run of [tea.Program] stands after some messages: [Update]
    panicked, no [tea.Quit] command was returned yet, or the program has
    ended with its final model. *)
Inductive Outcome (M : Type) : Type :=
| Panic
| Pending (m : M) (options : Types.Options)
| Done (m : M) (options : Types.Options).
Arguments Panic {M}.
Arguments Pending {M} m options.
Arguments Done {M} m options.

Section Program.
Context {M : Type}.
(** [Update] of a model: the next model, whether the command is
    [tea.Quit], and the shared [Options] it may write to. *)
Variable update :
  M -> Msg -> Types.Options -> option ((M * bool) * Types.Options).

(** The messages are handed to [Update] one after the other, whatever
    commands it returns. *)
Fixpoint deliver (msgs : list Msg) (m : M) (options : Types.Options)
  : option (M * Types.Options) :=
  match msgs with
  | [] => Some (m, options)
  | msg :: msgs =>
      match update m msg options with
      | None => None
      | Some ((m, _), options) => deliver msgs m options
      end
  end.

(** [p.Run()]: the program ends with the model that returned the first
    [tea.Quit]. *)
Fixpoint Run (msgs : list Msg) (m : M) (options : Types.Options) : Outcome M :=
  match msgs with
  | [] => Pending m options
  | msg :: msgs =>
      match update m msg options with
      | None => Panic
      | Some ((m, true), options) => Done m options
      | Some ((m, false), options) => Run msgs m options
      end
  end.

End Program.

End Tea.

(** ** The text input of [bubbles/textinput]

    The forms embed it and read it through [Value()] only; what a
    message does to it is the library's business.  [Configure] stands
    for the assignments to [Placeholder], [CharLimit], [Width], the
    styles, [EchoMode] and [EchoCharacter]: plain assignments to fields
    that [Focus] does not touch, so their order against [Focus] does
    not matter. *)
Module Bubbles.

Class TextInput : Type := {
  Input : Type;
  New : Input;
  Configure : string -> Z -> Z -> bool -> Input -> Input;
  Value : Input -> string;
  Update : Input -> Tea.Msg -> Input;
  Focus : Input -> Input;
  Blur : Input -> Input
}.

End Bubbles.

(** ** Package [form] *)
Module Form.
Import GoStrings Tea.

Record FormField : Type := mkFormField {
  Label : string;
  Placeholder : string;
  Required : bool;
  Masked : bool;
  Value : string
}.

Definition password_fields : list FormField :=
  [ mkFormField "Site/Service Name" "e.g., Gmail, GitHub, Banking" true false "";
    mkFormField "Username" "your_username" false false "";
    mkFormField "Email" "user@example.com" false false "";
    mkFormField "URL" "https://example.com" false false "";
    mkFormField "Password" "Enter password or generate one" true true "" ].

(** The key [GetFormData] files a field under. *)
Definition data_key (label : string) : string :=
  ReplaceAll (ReplaceAll (ToLower label) "/" "_") " " "_".

(** [formData[key]]: the empty string when the key is absent. *)
Definition at_key (data : gmap string string) (key : string) : string :=
  default "" (data !! key).

Section Form.
Context {T : Bubbles.TextInput}.

Record FormModel : Type := mkFormModel {
  fields : list FormField;
  inputs : list Bubbles.Input;
  currentField : Z;
  submitted : bool;
  cancelled : bool
}.

Definition new_input (i : nat) (field : FormField) : Bubbles.Input :=
  let ti := Bubbles.Configure (Placeholder field) 200 50 (Masked field)
              Bubbles.New in
  if (i =? 0)%nat then Bubbles.Focus ti else ti.

Definition NewPasswordForm : FormModel :=
  mkFormModel password_fields (imap new_input password_fields) 0 false false.

(** The loop of [validateForm] from field [i] on. *)
Fixpoint validate_from (i : Z) (fields : list FormField)
    (inputs : list Bubbles.Input) : option bool :=
  match fields with
  | [] => Some true
  | field :: fields =>
      if Required field then
        match GoSlice.index inputs i with
        | None => None
        | Some ti =>
            if String.eqb (GoUnicode.TrimSpace (Bubbles.Value ti)) ""
            then Some false
            else validate_from (i + 1) fields inputs
        end
      else validate_from (i + 1) fields inputs
  end.

Definition validateForm (m : FormModel) : option bool :=
  validate_from 0 (fields m) (inputs m).

Fixpoint error_from (i : Z) (fields : list FormField)
    (inputs : list Bubbles.Input) : option string :=
  match fields with
  | [] => Some ""
  | field :: fields =>
      if Required field then
        match GoSlice.index inputs i with
        | None => None
        | Some ti =>
            if String.eqb (GoUnicode.TrimSpace (Bubbles.Value ti)) ""
            then Some ("'" +:+ Label field +:+ "' is required")
            else error_from (i + 1) fields inputs
        end
      else error_from (i + 1) fields inputs
  end.

Definition getValidationError (m : FormModel) : option string :=
  error_from 0 (fields m) (inputs m).

(** [for i := range m.fields { m.fields[i].Value = m.inputs[i].Value() }]. *)
Fixpoint store_values (i : Z) (fields : list FormField)
    (inputs : list Bubbles.Input) : option (list FormField) :=
  match fields with
  | [] => Some []
  | field :: fields =>
      match GoSlice.index inputs i with
      | None => None
      | Some ti =>
          match store_values (i + 1) fields inputs with
          | None => None
          | Some fields =>
              Some (mkFormField (Label field) (Placeholder field)
                      (Required field) (Masked field) (Bubbles.Value ti)
                    :: fields)
          end
      end
  end.

(** Blur the current input, make [next] the current field, focus it. *)
Definition move (next : Z) (m : FormModel) : option FormModel :=
  match GoSlice.modify (inputs m) (currentField m) Bubbles.Blur with
  | None => None
  | Some inputs =>
      match GoSlice.modify inputs next Bubbles.Focus with
      | None => None
      | Some inputs =>
          Some (mkFormModel (fields m) inputs next (submitted m) (cancelled m))
      end
  end.

(** The message goes to the current input. *)
Definition forward (msg : Msg) (m : FormModel) : option FormModel :=
  match GoSlice.modify (inputs m) (currentField m)
          (fun ti => Bubbles.Update ti msg) with
  | None => None
  | Some inputs =>
      Some (mkFormModel (fields m) inputs (currentField m) (submitted m)
              (cancelled m))
  end.

Definition Update (m : FormModel) (msg : Msg) (options : Types.Options)
  : option ((FormModel * bool) * Types.Options) :=
  let last := (GoSlice.len (inputs m) - 1)%Z in
  let go next :=
    match move next m with
    | None => None
    | Some m => Some ((m, false), options)
    end in
  let stay :=
    match forward msg m with
    | None => None
    | Some m => Some ((m, false), options)
    end in
  match msg with
  | KeyMsg key =>
      if key_in key ["ctrl+c"; "esc"] then
        Some ((mkFormModel (fields m) (inputs m) (currentField m) (submitted m)
                 true, true),
              Types.mkOptions (Types.LoggedIn options) false
                (Types.ErrorMessage options))
      else if key_in key ["enter"] then
        if (currentField m <? last)%Z then go (currentField m + 1)%Z
        else
          match validateForm m with
          | None => None
          | Some true =>
              match store_values 0 (fields m) (inputs m) with
              | None => None
              | Some fields =>
                  Some ((mkFormModel fields (inputs m) (currentField m) true
                           (cancelled m), true), options)
              end
          | Some false => Some ((m, false), options)
          end
      else if key_in key ["tab"; "shift+tab"; "up"; "down"] then
        if key_in key ["up"; "shift+tab"] then
          if (currentField m >? 0)%Z then go (currentField m - 1)%Z else stay
        else
          if (currentField m <? last)%Z then go (currentField m + 1)%Z else stay
      else stay
  | OtherMsg => stay
  end.

(** The labels are ASCII, where [strings.ToLower] is the byte-wise map. *)
Definition GetFormData (m : FormModel) : gmap string string :=
  fold_left (fun data field => <[data_key (Label field) := Value field]> data)
    (fields m) ∅.

End Form.

End Form.

(** ** Package [change]: the form of the master-password change *)
Module Change.
Import GoStrings Tea.

Definition CurrentPasswordField : Z := 0.
Definition NewPasswordField : Z := 1.
Definition ConfirmPasswordField : Z := 2.

Section Change.
Context {T : Bubbles.TextInput}.

Record ChangeModel : Type := mkChangeModel {
  inputs : list Bubbles.Input;
  currentField : Z;
  submitted : bool;
  cancelled : bool;
  currentPass : string;
  newPass : string;
  confirmPass : string
}.

Definition NewChangePasswordForm : ChangeModel :=
  mkChangeModel
    [ Bubbles.Focus
        (Bubbles.Configure "Enter current master password" 200 50 true
           Bubbles.New);
      Bubbles.Configure "Enter new master password (8+ chars)" 200 50 true
        Bubbles.New;
      Bubbles.Configure "Confirm new master password" 200 50 true Bubbles.New ]
    0 false false "" "" "".

(** [strings.TrimSpace(m.inputs[field].Value())]. *)
Definition trimmed (m : ChangeModel) (field : Z) : option string :=
  match GoSlice.index (inputs m) field with
  | None => None
  | Some ti => Some (GoUnicode.TrimSpace (Bubbles.Value ti))
  end.

Definition validateForm (m : ChangeModel) : option bool :=
  match trimmed m CurrentPasswordField with
  | None => None
  | Some currentPass =>
  match trimmed m NewPasswordField with
  | None => None
  | Some newPass =>
  match trimmed m ConfirmPasswordField with
  | None => None
  | Some confirmPass =>
      if String.eqb currentPass "" || String.eqb newPass ""
         || String.eqb confirmPass ""
      then Some false
      else if (len newPass <? 8)%Z then Some false
      else if negb (String.eqb newPass confirmPass) then Some false
      else Some true
  end end end.

Definition getValidationError (m : ChangeModel) : option string :=
  match trimmed m CurrentPasswordField with
  | None => None
  | Some currentPass =>
  match trimmed m NewPasswordField with
  | None => None
  | Some newPass =>
  match trimmed m ConfirmPasswordField with
  | None => None
  | Some confirmPass =>
      if String.eqb currentPass "" && (currentField m >? CurrentPasswordField)%Z
      then Some "Current password is required"
      else if String.eqb newPass "" && (currentField m >? NewPasswordField)%Z
      then Some "New password is required"
      else if (len newPass >? 0)%Z && (len newPass <? 8)%Z
      then Some "New password must be at least 8 characters long"
      else if String.eqb confirmPass ""
              && (currentField m >? ConfirmPasswordField)%Z
      then Some "Password confirmation is required"
      else if negb (String.eqb newPass "") && negb (String.eqb confirmPass "")
              && negb (String.eqb newPass confirmPass)
      then Some "New passwords do not match"
      else Some ""
  end end end.

Definition move (next : Z) (m : ChangeModel) : option ChangeModel :=
  match GoSlice.modify (inputs m) (currentField m) Bubbles.Blur with
  | None => None
  | Some inputs =>
      match GoSlice.modify inputs next Bubbles.Focus with
      | None => None
      | Some inputs =>
          Some (mkChangeModel inputs next (submitted m) (cancelled m)
                  (currentPass m) (newPass m) (confirmPass m))
      end
  end.

Definition forward (msg : Msg) (m : ChangeModel) : option ChangeModel :=
  match GoSlice.modify (inputs m) (currentField m)
          (fun ti => Bubbles.Update ti msg) with
  | None => None
  | Some inputs =>
      Some (mkChangeModel inputs (currentField m) (submitted m) (cancelled m)
              (currentPass m) (newPass m) (confirmPass m))
  end.

(** [m.inputs[field].Value()]. *)
Definition value_at (m : ChangeModel) (field : Z) : option string :=
  match GoSlice.index (inputs m) field with
  | None => None
  | Some ti => Some (Bubbles.Value ti)
  end.

Definition Update (m : ChangeModel) (msg : Msg) (options : Types.Options)
  : option ((ChangeModel * bool) * Types.Options) :=
  let last := (GoSlice.len (inputs m) - 1)%Z in
  let go next :=
    match move next m with
    | None => None
    | Some m => Some ((m, false), options)
    end in
  let stay :=
    match forward msg m with
    | None => None
    | Some m => Some ((m, false), options)
    end in
  match msg with
  | KeyMsg key =>
      if key_in key ["ctrl+c"; "esc"] then
        Some ((mkChangeModel (inputs m) (currentField m) (submitted m) true
                 (currentPass m) (newPass m) (confirmPass m), true),
              Types.mkOptions (Types.LoggedIn options) false
                (Types.ErrorMessage options))
      else if key_in key ["enter"] then
        if (currentField m <? last)%Z then go (currentField m + 1)%Z
        else
          match validateForm m with
          | None => None
          | Some true =>
              match value_at m CurrentPasswordField with
              | None => None
              | Some currentPass =>
              match value_at m NewPasswordField with
              | None => None
              | Some newPass =>
              match value_at m ConfirmPasswordField with
              | None => None
              | Some confirmPass =>
                  Some ((mkChangeModel (inputs m) (currentField m) true
                           (cancelled m) currentPass newPass confirmPass, true),
                        options)
              end end end
          | Some false => Some ((m, false), options)
          end
      else if key_in key ["tab"; "shift+tab"; "up"; "down"] then
        if key_in key ["up"; "shift+tab"] then
          if (currentField m >? 0)%Z then go (currentField m - 1)%Z else stay
        else
          if (currentField m <? last)%Z then go (currentField m + 1)%Z else stay
      else stay
  | OtherMsg => stay
  end.

(** What [ChangeMasterPassword] reads from the final model. *)
Definition final (m : ChangeModel) : Menus.ChangeModel :=
  Menus.mkChangeModel (submitted m) (cancelled m) (currentPass m) (newPass m)
    (confirmPass m).

End Change.

End Change.

(** ** Package [list]: the list of the entries *)
Module PasswordList.
Import Tea.

Record ListModel : Type := mkListModel {
  entries : list Menus.PasswordEntry;
  cursor : Z;
  selected : bool;
  selectedEntry : Menus.PasswordEntry
}.

(** [PasswordEntry{}]. *)
Definition zeroEntry : Menus.PasswordEntry :=
  Menus.mkPasswordEntry "" "" "" "" Encryption.zeroTime.

Definition NewPasswordList (entries : list Menus.PasswordEntry) : ListModel :=
  mkListModel entries 0 false zeroEntry.

Definition set_cursor (cursor : Z) (m : ListModel) : ListModel :=
  mkListModel (entries m) cursor (selected m) (selectedEntry m).

Definition Update (m : ListModel) (msg : Msg) (options : Types.Options)
  : option ((ListModel * bool) * Types.Options) :=
  match msg with
  | KeyMsg key =>
      if key_in key ["ctrl+c"; "esc"; "q"] then Some ((m, true), options)
      else if key_in key ["enter"; " "] then
        if (GoSlice.len (entries m) >? 0)%Z
           && (cursor m <? GoSlice.len (entries m))%Z
        then
          match GoSlice.index (entries m) (cursor m) with
          | None => None
          | Some entry =>
              Some ((mkListModel (entries m) (cursor m) true entry, true),
                    options)
          end
        else Some ((m, false), options)
      else if key_in key ["up"; "k"] then
        Some ((if (cursor m >? 0)%Z then set_cursor (cursor m - 1) m else m,
               false), options)
      else if key_in key ["down"; "j"] then
        Some ((if (cursor m <? GoSlice.len (entries m) - 1)%Z
               then set_cursor (cursor m + 1) m else m, false), options)
      else if key_in key ["home"] then
        Some ((set_cursor 0 m, false), options)
      else if key_in key ["end"] then
        Some ((if (GoSlice.len (entries m) >? 0)%Z
               then set_cursor (GoSlice.len (entries m) - 1) m else m, false),
              options)
      else Some ((m, false), options)
  | OtherMsg => Some ((m, false), options)
  end.

End PasswordList.

(** ** Package [detail]: one entry in full *)
Module Detail.
Import Tea.

Record DetailModel : Type := mkDetailModel {
  entry : Encryption.Data;
  filename : string;
  siteName : string;
  showPassword : bool;
  deleteRequested : bool
}.

Definition NewPasswordDetail (entry : Encryption.Data)
    (filename siteName : string) : DetailModel :=
  mkDetailModel entry filename siteName false false.

Definition Update (m : DetailModel) (msg : Msg) (options : Types.Options)
  : option ((DetailModel * bool) * Types.Options) :=
  match msg with
  | KeyMsg key =>
      if key_in key ["ctrl+c"; "esc"; "q"; "backspace"]
      then Some ((m, true), options)
      else if key_in key ["v"; " "] then
        Some ((mkDetailModel (entry m) (filename m) (siteName m)
                 (negb (showPassword m)) (deleteRequested m), false), options)
      else if key_in key ["d"; "D"] then
        Some ((mkDetailModel (entry m) (filename m) (siteName m)
                 (showPassword m) true, true), options)
      else if key_in key ["enter"] then Some ((m, true), options)
      else Some ((m, false), options)
  | OtherMsg => Some ((m, false), options)
  end.

End Detail.

(** ** Package [confirm]: the confirmation dialog *)
Module Confirm.
Import Tea.

Record ConfirmModel : Type := mkConfirmModel {
  siteName : string;
  filename : string;
  action : string;
  confirmed : bool;
  cancelled : bool;
  cursor : Z
}.

Definition NewConfirmDialog (siteName filename action : string) : ConfirmModel :=
  mkConfirmModel siteName filename action false false 0.

Definition set_confirmed (m : ConfirmModel) : ConfirmModel :=
  mkConfirmModel (siteName m) (filename m) (action m) true (cancelled m)
    (cursor m).

Definition set_cancelled (m : ConfirmModel) : ConfirmModel :=
  mkConfirmModel (siteName m) (filename m) (action m) (confirmed m) true
    (cursor m).

Definition set_cursor (cursor : Z) (m : ConfirmModel) : ConfirmModel :=
  mkConfirmModel (siteName m) (filename m) (action m) (confirmed m)
    (cancelled m) cursor.

Definition Update (m : ConfirmModel) (msg : Msg) (options : Types.Options)
  : option ((ConfirmModel * bool) * Types.Options) :=
  match msg with
  | KeyMsg key =>
      if key_in key ["ctrl+c"; "esc"; "n"; "N"]
      then Some ((set_cancelled m, true), options)
      else if key_in key ["y"; "Y"] then Some ((set_confirmed m, true), options)
      else if key_in key ["enter"; " "] then
        Some ((if (cursor m =? 1)%Z then set_confirmed m else set_cancelled m,
               true), options)
      else if key_in key ["up"; "k"] then Some ((set_cursor 0 m, false), options)
      else if key_in key ["down"; "j"] then
        Some ((set_cursor 1 m, false), options)
      else if key_in key ["tab"] then
        Some ((set_cursor (1 - cursor m) m, false), options)
      else Some ((m, false), options)
  | OtherMsg => Some ((m, false), options)
  end.

End Confirm.

(** ** Package [menu]: the main menu *)
Module MainMenu.
Import Tea.

Record MenuItem : Type := mkMenuItem {
  Title : string;
  Description : string;
  Action : string
}.

Record MenuModel : Type := mkMenuModel {
  choices : list MenuItem;
  cursor : Z;
  selected : bool;
  selectedItem : string
}.


Definition set_cursor (cursor : Z) (m : MenuModel) : MenuModel :=
  mkMenuModel (choices m) cursor (selected m) (selectedItem m).

Definition Update (m : MenuModel) (msg : Msg) (options : Types.Options)
  : option ((MenuModel * bool) * Types.Options) :=
  match msg with
  | KeyMsg key =>
      if key_in key ["ctrl+c"; "esc"] then
        Some ((m, true),
              Types.mkOptions (Types.LoggedIn options) true
                (Types.ErrorMessage options))
      else if key_in key ["up"; "k"] then
        Some ((if (cursor m >? 0)%Z then set_cursor (cursor m - 1) m else m,
               false), options)
      else if key_in key ["down"; "j"] then
        Some ((if (cursor m <? GoSlice.len (choices m) - 1)%Z
               then set_cursor (cursor m + 1) m else m, false), options)
      else if key_in key ["enter"; " "] then
        match GoSlice.index (choices m) (cursor m) with
        | None => None
        | Some item =>
            Some ((mkMenuModel (choices m) (cursor m) true (Action item), true),
                  options)
        end
      else Some ((m, false), options)
  | OtherMsg => Some ((m, false), options)
  end.

End MainMenu.

(** ** Package [menus]: the methods of [Menu] that run a view *)
Module MenuViews.
Import Encryption Menus Tea.

(** How a call stands once the user's messages are used up: it has
    returned, it waits for more, or it has panicked. *)
Inductive Ending (R : Type) : Type :=
| Returns (r : R) (w : World)
| Waits
| Panics.
Arguments Returns {R} r w.
Arguments Waits {R}.
Arguments Panics {R}.

(** The views write to the [Options] of the menu. *)
Definition set_options (o : Types.Options) (w : World) : World :=
  mkWorld (fs w) (passwordFolder w) o (ticks w) (seed w) (stdout w).

Definition print_unless_empty (label value : string) (w : World) : World :=
  if String.eqb value "" then w else print (label +:+ value) w.

Section Views.
Context {X : Externals} {T : Bubbles.TextInput}.


Definition AddNewPassword (session : result (list Msg)) (w : World)
  : Ending (bool * option string) :=
  let w := set_ErrorMessage "" w in
  match session with
  | Err err => Returns (false, Some ("error running form: " +:+ err)) w
  | Ok msgs =>
      match Run Form.Update msgs Form.NewPasswordForm (options w) with
      | Panic => Panics
      | Pending _ _ => Waits
      | Done formModel options' =>
          let w := set_options options' w in
          if Form.cancelled formModel then Returns (false, None) w
          else if negb (Form.submitted formModel) then Returns (false, None) w
          else
            let formData := Form.GetFormData formModel in
            let siteName :=
              Utils.SanitizeInput (Form.at_key formData "site_service_name") in
            let username :=
              Utils.SanitizeInput (Form.at_key formData "username") in
            let email := Utils.SanitizeInput (Form.at_key formData "email") in
            let url := Utils.SanitizeInput (Form.at_key formData "url") in
            let password := Form.at_key formData "password" in
            if String.eqb siteName "" || String.eqb password "" then
              Returns (false, None)
                (set_ErrorMessage "Site name and password are required" w)
            else
              let now := time_Now (ticks w) in
              let w := next_tick w in
              let passwordEntry := mkData password username email url now now in
              let filename := Utils.GenerateFilename (time_Now (ticks w)) siteName in
              let w := next_tick w in
              match EncryptPasswordAndWriteToFile filename passwordEntry w with
              | (Some err, w) =>
                  Returns (false, Some ("failed to save password: " +:+ err)) w
              | (None, w) =>
                  let w := print "✅ Password saved successfully!" w in
                  let w := print ("Site: " +:+ siteName) w in
                  let w := print_unless_empty "Username: " username w in
                  let w := print_unless_empty "Email: " email w in
                  let w := print_unless_empty "URL: " url w in
                  let w := print ("File: " +:+ filename +:+ ".gpg") w in
                  Returns (true, None) w
              end
      end
  end.

(** The [for] loop of [ListAllPasswords]: every view it opens takes the
    next session. *)
Fixpoint list_loop (sessions : list (result (list Msg)))
    (entries : list PasswordEntry) (w : World)
  : Ending (bool * option string) :=
  match sessions with
  | [] => Waits
  | Err err :: _ =>
      Returns (false, Some ("error running password list: " +:+ err)) w
  | Ok msgs :: sessions =>
  match Run PasswordList.Update msgs (PasswordList.NewPasswordList entries)
          (options w) with
  | Panic => Panics
  | Pending _ _ => Waits
  | Done listModel options' =>
  let w := set_options options' w in
  if negb (PasswordList.selected listModel) then Returns (false, None) w
  else
  let selectedEntry := PasswordList.selectedEntry listModel in
  match DecryptPasswordFromFile (Filename selectedEntry) w with
  | (_, Some err) =>
      let w := print ("❌ Error loading password details: " +:+ err) w in
      list_loop sessions entries w
  | (passwordData, None) =>
  match sessions with
  | [] => Waits
  | Err err :: _ =>
      Returns (false, Some ("error running password detail view: " +:+ err)) w
  | Ok msgs :: sessions =>
  match Run Detail.Update msgs
          (Detail.NewPasswordDetail passwordData (Filename selectedEntry)
             (SiteName selectedEntry)) (options w) with
  | Panic => Panics
  | Pending _ _ => Waits
  | Done detailModel options' =>
  let w := set_options options' w in
  if negb (Detail.deleteRequested detailModel) then list_loop sessions entries w
  else
  match sessions with
  | [] => Waits
  | Err err :: _ =>
      Returns (false, Some ("error running confirmation dialog: " +:+ err)) w
  | Ok msgs :: sessions =>
  match Run Confirm.Update msgs
          (Confirm.NewConfirmDialog (SiteName selectedEntry)
             (Filename selectedEntry) "delete") (options w) with
  | Panic => Panics
  | Pending _ _ => Waits
  | Done confirmModel options' =>
  let w := set_options options' w in
  if negb (Confirm.confirmed confirmModel) then list_loop sessions entries w
  else
  match Fileio.DeleteFile (passwordFolder w) (Filename selectedEntry) (fs w) with
  | (Some err, fs') =>
      let w := set_fs fs' w in
      let w := print ("❌ Error deleting password: " +:+ err) w in
      list_loop sessions entries w
  | (None, fs') =>
      let w := set_fs fs' w in
      match Fileio.RefreshDirectoryListing (passwordFolder w) (fs w) with
      | (Some err, _) =>
          let w := print ("❌ Error refreshing password list: " +:+ err) w in
          list_loop sessions entries w
      | (None, pf) =>
          let w := set_passwordFolder pf w in
          match getAllPasswordEntries w with
          | (Err err, w) =>
              Returns
                (false,
                 Some ("failed to reload password entries after deletion: "
                       +:+ err)) w
          | (Ok entries, w) =>
              let w := print "✅ Password deleted successfully!" w in
              let w :=
                print ("Deleted: " +:+ SiteName selectedEntry +:+ " ("
                       +:+ Filename selectedEntry +:+ ".gpg)") w in
              list_loop sessions entries w
          end
      end
  end
  end end end end end end
  end.

Definition ListAllPasswords (sessions : list (result (list Msg))) (w : World)
  : Ending (bool * option string) :=
  let w := set_ErrorMessage "" w in
  match getAllPasswordEntries w with
  | (Err err, w) =>
      Returns (false, Some ("failed to load password entries: " +:+ err)) w
  | (Ok entries, w) =>
      if (GoSlice.len entries =? 0)%Z then
        match sessions with
        | [] => Waits
        | Err err :: _ => Returns (false, Some err) w
        | Ok msgs :: _ =>
            match Run PasswordList.Update msgs
                    (PasswordList.NewPasswordList entries) (options w) with
            | Panic => Panics
            | Pending _ _ => Waits
            | Done _ options' => Returns (false, None) (set_options options' w)
            end
        end
      else list_loop sessions entries w
  end.

End Views.

End MenuViews.

(** ** Vocabulary of the statements *)
Section Vocabulary.
Import Encryption.
Context {X : Externals}.

(** [Open(key, passphrase)] of the specification: decrypt the record
    at [key] with [passphrase] as the active passphrase. *)
Definition Open (key passphrase : string) (w : World) : Data * option string :=
  DecryptPasswordFromFile key (set_Password passphrase w).

(** The file at [key] holds [record], sealed under [passphrase]. *)
Definition sealed_under (w : World) (key passphrase : string) (record : Data)
  : Prop :=
  exists seed js blob,
    json_Marshal record = Ok js
    /\ pgp_Encrypt seed passphrase js = Ok blob
    /\ Fileio.ReadFromFile (passwordFolder w) key (fs w) = Ok blob.

(** The key of a directory entry: its name without the extension. *)
Definition key_of (d : Os.DirEntry) : string :=
  GoStrings.TrimSuffix (Os.Name d) ".gpg".

(** A file of the listing that is a record of the store: named by the
    codec, and opening under the active passphrase. *)
Definition record_entry (w : World) (d : Os.DirEntry) : Prop :=
  Os.IsDir d = false
  /\ (exists t label, Os.Name d = Utils.GenerateFilename t label +:+ ".gpg")
  /\ snd (DecryptPasswordFromFile (key_of d) w) = None.

(** A file of the listing that fails to decrypt under the active
    passphrase. *)
Definition undecryptable_entry (w : World) (d : Os.DirEntry) : Prop :=
  Os.IsDir d = false
  /\ snd (DecryptPasswordFromFile (key_of d) w) <> None.

End Vocabulary.

(** The charset [GeneratePassword] draws from: the requested classes,
    side by side, without the ambiguous characters when they are
    excluded (the value of its variable [charset]). *)
Definition active_charset (opts : Utils.PasswordOptions) : string :=
  (if Utils.IncludeUppercase opts
   then (if Utils.ExcludeAmbiguous opts
         then Utils.removeAmbiguousChars Utils.uppercaseChars
         else Utils.uppercaseChars)
   else "")
  +:+ (if Utils.IncludeLowercase opts
       then (if Utils.ExcludeAmbiguous opts
             then Utils.removeAmbiguousChars Utils.lowercaseChars
             else Utils.lowercaseChars)
       else "")
  +:+ (if Utils.IncludeNumbers opts
       then (if Utils.ExcludeAmbiguous opts
             then Utils.removeAmbiguousChars Utils.numberChars
             else Utils.numberChars)
       else "")
  +:+ (if Utils.IncludeSymbols opts then Utils.symbolChars else "").

(** The number of classes requested. *)
Definition classes_requested (opts : Utils.PasswordOptions) : nat :=
  (if Utils.IncludeUppercase opts then 1 else 0)
  + (if Utils.IncludeLowercase opts then 1 else 0)
  + (if Utils.IncludeNumbers opts then 1 else 0)
  + (if Utils.IncludeSymbols opts then 1 else 0).

(** The characters of a store key: lower-case letters, digits, ["-"]
    and ["_"]. *)
Definition key_char (c : ascii) : bool :=
  GoStrings.is_lower c || GoStrings.is_digit c
  || Ascii.eqb c "-" || Ascii.eqb c "_".

(** A node is a directory. *)
Definition node_is_dir (node : Os.Node) : bool :=
  match node with Os.Directory _ => true | Os.File _ _ => false end.

(** No ["."] among the bytes of a string. *)
Definition dotfree (s : string) : Prop :=
  Forall (fun c => c <> "."%char) (list_ascii_of_string s).

(** ** Vocabulary of the generator statements *)

(** The entropy source never reports an error. *)
Definition healthy (src : Utils.Entropy) : Prop := forall k, src k <> None.

(** The bytes of a string. *)
Definition bytes_of (s : string) : list ascii := list_ascii_of_string s.

(** [password] contains at least one character of [class]. *)
Definition has_char_from (password class : string) : Prop :=
  exists c, In c (bytes_of password) /\ In c (bytes_of class).

(** [password] contains no character of [class]. *)
Definition no_char_from (password class : string) : Prop :=
  forall c, In c (bytes_of password) -> ~ In c (bytes_of class).

(** Decision procedures for inclusion and disjointness of character
    sets. *)
Definition memb (c : ascii) (s : string) : bool :=
  existsb (Ascii.eqb c) (bytes_of s).
Definition subsetb (s t : string) : bool :=
  forallb (fun c => memb c t) (bytes_of s).
Definition disjointb (s t : string) : bool :=
  forallb (fun c => negb (memb c t)) (bytes_of s).

(** ** Vocabulary of the view statements *)

(** What holds of a password list over [es] after any messages: the
    cursor is on an entry (or at 0 when there is none) and a selected
    entry is one of the list. *)
Definition list_inv (es : list Menus.PasswordEntry)
    (m : PasswordList.ListModel) : Prop :=
  PasswordList.entries m = es
  /\ (0 <= PasswordList.cursor m < Z.max 1 (GoSlice.len es))%Z
  /\ (PasswordList.selected m = true -> In (PasswordList.selectedEntry m) es).

(** Some message is one of the keys [keys]. *)
Definition has_key (keys : list string) (msgs : list Tea.Msg) : bool :=
  existsb (fun msg => match msg with
                      | Tea.KeyMsg key => Tea.key_in key keys
                      | Tea.OtherMsg => false
                      end) msgs.

(** Some message of some session is one of the keys [keys]. *)
Definition pressed (keys : list string)
    (sessions : list (result (list Tea.Msg))) : bool :=
  existsb (fun session => match session with
                          | Ok msgs => has_key keys msgs
                          | Err _ => false
                          end) sessions.

(** The keys that request a deletion in the detail view, and the keys
    without which the confirmation dialog cannot end on Yes. *)
Definition delete_keys : list string := ["d"; "D"].
Definition yes_keys : list string := ["y"; "Y"; "down"; "j"; "tab"].

(** What holds when [ListAllPasswords] (or its loop) has used up
    [sessions] from the state [w]: no panic; a return value that is not
    [true]; no file added or changed; no file removed unless the keys of
    a deletion and of a confirmation were pressed. *)
Definition browse_post {R} (sessions : list (result (list Tea.Msg)))
    (w : World) (e : MenuViews.Ending (bool * R)) : Prop :=
  match e with
  | MenuViews.Panics => False
  | MenuViews.Waits => True
  | MenuViews.Returns r w' =>
      fst r = false
      /\ Os.nodes (fs w') ⊆ Os.nodes (fs w)
      /\ (fs w' = fs w
          \/ pressed delete_keys sessions && pressed yes_keys sessions = true)
  end.

(** What holds of the password form after any messages: its fields are
    the five fields it was made with, every field has its input, the
    current field is one of them, and once it is submitted no required
    field holds a blank value. *)
Definition form_inv {T : Bubbles.TextInput} (m : Form.FormModel) : Prop :=
  map Form.Label (Form.fields m) = map Form.Label Form.password_fields
  /\ map Form.Required (Form.fields m) = map Form.Required Form.password_fields
  /\ length (Form.inputs m) = 5%nat
  /\ (0 <= Form.currentField m < 5)%Z
  /\ (Form.submitted m = true ->
      Forall (fun f => Form.Required f = true ->
                       GoUnicode.TrimSpace (Form.Value f) <> "")
        (Form.fields m)).

(** What [AddNewPassword] makes of the final form: the site name, and
    the record it seals, created at [now]. *)
Definition entered_site {T : Bubbles.TextInput} (m : Form.FormModel) : string :=
  Utils.SanitizeInput (Form.at_key (Form.GetFormData m) "site_service_name").

Definition entered_record {T : Bubbles.TextInput} (m : Form.FormModel)
    (now : Time) : Encryption.Data :=
  Encryption.mkData
    (Form.at_key (Form.GetFormData m) "password")
    (Utils.SanitizeInput (Form.at_key (Form.GetFormData m) "username"))
    (Utils.SanitizeInput (Form.at_key (Form.GetFormData m) "email"))
    (Utils.SanitizeInput (Form.at_key (Form.GetFormData m) "url"))
    now now.

(** What holds of the change form after any messages: three inputs, the
    current field one of them, and once it is submitted the stored
    values passed [validateForm]. *)
Definition change_inv {T : Bubbles.TextInput} (m : Change.ChangeModel) : Prop :=
  length (Change.inputs m) = 3%nat
  /\ (0 <= Change.currentField m < 3)%Z
  /\ (Change.submitted m = true ->
      GoUnicode.TrimSpace (Change.currentPass m) <> ""
      /\ (8 <= GoStrings.len (GoUnicode.TrimSpace (Change.newPass m)))%Z
      /\ GoUnicode.TrimSpace (Change.newPass m)
         = GoUnicode.TrimSpace (Change.confirmPass m)).

(** The number of bytes of a list of runes. *)
Fixpoint total_length (runes : list string) : nat :=
  match runes with
  | [] => 0%nat
  | r :: rest => (String.length r + total_length rest)%nat
  end.



(** ** A small instance of the collaborators

    Used to run the engine on concrete stores: records are serialized
    field by field in a prefix-free code, and a ciphertext carries the
    passphrase it was made with. *)
Module Sample.
Import Encryption.

Fixpoint enc_nat (n : nat) : string :=
  match n with
  | O => "0"
  | S k => String "1" (enc_nat k)
  end.

Fixpoint enc_string (s : string) : string :=
  match s with
  | EmptyString => "0"
  | String c t => String "1" (String c (enc_string t))
  end.

Fixpoint dec_nat (s : string) : option (nat * string) :=
  match s with
  | String "0" rest => Some (O, rest)
  | String "1" t =>
      match dec_nat t with
      | Some (n, rest) => Some (S n, rest)
      | None => None
      end
  | _ => None
  end.

Fixpoint dec_string (s : string) : option (string * string) :=
  match s with
  | String "0" rest => Some (EmptyString, rest)
  | String "1" (String c t) =>
      match dec_string t with
      | Some (v, rest) => Some (String c v, rest)
      | None => None
      end
  | _ => None
  end.

Definition enc_time (t : Time) : string :=
  enc_nat (t_year t) +:+ enc_nat (t_month t) +:+ enc_nat (t_day t) +:+
  enc_nat (t_hour t) +:+ enc_nat (t_minute t) +:+ enc_nat (t_second t).

Definition dec_time (s : string) : option (Time * string) :=
  match dec_nat s with
  | Some (y, s) =>
  match dec_nat s with
  | Some (mo, s) =>
  match dec_nat s with
  | Some (d, s) =>
  match dec_nat s with
  | Some (h, s) =>
  match dec_nat s with
  | Some (mi, s) =>
  match dec_nat s with
  | Some (se, s) => Some (mkTime y mo d h mi se, s)
  | None => None end
  | None => None end
  | None => None end
  | None => None end
  | None => None end
  | None => None end.

Definition marshal (d : Data) : string :=
  enc_string (Password d) +:+ enc_string (Username d) +:+
  enc_string (Email d) +:+ enc_string (URL d) +:+
  enc_time (CreatedAt d) +:+ enc_time (UpdatedAt d).

Definition unmarshal (bs : string) (d0 : Data) : Data * option string :=
  match dec_string bs with
  | Some (p, s) =>
  match dec_string s with
  | Some (u, s) =>
  match dec_string s with
  | Some (e, s) =>
  match dec_string s with
  | Some (l, s) =>
  match dec_time s with
  | Some (c, s) =>
  match dec_time s with
  | Some (m, EmptyString) => (mkData p u e l c m, None)
  | _ => (d0, Some "unexpected end of input") end
  | None => (d0, Some "unexpected end of input") end
  | None => (d0, Some "invalid character") end
  | None => (d0, Some "invalid character") end
  | None => (d0, Some "invalid character") end
  | None => (d0, Some "invalid character") end.

Definition encrypt (seed : nat) (password plaintext : string) : result string :=
  Ok (enc_nat seed +:+ enc_string password +:+ plaintext).

Definition decrypt (password armored : string) : result string :=
  match dec_nat armored with
  | Some (_, s) =>
      match dec_string s with
      | Some (pw, plaintext) =>
          if String.eqb pw password then Ok plaintext
          else Err "decryption failed"
      | None => Err "malformed message"
      end
  | None => Err "malformed message"
  end.

Definition clock (k : nat) : Time := mkTime 24 1 2 3 4 k.

#[global] Instance externals : Externals := {|
  json_Marshal d := Ok (marshal d);
  json_Unmarshal := unmarshal;
  pgp_Encrypt := encrypt;
  pgp_Decrypt := decrypt;
  time_Now := clock
|}.

(** A fresh store: the root and its [.checker] directory exist (as
    [getDir] leaves them), no validation record yet. *)
Definition root : string := "/home/u/.password-manager-store".

Definition fresh_fs : Os.FileSystem :=
  Os.mkFS (<[root +:+ "/.checker" := Os.Directory 488]>
             (<[root := Os.Directory 488]> ∅)) 18.

Definition fresh : World :=
  mkWorld fresh_fs (Fileio.mkPasswordFolder root [] false "")
    (Types.mkOptions false false "") 0 0 [].

(** The store after the set-up dialogue of [Login]: master password
    ["correcthorse"], validation phrase ["the quick brown fox jumps"]. *)
Definition bootstrapped : World :=
  match Menus.setup
          [Menus.Enter "correcthorse"; Menus.Enter "the quick brown fox jumps"]
          fresh with
  | Menus.Break _ _ w => w
  | _ => fresh
  end.

(** The same store with a foreign file in it: a message that opens
    under ["correcthorse"] and is not a serialized record. *)
Definition foreign_blob : string :=
  match encrypt 7 "correcthorse" "not json" with
  | Ok c => c
  | Err _ => ""
  end.

Definition with_foreign_file : World :=
  set_Password "correcthorse"
    (set_fs (snd (Fileio.WriteToFile (passwordFolder bootstrapped)
                    "notes_20240101_120000" foreign_blob (fs bootstrapped)))
       bootstrapped).

(** A healthy entropy source. *)
Definition entropy : Utils.Entropy := fun k => Some (k * 7 + 3)%nat.

(** A store with two records and a file that is not a ciphertext, the
    session open under ["correcthorse"]. *)
Definition github_key : string :=
  Utils.GenerateFilename (mkTime 2024 1 1 12 0 0) "GitHub".
Definition gitlab_key : string :=
  Utils.GenerateFilename (mkTime 2024 1 1 12 0 5) "GitLab".

Definition stocked : World :=
  let w := set_Password "correcthorse" bootstrapped in
  let w := snd (EncryptPasswordAndWriteToFile github_key
                  (mkData "hunter2" "alice" "alice@example.org" ""
                     (clock 5) (clock 5)) w) in
  let w := snd (EncryptPasswordAndWriteToFile gitlab_key
                  (mkData "s3cret" "bob" "" "https://gitlab.com"
                     (clock 6) (clock 6)) w) in
  set_fs (snd (Fileio.WriteToFile (passwordFolder w)
                 "broken_20240101_120000" "garbage" (fs w))) w.

(** A plain text input: a one-byte key is appended to the text,
    backspace removes its last byte. *)
Fixpoint drop_last (s : string) : string :=
  match s with
  | EmptyString => EmptyString
  | String c EmptyString => EmptyString
  | String c t => String c (drop_last t)
  end.

Definition type_key (value : string) (msg : Tea.Msg) : string :=
  match msg with
  | Tea.KeyMsg key =>
      if String.eqb key "backspace" then drop_last value
      else if (String.length key =? 1)%nat then value +:+ key
      else value
  | Tea.OtherMsg => value
  end.

#[global] Instance text_input : Bubbles.TextInput := {|
  Bubbles.Input := string;
  Bubbles.New := EmptyString;
  Bubbles.Configure _ _ _ _ ti := ti;
  Bubbles.Value ti := ti;
  Bubbles.Update := type_key;
  Bubbles.Focus ti := ti;
  Bubbles.Blur ti := ti
|}.

(** The key presses that type a text. *)
Fixpoint typed (s : string) : list Tea.Msg :=
  match s with
  | EmptyString => []
  | String c t => Tea.KeyMsg (String c EmptyString) :: typed t
  end.

(** The messages of a user who fills in the form (site, user name and
    password) and submits it, and the store afterwards. *)
Definition add_session : list Tea.Msg :=
  (typed "Example" ++ [Tea.KeyMsg "enter"]
   ++ typed "carol"
   ++ [Tea.KeyMsg "enter"; Tea.KeyMsg "enter"; Tea.KeyMsg "enter"]
   ++ typed "pw-123456" ++ [Tea.KeyMsg "enter"])%list.

Definition added : World :=
  match MenuViews.AddNewPassword (Ok add_session) stocked with
  | MenuViews.Returns _ w' => w'
  | _ => stocked
  end.

(** Browsing: the user opens the first entry, asks for its deletion and
    leaves the dialog with Enter (the cursor is on No), or answers [y]. *)
Definition browse_declined : list (result (list Tea.Msg)) :=
  [Ok [Tea.KeyMsg "enter"]; Ok [Tea.KeyMsg "d"]; Ok [Tea.KeyMsg "enter"];
   Ok [Tea.KeyMsg "q"]].

Definition browse_confirmed : list (result (list Tea.Msg)) :=
  [Ok [Tea.KeyMsg "enter"]; Ok [Tea.KeyMsg "d"]; Ok [Tea.KeyMsg "y"];
   Ok [Tea.KeyMsg "q"]].

Definition after_browse (sessions : list (result (list Tea.Msg))) : World :=
  match MenuViews.ListAllPasswords sessions stocked with
  | MenuViews.Returns _ w' => w'
  | _ => stocked
  end.


(** The messages of a user who fills in the change form; the
    confirmation is typed with a space after it. *)
Definition change_session : list Tea.Msg :=
  (typed "correcthorse" ++ [Tea.KeyMsg "enter"]
   ++ typed "newpassword" ++ [Tea.KeyMsg "tab"]
   ++ typed "newpassword " ++ [Tea.KeyMsg "enter"])%list.

End Sample.


(** * Properties *)

(** ** Strings *)
Section StringFacts.

Lemma str_app_cons c (s t : string) : String c s +:+ t = String c (s +:+ t).
Proof. reflexivity. Qed.

Lemma str_app_nil_l (t : string) : "" +:+ t = t.
Proof. reflexivity. Qed.

Lemma str_app_nil_r (s : string) : s +:+ "" = s.
Proof. induction s as [| c s IH]; [reflexivity |]. now rewrite str_app_cons, IH. Qed.

Lemma str_app_assoc (a b c : string) : (a +:+ b) +:+ c = a +:+ (b +:+ c).
Proof. induction a as [| x a IH]; [reflexivity |]. now rewrite !str_app_cons, IH. Qed.

Lemma str_length_app (a b : string) :
  String.length (a +:+ b) = (String.length a + String.length b)%nat.
Proof.
  induction a as [| x a IH]; [reflexivity |].
  rewrite str_app_cons. cbn [String.length]. now rewrite IH.
Qed.

End StringFacts.

(** ** Store: [WriteToFile] and [ReadFromFile] *)
Section StoreFacts.
Import Os Fileio.

Lemma WriteFile_lookup name data perm fs fs' :
  WriteFile name data perm fs = (None, fs') ->
  exists p, nodes fs' !! name = Some (File data p).
Proof.
  unfold WriteFile. intros H.
  destruct (nodes fs !! name) as [[c old | d] |] eqn:E.
  - injection H as <-. exists old. cbn. apply lookup_insert_eq.
  - discriminate.
  - destruct (match parent name with Some dir => is_directory fs dir | None => true end);
      [| discriminate].
    injection H as <-. eexists. cbn. apply lookup_insert_eq.
Qed.

Lemma WriteToFile_inv pf key b fs fs' :
  WriteToFile pf key b fs = (None, fs') ->
  WriteFile (path_of pf key) b write_perm fs = (None, fs').
Proof.
  unfold WriteToFile. destruct (WriteFile _ _ _ _) as [[e|] f]; congruence.
Qed.

Lemma ReadFromFile_ReadFile pf key fs :
  ReadFromFile pf key fs = ReadFile (path_of pf key) fs.
Proof. unfold ReadFromFile. now destruct (ReadFile _ _). Qed.

(** A file that is created gets [0666] minus the umask. *)
Lemma WriteFile_created_perm name data perm fs fs' :
  nodes fs !! name = None ->
  WriteFile name data perm fs = (None, fs') ->
  nodes fs' !! name = Some (File data (Z.ldiff perm (umask fs))).
Proof.
  unfold WriteFile. intros -> H.
  destruct (match parent name with Some dir => is_directory fs dir | None => true end);
    [| discriminate].
  injection H as <-. cbn. apply lookup_insert_eq.
Qed.

End StoreFacts.

(** C10. Store-level put/get round-trip: when [WriteToFile key b]
    succeeds, the [ReadFromFile key] that follows succeeds and returns
    exactly [b]; the write put [b] at, and the read reads from, the one
    path [FolderLocation/key.gpg]. *)
Theorem WriteToFile_ReadFromFile_roundtrip
    (pf : Fileio.PasswordFolder) (key b : string) (fs fs' : Os.FileSystem) :
  Fileio.WriteToFile pf key b fs = (None, fs') ->
  Fileio.ReadFromFile pf key fs' = Ok b
  /\ (exists perm,
        Os.nodes fs' !! (Fileio.FolderLocation pf +:+ "/" +:+ key +:+ ".gpg")
        = Some (Os.File b perm))
  /\ (forall fs0,
        Fileio.ReadFromFile pf key fs0
        = Os.ReadFile (Fileio.FolderLocation pf +:+ "/" +:+ key +:+ ".gpg") fs0).
Proof.
  intros H. apply WriteToFile_inv, WriteFile_lookup in H as [p Hp].
  split; [| split].
  - rewrite ReadFromFile_ReadFile. unfold Os.ReadFile. now rewrite Hp.
  - now exists p.
  - intros fs0. apply ReadFromFile_ReadFile.
Qed.

Lemma WriteToFile_ReadFromFile_roundtrip_witness :
  Fileio.ReadFromFile (passwordFolder Sample.fresh) "github_20240101_120000"
    (snd (Fileio.WriteToFile (passwordFolder Sample.fresh)
            "github_20240101_120000" "blob" Sample.fresh_fs))
  = Ok "blob".
Proof.
  apply (WriteToFile_ReadFromFile_roundtrip (passwordFolder Sample.fresh)
           "github_20240101_120000" "blob" Sample.fresh_fs).
  vm_compute. reflexivity.
Defined.

(** C7. The claim asks for owner-only permission bits on every file the
    store writes.  [WriteToFile] passes [0666] to [os.WriteFile]: under
    the usual umask [022] the record it creates has mode [0644], whose
    group and world bits ([077]) are not all clear. *)
Theorem WriteToFile_mode_not_owner_only :
  let fs' := snd (Fileio.WriteToFile (passwordFolder Sample.fresh)
                    "github_20240101_120000" "blob" Sample.fresh_fs) in
  Os.umask Sample.fresh_fs = 18%Z
  /\ Fileio.write_perm = 438%Z
  /\ Os.nodes fs' !! (Sample.root +:+ "/github_20240101_120000.gpg")
     = Some (Os.File "blob" 420)
  /\ Z.land 420 63 = 36%Z.
Proof. vm_compute. repeat split. Qed.

(** ** Encryption gateway *)
Section GatewayFacts.
Import Encryption.
Context {X : Externals}.

(** Decryption reads the file system, the store location and the
    active passphrase, and nothing else. *)
Lemma DecryptPasswordFromFile_frame key w1 w2 :
  fs w1 = fs w2 ->
  Fileio.FolderLocation (passwordFolder w1) = Fileio.FolderLocation (passwordFolder w2) ->
  Fileio.Password (passwordFolder w1) = Fileio.Password (passwordFolder w2) ->
  DecryptPasswordFromFile key w1 = DecryptPasswordFromFile key w2.
Proof.
  intros Hfs Hloc Hpw. unfold DecryptPasswordFromFile.
  rewrite !ReadFromFile_ReadFile. unfold Fileio.path_of.
  now rewrite Hfs, Hloc, Hpw.
Qed.

Lemma Open_frame key p w1 w2 :
  fs w1 = fs w2 ->
  Fileio.FolderLocation (passwordFolder w1) = Fileio.FolderLocation (passwordFolder w2) ->
  Open key p w1 = Open key p w2.
Proof. intros. apply DecryptPasswordFromFile_frame; cbn; auto. Qed.

Lemma ReadFromFile_set_Password key p w :
  Fileio.ReadFromFile (passwordFolder (set_Password p w)) key (fs (set_Password p w))
  = Fileio.ReadFromFile (passwordFolder w) key (fs w).
Proof. reflexivity. Qed.

Lemma Open_sealed {C : Contract X} key p record w :
  sealed_under w key p record -> Open key p w = (record, None).
Proof.
  intros (sd & js & blob & Hjs & Henc & Hrd).
  unfold Open, DecryptPasswordFromFile.
  rewrite ReadFromFile_set_Password, Hrd. cbn [set_Password set_passwordFolder passwordFolder Fileio.Password].
  rewrite (pgp_roundtrip _ _ _ _ Henc), (json_roundtrip _ _ Hjs). reflexivity.
Qed.

Lemma Open_sealed_other {C : Contract X} key p p' record w :
  sealed_under w key p record -> p' <> p -> snd (Open key p' w) <> None.
Proof.
  intros (sd & js & blob & Hjs & Henc & Hrd) Hne.
  unfold Open, DecryptPasswordFromFile.
  rewrite ReadFromFile_set_Password, Hrd. cbn [set_Password set_passwordFolder passwordFolder Fileio.Password].
  destruct (pgp_authentic _ _ _ _ _ Henc Hne) as [e ->]. discriminate.
Qed.

End GatewayFacts.

(** C9. The claim asks [Open] to fail when the blob decrypts and the
    plaintext does not deserialize.  [DecryptPasswordFromFile] drops the
    error of [json.Unmarshal]: it returns the struct as [Unmarshal] left
    it, with a nil error. *)
Theorem DecryptPasswordFromFile_drops_unmarshal_error
    {X : Encryption.Externals} (w : World) (fileName blob plaintext e : string)
    (d : Encryption.Data) :
  Fileio.ReadFromFile (passwordFolder w) fileName (fs w) = Ok blob ->
  Encryption.pgp_Decrypt (Fileio.Password (passwordFolder w)) blob = Ok plaintext ->
  Encryption.json_Unmarshal plaintext Encryption.zeroData = (d, Some e) ->
  Encryption.DecryptPasswordFromFile fileName w = (d, None).
Proof.
  intros Hrd Hdec Hjs. unfold Encryption.DecryptPasswordFromFile.
  now rewrite Hrd, Hdec, Hjs.
Qed.

Lemma DecryptPasswordFromFile_drops_unmarshal_error_witness :
  Encryption.DecryptPasswordFromFile "notes_20240101_120000" Sample.with_foreign_file
  = (Encryption.zeroData, None).
Proof.
  apply (DecryptPasswordFromFile_drops_unmarshal_error
           Sample.with_foreign_file "notes_20240101_120000"
           Sample.foreign_blob "not json" "invalid character").
  - vm_compute. reflexivity.
  - vm_compute. reflexivity.
  - vm_compute. reflexivity.
Defined.

(** ** The sample collaborators meet the contract *)
Section SampleFacts.
Import Encryption Sample.

Lemma dec_enc_nat n rest : dec_nat (enc_nat n +:+ rest) = Some (n, rest).
Proof.
  induction n as [| n IH]; [reflexivity |].
  change (enc_nat (S n) +:+ rest) with (String "1" (enc_nat n +:+ rest)).
  cbn [dec_nat]. now rewrite IH.
Qed.

Lemma dec_enc_string s rest : dec_string (enc_string s +:+ rest) = Some (s, rest).
Proof.
  induction s as [| c s IH]; [reflexivity |].
  change (enc_string (String c s) +:+ rest)
    with (String "1" (String c (enc_string s +:+ rest))).
  cbn [dec_string]. now rewrite IH.
Qed.

Lemma dec_enc_time t rest : dec_time (enc_time t +:+ rest) = Some (t, rest).
Proof.
  destruct t as [y mo d h mi se]. unfold enc_time, dec_time. cbn [t_year t_month t_day t_hour t_minute t_second].
  rewrite !str_app_assoc. now rewrite !dec_enc_nat.
Qed.

Lemma unmarshal_marshal d d0 : unmarshal (marshal d) d0 = (d, None).
Proof.
  destruct d as [p u e l c m]. unfold marshal, unmarshal.
  cbn [Password Username Email URL CreatedAt UpdatedAt].
  rewrite !dec_enc_string, dec_enc_time.
  rewrite <- (str_app_nil_r (enc_time m)). now rewrite dec_enc_time.
Qed.

Lemma decrypt_encrypt sd pw pw' pt c :
  encrypt sd pw pt = Ok c ->
  decrypt pw' c = if String.eqb pw pw' then Ok pt else Err "decryption failed".
Proof.
  unfold encrypt, decrypt. intros [= <-].
  now rewrite dec_enc_nat, dec_enc_string.
Qed.

Lemma sample_contract : Contract externals.
Proof.
  split; cbn.
  - intros d js [= <-]. apply unmarshal_marshal.
  - intros d. eauto.
  - intros sd pw pt c H. rewrite (decrypt_encrypt _ _ pw _ _ H).
    now rewrite String.eqb_refl.
  - intros sd pw pw' pt c H Hne. rewrite (decrypt_encrypt _ _ pw' _ _ H).
    destruct (String.eqb_spec pw pw') as [-> |]; [congruence | eauto].
  - intros sd pw pt _. unfold encrypt. eauto.
Qed.

End SampleFacts.

(** ** Login *)
Section LoginFacts.
Import Encryption Menus.
Context {X : Externals}.

(** On an initialized store [Login] is one prompt and one [Open]. *)
Lemma Login_initialized ev rest w :
  Fileio.InitCheck (passwordFolder w) = true ->
  Login (ev :: rest) w =
  match run_password_input ev (set_ErrorMessage "" w) with
  | (Some err, w1) => Some ((false, Some err), w1)
  | (None, w1) =>
      match DecryptPasswordFromFile validationKey w1 with
      | (_, Some _) => Some ((false, None), w1)
      | (data, None) => Some ((true, None), set_Password (Password data) w1)
      end
  end.
Proof.
  intros Hinit. unfold Login.
  cbn [set_ErrorMessage passwordFolder]. rewrite Hinit. reflexivity.
Qed.

Lemma run_password_input_fs ev w err w1 :
  run_password_input ev w = (err, w1) -> fs w1 = fs w.
Proof. destruct ev; cbn; intros [= <- <-]; reflexivity. Qed.

(** What a successful login leaves as the session passphrase: the secret
    field of the record it decrypted. *)
Lemma Login_session_passphrase p rest w w' :
  Fileio.InitCheck (passwordFolder w) = true ->
  Login (Enter p :: rest) w = Some ((true, None), w') ->
  Fileio.Password (passwordFolder w')
  = Password (fst (Open validationKey p (set_ErrorMessage "" w))).
Proof.
  intros Hinit. rewrite (Login_initialized _ _ _ Hinit).
  cbn [run_password_input]. unfold Open.
  destruct (DecryptPasswordFromFile validationKey _) as [data [e |]];
    intros [= <-]. reflexivity.
Qed.

End LoginFacts.

(** C3. The claim asks that a successful [Login] keeps the passphrase
    the user typed as the session's master passphrase.  [Login] ends with
    [menu.passwordFolder.Password = data.Password]: on the store set up
    with master password ["correcthorse"] and phrase
    ["the quick brown fox jumps"], logging in with ["correcthorse"]
    succeeds and leaves the phrase, not the typed passphrase, in the
    session. *)
Theorem Login_overwrites_session_passphrase :
  exists w',
    Menus.Login [Menus.Enter "correcthorse"] Sample.bootstrapped
    = Some ((true, None), w')
    /\ Fileio.Password (passwordFolder w') = "the quick brown fox jumps"
    /\ Fileio.Password (passwordFolder w') <> "correcthorse".
Proof.
  eexists. split; [vm_compute; reflexivity |].
  split; [reflexivity | discriminate].
Qed.

(** C8. On an initialized store [Login] answers as soon as the user
    does, and whatever the answer and whether the attempt succeeds or
    fails, the file system it leaves is the one it found: same files,
    same bytes. *)
Theorem Login_preserves_store
    {X : Encryption.Externals} (ev : Menus.Prompt) (rest : list Menus.Prompt)
    (w : World) :
  Fileio.InitCheck (passwordFolder w) = true ->
  exists r w', Menus.Login (ev :: rest) w = Some (r, w') /\ fs w' = fs w.
Proof.
  intros Hinit. rewrite (Login_initialized _ _ _ Hinit).
  destruct (Menus.run_password_input ev (set_ErrorMessage "" w)) as [err w1] eqn:E.
  apply run_password_input_fs in E. cbn in E.
  destruct err as [err |].
  - eexists _, _. split; [reflexivity | exact E].
  - destruct (Encryption.DecryptPasswordFromFile Menus.validationKey w1) as [data [e |]];
      eexists _, _; (split; [reflexivity | exact E]).
Qed.

Lemma Login_preserves_store_witness :
  exists r w',
    Menus.Login [Menus.Enter "wrongsecret1"] Sample.bootstrapped = Some (r, w')
    /\ fs w' = fs Sample.bootstrapped.
Proof.
  apply (Login_preserves_store (Menus.Enter "wrongsecret1") [] Sample.bootstrapped).
  reflexivity.
Defined.

(** ** Rotation of the master password *)
Section RotationFacts.
Import Encryption Menus.
Context {X : Externals}.

(** Overwriting a record that exists succeeds and leaves the new bytes. *)
Lemma WriteToFile_existing pf key old new fs0 :
  Fileio.ReadFromFile pf key fs0 = Ok old ->
  exists fs1,
    Fileio.WriteToFile pf key new fs0 = (None, fs1)
    /\ Fileio.ReadFromFile pf key fs1 = Ok new.
Proof.
  rewrite ReadFromFile_ReadFile. unfold Os.ReadFile. intros H.
  destruct (Os.nodes fs0 !! Fileio.path_of pf key) as [[c perm | perm] |] eqn:E;
    try discriminate.
  eexists. unfold Fileio.WriteToFile, Os.WriteFile. rewrite E.
  split; [reflexivity |].
  rewrite ReadFromFile_ReadFile. unfold Os.ReadFile. cbn.
  now rewrite lookup_insert_eq.
Qed.

Lemma validatePassword_nonempty p :
  fst (validatePassword p) = true -> p <> "".
Proof. intros H ->. discriminate. Qed.

End RotationFacts.

(** C2. When the current passphrase given to [ChangeMasterPassword] does
    not open the validation record, the operation returns [false] with no
    error, prints "Current password is incorrect", leaves the file system
    and the session passphrase as they were, and the validation record
    opens exactly as before: if it was sealed under [A], it still opens
    under [A] and under no other passphrase. *)
Theorem ChangeMasterPassword_wrong_current
    {X : Encryption.Externals} {C : Encryption.Contract X}
    (w : World) (form : Menus.ChangeModel) :
  Menus.submitted form = true ->
  Menus.cancelled form = false ->
  snd (Open Menus.validationKey (Menus.currentPass form) w) <> None ->
  exists w',
    Menus.ChangeMasterPassword (Ok form) w = ((false, None), w')
    /\ stdout w' = (stdout w ++ ["❌ Error: Current password is incorrect"])%list
    /\ fs w' = fs w
    /\ Fileio.Password (passwordFolder w') = Fileio.Password (passwordFolder w)
    /\ (forall p, Open Menus.validationKey p w' = Open Menus.validationKey p w)
    /\ (forall A record,
          sealed_under w Menus.validationKey A record ->
          Open Menus.validationKey A w' = (record, None)
          /\ forall p, p <> A -> snd (Open Menus.validationKey p w') <> None).
Proof.
  intros Hsub Hcan Hfail.
  unfold Menus.ChangeMasterPassword. rewrite Hcan, Hsub. cbn [negb].
  assert (Hopen : Encryption.DecryptPasswordFromFile Menus.validationKey
                    (set_Password (Menus.currentPass form) (set_ErrorMessage "" w))
                  = Open Menus.validationKey (Menus.currentPass form) w)
    by reflexivity.
  rewrite Hopen.
  destruct (Open Menus.validationKey (Menus.currentPass form) w) as [d [e |]];
    [| now contradiction Hfail].
  eexists. split; [reflexivity |].
  split; [reflexivity |]. split; [reflexivity |]. split; [reflexivity |].
  assert (Hsame : forall p, Open Menus.validationKey p
      (print "❌ Error: Current password is incorrect"
         (set_Password (Fileio.Password (passwordFolder (set_ErrorMessage "" w)))
            (set_Password (Menus.currentPass form) (set_ErrorMessage "" w))))
      = Open Menus.validationKey p w) by (intros p; reflexivity).
  split; [exact Hsame |].
  intros A record Hsealed. split.
  - rewrite Hsame. now apply Open_sealed.
  - intros p Hp. rewrite Hsame. now apply (Open_sealed_other _ A p record).
Qed.

Lemma ChangeMasterPassword_wrong_current_witness :
  exists w',
    Menus.ChangeMasterPassword
      (Ok (Menus.mkChangeModel true false "wrongsecret1" "newpassword" "newpassword"))
      Sample.bootstrapped = ((false, None), w')
    /\ stdout w' = (stdout Sample.bootstrapped
                    ++ ["❌ Error: Current password is incorrect"])%list
    /\ fs w' = fs Sample.bootstrapped.
Proof.
  destruct (ChangeMasterPassword_wrong_current (C := sample_contract)
              Sample.bootstrapped
              (Menus.mkChangeModel true false "wrongsecret1" "newpassword" "newpassword"))
    as (w' & H1 & H2 & H3 & _).
  - reflexivity.
  - reflexivity.
  - vm_compute. discriminate.
  - exists w'. auto.
Defined.

Section SealFacts.
Import Encryption Menus.
Context {X : Externals} {C : Contract X}.

(** Sealing over a record that exists, under a non-empty passphrase,
    succeeds and leaves the new record sealed under that passphrase. *)
Lemma EncryptPasswordAndWriteToFile_existing key data old w :
  Fileio.Password (passwordFolder w) <> "" ->
  Fileio.ReadFromFile (passwordFolder w) key (fs w) = Ok old ->
  exists w',
    EncryptPasswordAndWriteToFile key data w = (None, w')
    /\ sealed_under w' key (Fileio.Password (passwordFolder w)) data
    /\ passwordFolder w' = passwordFolder w
    /\ stdout w' = stdout w.
Proof.
  intros Hpw Hrd. unfold EncryptPasswordAndWriteToFile.
  destruct (json_total data) as [js Hjs]. rewrite Hjs.
  destruct (pgp_total (seed w) _ js Hpw) as [c Hc]. rewrite Hc.
  cbn [next_seed passwordFolder fs].
  destruct (WriteToFile_existing _ _ _ c _ Hrd) as (fs1 & Hw & Hr).
  rewrite Hw. eexists. split; [reflexivity |].
  split; [| split; reflexivity].
  exists (seed w), js, c. auto.
Qed.

End SealFacts.

(** C1 (as the claim states it).  The claim lets the new passphrase be
    any valid one.  Rotating to the passphrase already in use succeeds
    and the validation record still opens under the old passphrase,
    which is the new one: "opening it with A fails" does not hold. *)
Lemma rotation_to_same_passphrase_counterexample :
  exists record w',
    sealed_under Sample.bootstrapped Menus.validationKey "correcthorse" record
    /\ fst (Menus.validatePassword "correcthorse") = true
    /\ Menus.ChangeMasterPassword
         (Ok (Menus.mkChangeModel true false
                "correcthorse" "correcthorse" "correcthorse"))
         Sample.bootstrapped = ((true, None), w')
    /\ ~ (snd (Open Menus.validationKey "correcthorse" w') <> None).
Proof.
  exists (Encryption.mkData "the quick brown fox jumps" "" "" ""
            (Sample.clock 0) (Sample.clock 1)).
  eexists. split; [| split; [| split]].
  - exists 0%nat. eexists _, _. split; [reflexivity |].
    split; vm_compute; reflexivity.
  - reflexivity.
  - vm_compute. reflexivity.
  - vm_compute. intros H. now apply H.
Qed.

(** C1 (amended).  For a store whose validation record is sealed under
    [A], [ChangeMasterPassword] with current passphrase [A] and a valid
    new passphrase [B] different from [A] succeeds; afterwards the
    validation record opens under [B], does not open under [A], holds
    the validation phrase it held before, and the session passphrase is
    [B]. *)
Theorem ChangeMasterPassword_rotates
    {X : Encryption.Externals} {C : Encryption.Contract X}
    (w : World) (A B : string) (record : Encryption.Data) :
  sealed_under w Menus.validationKey A record ->
  fst (Menus.validatePassword B) = true ->
  A <> B ->
  exists w' record',
    Menus.ChangeMasterPassword (Ok (Menus.mkChangeModel true false A B B)) w
    = ((true, None), w')
    /\ Open Menus.validationKey A w = (record, None)
    /\ Open Menus.validationKey B w' = (record', None)
    /\ snd (Open Menus.validationKey A w') <> None
    /\ Encryption.Password record' = Encryption.Password record
    /\ Fileio.Password (passwordFolder w') = B.
Proof.
  intros Hsealed Hvalid Hne.
  pose proof (Open_sealed _ _ _ _ Hsealed) as HopenA.
  unfold Menus.ChangeMasterPassword.
  cbn [Menus.cancelled Menus.submitted Menus.currentPass Menus.newPass negb].
  change (Encryption.DecryptPasswordFromFile Menus.validationKey
            (set_Password A (set_ErrorMessage "" w)))
    with (Open Menus.validationKey A w).
  rewrite HopenA.
  set (w2 := next_tick (set_Password B (set_Password A (set_ErrorMessage "" w)))).
  set (data' := Encryption.mkData _ _ _ _ _ _).
  destruct Hsealed as (sd & js & blob & _ & _ & Hrd).
  destruct (EncryptPasswordAndWriteToFile_existing Menus.validationKey data' blob w2)
    as (w3 & Henc & Hsealed' & Hpf & Hout).
  { now apply validatePassword_nonempty. }
  { exact Hrd. }
  rewrite Henc.
  assert (Hw3 : set_Password B w3 = w3).
  { destruct w3 as [f pf o t s out]. cbn in Hpf. subst pf. reflexivity. }
  pose proof (Open_sealed _ _ _ _ Hsealed') as HopenB.
  change (Fileio.Password (passwordFolder w2)) with B in HopenB, Hsealed'.
  unfold Open in HopenB. rewrite Hw3 in HopenB. rewrite HopenB.
  cbn [Encryption.Password data']. rewrite String.eqb_refl. cbn [negb].
  eexists _, data'. split; [reflexivity |].
  split; [reflexivity |].
  split; [| split; [| split]].
  - rewrite <- (Open_sealed _ _ _ _ Hsealed'). now apply Open_frame.
  - assert (Hfail := Open_sealed_other _ _ A _ _ Hsealed' Hne).
    intros Hnone. apply Hfail. rewrite <- Hnone. now f_equal.
  - reflexivity.
  - cbn. rewrite Hpf. reflexivity.
Qed.

Lemma ChangeMasterPassword_rotates_witness :
  exists w' record',
    Menus.ChangeMasterPassword
      (Ok (Menus.mkChangeModel true false "correcthorse" "newpassword" "newpassword"))
      Sample.bootstrapped = ((true, None), w')
    /\ Open Menus.validationKey "newpassword" w' = (record', None)
    /\ snd (Open Menus.validationKey "correcthorse" w') <> None
    /\ Encryption.Password record' = "the quick brown fox jumps"
    /\ Fileio.Password (passwordFolder w') = "newpassword".
Proof.
  destruct (ChangeMasterPassword_rotates (C := sample_contract)
              Sample.bootstrapped "correcthorse" "newpassword"
              (Encryption.mkData "the quick brown fox jumps" "" "" ""
                 (Sample.clock 0) (Sample.clock 1)))
    as (w' & record' & H1 & _ & H3 & H4 & H5 & H6).
  - exists 0%nat. eexists _, _. split; [reflexivity |].
    split; vm_compute; reflexivity.
  - reflexivity.
  - discriminate.
  - exists w', record'. auto.
Defined.

(** ** Filename codec *)
Section CodecFacts.
Import GoStrings Utils.

Lemma slice_from_cons c t k : slice_from (String c t) (S k) = slice_from t k.
Proof. reflexivity. Qed.

Lemma substring_all s : substring 0 (String.length s) s = s.
Proof. induction s as [| c s IH]; cbn; [reflexivity | now rewrite IH]. Qed.

Lemma slice_from_0 s : slice_from s 0 = s.
Proof. unfold slice_from. rewrite Nat.sub_0_r. apply substring_all. Qed.

Lemma last_index_None s sub :
  last_index s sub = None -> Contains s sub = false.
Proof.
  induction s as [| c s IH]; cbn [last_index Contains].
  - destruct (String.prefix sub ""); [discriminate | reflexivity].
  - destruct (last_index s sub); [discriminate |].
    destruct (String.prefix sub (String c s)); [discriminate |].
    intros _. now rewrite IH.
Qed.

(** Nothing after the last occurrence contains another one. *)
Lemma last_index_tail s sub i :
  sub <> "" ->
  last_index s sub = Some i -> Contains (slice_from s (S i)) sub = false.
Proof.
  intros Hsub. revert i. induction s as [| c s IH]; intros i; cbn [last_index].
  - destruct sub; [contradiction | discriminate].
  - destruct (last_index s sub) as [j |] eqn:E.
    + intros [= <-]. rewrite slice_from_cons. now apply IH.
    + destruct (String.prefix sub (String c s)); [| discriminate].
      intros [= <-]. rewrite slice_from_cons, slice_from_0.
      now apply last_index_None.
Qed.

(** The branch of [ParseFilenameToSiteName] that drops the timestamp is
    never taken: what follows the last ["_"] contains no ["_"]. *)
Lemma ParseFilenameToSiteName_unfold filename :
  ParseFilenameToSiteName filename =
  ReplaceAll (if HasSuffix filename ".gpg" then TrimSuffix filename ".gpg"
              else filename) "_" " ".
Proof.
  unfold ParseFilenameToSiteName.
  set (f := if HasSuffix filename ".gpg" then _ else _).
  unfold LastIndex. destruct (last_index f "_") as [i |] eqn:E; [| reflexivity].
  destruct (Z.of_nat i =? -1)%Z; [reflexivity |].
  replace (Z.to_nat (Z.of_nat i + 1)) with (S i) by lia.
  rewrite (last_index_tail f "_" i); [| discriminate | exact E].
  now rewrite andb_false_r.
Qed.

End CodecFacts.

(** C6. The claim asks that decoding an encoded filename drops the
    timestamp suffix.  [ParseFilenameToSiteName] looks for the timestamp
    after the last ["_"], which is the one inside [YYYYMMDD_HHMMSS]: the
    test for 15 characters containing a ["_"] fails and the whole key,
    timestamp included, comes back with spaces for underscores. *)
Theorem ParseFilenameToSiteName_keeps_timestamp :
  Utils.GenerateFilename (mkTime 2024 1 1 12 0 0) "GitHub"
  = "github_20240101_120000"
  /\ Utils.ParseFilenameToSiteName "github_20240101_120000"
     = "github 20240101 120000"
  /\ Utils.ParseFilenameToSiteName
       (Utils.GenerateFilename (mkTime 2024 1 1 12 0 0) "GitHub")
     <> "github".
Proof. vm_compute. repeat split. discriminate. Qed.

(** ** Password generator *)
Section GeneratorFacts.
Import Utils.

Lemma bytes_of_app a b : bytes_of (a +:+ b) = (bytes_of a ++ bytes_of b)%list.
Proof.
  induction a as [| c a IH]; [reflexivity |].
  rewrite str_app_cons. unfold bytes_of in *. cbn [list_ascii_of_string].
  now rewrite IH.
Qed.

Lemma length_bytes_of s : length (bytes_of s) = String.length s.
Proof. induction s as [| c s IH]; cbn; [reflexivity | now f_equal]. Qed.

Lemma memb_In c s : memb c s = true <-> In c (bytes_of s).
Proof.
  unfold memb. rewrite existsb_exists. split.
  - intros (x & Hx & Heq). apply Ascii.eqb_eq in Heq. now subst.
  - intros H. exists c. split; [exact H | apply Ascii.eqb_refl].
Qed.

Lemma subsetb_In s t :
  subsetb s t = true -> forall c, In c (bytes_of s) -> In c (bytes_of t).
Proof.
  unfold subsetb. rewrite forallb_forall. intros H c Hc.
  now apply memb_In, H.
Qed.

Lemma disjointb_In s t :
  disjointb s t = true -> forall c, In c (bytes_of s) -> ~ In c (bytes_of t).
Proof.
  unfold disjointb. rewrite forallb_forall. intros H c Hc Hin.
  apply memb_In in Hin. specialize (H c Hc). now rewrite Hin in H.
Qed.

Lemma get_In i s c : String.get i s = Some c -> In c (bytes_of s).
Proof.
  revert i. induction s as [| x s IH]; intros [| i]; cbn; try discriminate.
  - intros [= ->]. now left.
  - intros H. right. now apply (IH i).
Qed.

Lemma get_lt i s : (i < String.length s)%nat -> exists c, String.get i s = Some c.
Proof.
  revert i. induction s as [| x s IH]; intros [| i]; cbn; try lia; eauto.
  intros H. apply IH. lia.
Qed.

Lemma bind_eq {A B} (c : Rand A) (f : A -> Rand B) src k a k' :
  c src k = (a, k') -> bind c f src k = f a src k'.
Proof. unfold bind. now intros ->. Qed.

Lemma rand_Int_healthy src k max :
  healthy src -> (0 < max)%nat ->
  exists v, rand_Int max src k = (Ok v, S k) /\ (v < max)%nat.
Proof.
  intros Hs Hmax. unfold rand_Int. specialize (Hs k).
  destruct (src k) as [v |]; [| contradiction].
  exists (v mod max)%nat. split; [reflexivity |].
  apply Nat.mod_upper_bound. lia.
Qed.

(** With a healthy source, a draw from a non-empty charset is one of its
    characters. *)
Lemma getRandomChar_healthy src k charset :
  healthy src -> charset <> "" ->
  exists c, getRandomChar charset src k = (Ok (String c ""), S k)
            /\ In c (bytes_of charset).
Proof.
  intros Hs Hne. unfold getRandomChar.
  destruct charset as [| x t]; [contradiction |].
  cbn [String.length Nat.eqb].
  destruct (rand_Int_healthy src k (S (String.length t)) Hs) as (v & Hv & Hlt);
    [lia |].
  rewrite (bind_eq _ _ _ _ _ _ Hv). unfold ret.
  destruct (get_lt v (String x t) Hlt) as [c Hc].
  exists c. unfold byte_of. rewrite Hc. split; [reflexivity |].
  now apply (get_In v).
Qed.

End GeneratorFacts.

Section GeneratorLoops.
Import Utils.
Variable src : Entropy.
Hypothesis src_healthy : healthy src.

(** The guaranteed characters land at the front of the buffer. *)
Lemma place_app g : forall pre rest,
  (length g <= length rest)%nat ->
  place (length pre) g (pre ++ rest) = (pre ++ g ++ drop (length g) rest)%list.
Proof.
  induction g as [| c g IH]; intros pre rest Hlen; cbn [place].
  - now rewrite drop_0.
  - destruct rest as [| r rest]; [cbn in Hlen; lia |].
    replace (length pre <? length (pre ++ r :: rest))%nat with true
      by (symmetry; apply Nat.ltb_lt; rewrite length_app; cbn; lia).
    rewrite insert_app_r_alt, Nat.sub_diag by lia. cbn [insert list_insert].
    specialize (IH (pre ++ [c])%list rest).
    rewrite length_app in IH. cbn [length] in IH.
    replace (length pre + 1)%nat with (S (length pre)) in IH by lia.
    rewrite <- !app_assoc in IH. cbn [app] in IH.
    rewrite IH by (cbn in Hlen; lia). reflexivity.
Qed.

(** The fill loop overwrites the [n] positions after [pre] with
    characters of the charset. *)
Lemma fill_healthy charset : charset <> "" -> forall n pre rest k,
  length rest = n ->
  exists new k',
    fill n (length pre) charset (pre ++ rest) src k = (Ok (pre ++ new)%list, k')
    /\ length new = n
    /\ Forall (fun c => In c (bytes_of charset)) new.
Proof.
  intros Hne. induction n as [| n IH]; intros pre rest k Hlen; cbn [fill].
  - destruct rest; [| discriminate]. exists [], k. auto.
  - destruct rest as [| r rest]; [discriminate |].
    destruct (getRandomChar_healthy src k charset src_healthy Hne) as (c & Hc & Hin).
    rewrite (bind_eq _ _ _ _ _ _ Hc).
    rewrite insert_app_r_alt, Nat.sub_diag by lia. cbn [insert list_insert byte_of String.get].
    specialize (IH (pre ++ [c])%list rest (S k)).
    rewrite length_app in IH. cbn [length] in IH.
    replace (length pre + 1)%nat with (S (length pre)) in IH by lia.
    rewrite <- !app_assoc in IH. cbn [app] in IH.
    destruct IH as (new & k' & Hfill & Hn & Hall); [cbn in Hlen; lia |].
    exists (c :: new), k'. rewrite Hfill, <- app_assoc. cbn. auto.
Qed.

Lemma swap_Permutation slice i j :
  (i < length slice)%nat -> (j < length slice)%nat -> swap slice i j ≡ₚ slice.
Proof.
  intros Hi Hj. unfold swap.
  destruct (lookup_lt_is_Some_2 slice i Hi) as [x Hx].
  destruct (lookup_lt_is_Some_2 slice j Hj) as [y Hy].
  rewrite Hx, Hy. now apply Permutation_insert_swap.
Qed.

(** The shuffle succeeds and permutes the buffer. *)
Lemma shuffle_from_healthy : forall i slice k,
  (i = 0 \/ i < length slice)%nat ->
  exists slice' k',
    shuffle_from i slice src k = ((slice', None), k') /\ slice' ≡ₚ slice.
Proof.
  induction i as [| i IH]; intros slice k Hi; cbn [shuffle_from].
  - exists slice, k. auto.
  - destruct Hi as [Hi | Hi]; [discriminate |].
    destruct (rand_Int_healthy src k (S i + 1) src_healthy) as (j & Hj & Hlt); [lia |].
    rewrite (bind_eq _ _ _ _ _ _ Hj).
    assert (Hperm : swap slice (S i) j ≡ₚ slice) by (apply swap_Permutation; lia).
    destruct (IH (swap slice (S i) j) (S k)) as (slice' & k' & Hs & Hp).
    { right. rewrite (Permutation_length Hperm). lia. }
    exists slice', k'. split; [exact Hs |]. now rewrite Hp.
Qed.

Lemma shuffleBytes_healthy slice k :
  exists slice' k',
    shuffleBytes slice src k = ((slice', None), k') /\ slice' ≡ₚ slice.
Proof.
  unfold shuffleBytes. apply shuffle_from_healthy.
  destruct slice; cbn; [now left | right; lia].
Qed.

(** One class block: the charset grows by the class when it is
    requested, and the guaranteed characters by one character of it. *)
Lemma class_block_healthy (incl : bool) chars charset g k :
  chars <> "" ->
  exists charset' g' k' new,
    (if incl then include_class chars (charset, g) else ret (charset, g)) src k
    = ((charset', g'), k')
    /\ bytes_of charset'
       = (bytes_of charset ++ (if incl then bytes_of chars else []))%list
    /\ bytes_of g' = (bytes_of g ++ new)%list
    /\ Forall (fun c => In c (bytes_of chars)) new
    /\ length new = (if incl then 1 else 0)%nat.
Proof.
  intros Hne. destruct incl.
  - unfold include_class.
    destruct (getRandomChar_healthy src k chars src_healthy Hne) as (c & Hc & Hin).
    rewrite (bind_eq _ _ _ _ _ _ Hc). unfold ret.
    exists (charset +:+ chars), (g +:+ String c ""), (S k), [c].
    rewrite !bytes_of_app. repeat split; auto.
  - exists charset, g, k, []. unfold ret. rewrite !app_nil_r. repeat split; auto.
Qed.

End GeneratorLoops.

Section GeneratorClasses.
Import Utils.

(** The characters a class contributes: not empty, all of the class,
    and none ambiguous once the ambiguous ones are removed. *)
Lemma class_facts (excl : bool) (base : string) :
  In base [uppercaseChars; lowercaseChars; numberChars] ->
  let chars := if excl then removeAmbiguousChars base else base in
  chars <> ""
  /\ subsetb chars base = true
  /\ (excl = true -> disjointb chars ambiguousChars = true).
Proof.
  intros [<- | [<- | [<- | []]]]; destruct excl; cbv zeta;
    (split; [vm_compute; discriminate |]);
    (split; [vm_compute; reflexivity |]);
    intros H; try discriminate H; vm_compute; reflexivity.
Qed.

Lemma symbol_facts :
  symbolChars <> "" /\ disjointb symbolChars ambiguousChars = true.
Proof. split; [discriminate | vm_compute; reflexivity]. Qed.

Lemma bytes_of_nonempty s : bytes_of s <> [] -> s <> "".
Proof. intros H ->. now apply H. Qed.

Lemma bytes_of_string_of_list l : bytes_of (string_of_list_ascii l) = l.
Proof. apply list_ascii_of_string_of_list_ascii. Qed.

End GeneratorClasses.

(** C5. With an entropy source that does not fail, for every options
    value with length in [[8, 64]] and at least one class selected,
    [GeneratePassword] returns a password (no error) of exactly the
    requested length, with at least one character of each requested
    class, and with no character of ["0O1lI"] when exclude-ambiguous is
    requested. *)
Theorem GeneratePassword_meets_options
    (src : Utils.Entropy) (k : nat) (opts : Utils.PasswordOptions) :
  healthy src ->
  (8 <= Utils.Length opts <= 64)%Z ->
  Utils.IncludeUppercase opts || Utils.IncludeLowercase opts
  || Utils.IncludeNumbers opts || Utils.IncludeSymbols opts = true ->
  exists password k',
    Utils.GeneratePassword opts src k = (Ok password, k')
    /\ Z.of_nat (String.length password) = Utils.Length opts
    /\ (Utils.IncludeUppercase opts = true ->
        has_char_from password Utils.uppercaseChars)
    /\ (Utils.IncludeLowercase opts = true ->
        has_char_from password Utils.lowercaseChars)
    /\ (Utils.IncludeNumbers opts = true ->
        has_char_from password Utils.numberChars)
    /\ (Utils.IncludeSymbols opts = true ->
        has_char_from password Utils.symbolChars)
    /\ (Utils.ExcludeAmbiguous opts = true ->
        no_char_from password Utils.ambiguousChars).
Proof.
  intros Hs [Hlo Hhi] Hcls.
  destruct opts as [len iu il inum isy ex]; cbn [Utils.Length Utils.IncludeUppercase
    Utils.IncludeLowercase Utils.IncludeNumbers Utils.IncludeSymbols
    Utils.ExcludeAmbiguous] in *.
  unfold Utils.GeneratePassword; cbn [Utils.Length Utils.IncludeUppercase
    Utils.IncludeLowercase Utils.IncludeNumbers Utils.IncludeSymbols
    Utils.ExcludeAmbiguous].
  replace ((len <? 8)%Z || (len >? 64)%Z) with false by (symmetry; apply orb_false_iff; lia).
  replace (negb iu && negb il && negb inum && negb isy) with false
    by (destruct iu, il, inum, isy; try reflexivity; discriminate).
  destruct (class_facts ex Utils.uppercaseChars) as (Une & Usub & Udis); [cbn; auto |].
  destruct (class_facts ex Utils.lowercaseChars) as (Lne & Lsub & Ldis); [cbn; auto |].
  destruct (class_facts ex Utils.numberChars) as (Nne & Nsub & Ndis); [cbn; auto |].
  destruct symbol_facts as (Sne & Sdis).
  cbv zeta in *.
  set (cu := if ex then _ else Utils.uppercaseChars) in *.
  set (cl := if ex then _ else Utils.lowercaseChars) in *.
  set (cn := if ex then _ else Utils.numberChars) in *.
  destruct (class_block_healthy src Hs iu cu "" "" k Une)
    as (cs1 & g1 & k1 & n1 & E1 & C1 & G1 & A1 & L1).
  rewrite (bind_eq _ _ _ _ _ _ E1).
  destruct (class_block_healthy src Hs il cl cs1 g1 k1 Lne)
    as (cs2 & g2 & k2 & n2 & E2 & C2 & G2 & A2 & L2).
  rewrite (bind_eq _ _ _ _ _ _ E2).
  destruct (class_block_healthy src Hs inum cn cs2 g2 k2 Nne)
    as (cs3 & g3 & k3 & n3 & E3 & C3 & G3 & A3 & L3).
  rewrite (bind_eq _ _ _ _ _ _ E3).
  destruct (class_block_healthy src Hs isy Utils.symbolChars cs3 g3 k3 Sne)
    as (cs4 & g4 & k4 & n4 & E4 & C4 & G4 & A4 & L4).
  rewrite (bind_eq _ _ _ _ _ _ E4).
  rewrite C3, C2, C1 in C4. rewrite G3, G2, G1 in G4.
  change (bytes_of "") with (@nil ascii) in C4, G4.
  rewrite app_nil_l in C4, G4.
  clear E1 E2 E3 E4 C1 C2 C3 G1 G2 G3.
  set (n := Z.to_nat len).
  assert (Hg4 : String.length g4 = length (bytes_of g4)) by (symmetry; apply length_bytes_of).
  assert (Hglen : (length (bytes_of g4) <= 4)%nat).
  { rewrite G4, !length_app, L1, L2, L3, L4. destruct iu, il, inum, isy; cbn; lia. }
  assert (Hcs : cs4 <> "").
  { apply bytes_of_nonempty. rewrite C4.
    assert (Hu : bytes_of cu <> []) by (intros H0; apply Une; now destruct cu).
    assert (Hl : bytes_of cl <> []) by (intros H0; apply Lne; now destruct cl).
    assert (Hn : bytes_of cn <> []) by (intros H0; apply Nne; now destruct cn).
    destruct iu, il, inum, isy; try discriminate Hcls;
      destruct (bytes_of cu), (bytes_of cl), (bytes_of cn); try contradiction;
      discriminate. }
  (* the buffer after the guaranteed characters are placed *)
  change (list_ascii_of_string g4) with (bytes_of g4).
  pose proof (place_app (bytes_of g4) [] (replicate n zero)) as Hplace.
  cbn [length app] in Hplace. rewrite Hplace by (rewrite length_replicate; lia).
  clear Hplace. rewrite Hg4.
  destruct (fill_healthy src Hs cs4 Hcs (n - length (bytes_of g4)) (bytes_of g4)
              (drop (length (bytes_of g4)) (replicate n zero)) k4)
    as (new & k5 & Hfill & Hnew & Hall).
  { rewrite length_drop, length_replicate. reflexivity. }
  rewrite (bind_eq _ _ _ _ _ _ Hfill).
  destruct (shuffleBytes_healthy src Hs (bytes_of g4 ++ new) k5)
    as (slice & k6 & Hsh & Hperm).
  rewrite (bind_eq _ _ _ _ _ _ Hsh). unfold Utils.ret.
  exists (string_of_list_ascii slice), k6. split; [reflexivity |].
  assert (Hin : forall c, In c (bytes_of (string_of_list_ascii slice))
                          <-> In c (bytes_of g4 ++ new)).
  { intros c. rewrite bytes_of_string_of_list. split; apply Permutation_in; [| symmetry]; exact Hperm. }
  assert (Hone : forall (b : bool) (ni : list ascii) chars class,
             length ni = (if b then 1 else 0)%nat ->
             Forall (fun c => In c (bytes_of chars)) ni ->
             subsetb chars class = true ->
             (forall c, In c ni -> In c (bytes_of g4)) ->
             b = true -> has_char_from (string_of_list_ascii slice) class).
  { intros b ni chars class Hl Hf Hsub Hg ->.
    destruct ni as [| c [| ? ?]]; try discriminate Hl.
    exists c. split.
    - apply Hin, in_or_app. left. apply Hg. now left.
    - apply (subsetb_In _ _ Hsub). now inversion Hf. }
  split; [| split; [| split; [| split; [| split]]]].
  - rewrite <- length_bytes_of, bytes_of_string_of_list, (Permutation_length Hperm),
      length_app, Hnew. subst n. lia.
  - apply (Hone iu n1 cu); auto. intros c Hc. rewrite G4, !in_app_iff. tauto.
  - apply (Hone il n2 cl); auto. intros c Hc. rewrite G4, !in_app_iff. tauto.
  - apply (Hone inum n3 cn); auto. intros c Hc. rewrite G4, !in_app_iff. tauto.
  - apply (Hone isy n4 Utils.symbolChars); auto;
      try solve [vm_compute; reflexivity].
    intros c Hc. rewrite G4, !in_app_iff. tauto.
  - intros ->. specialize (Udis eq_refl). specialize (Ldis eq_refl).
    specialize (Ndis eq_refl).
    assert (Hsafe : forall chars c,
               In chars [cu; cl; cn; Utils.symbolChars] ->
               In c (bytes_of chars) -> ~ In c (bytes_of Utils.ambiguousChars)).
    { intros chars c [<- | [<- | [<- | [<- | []]]]]; now apply disjointb_In. }
    intros c Hc. apply Hin, in_app_iff in Hc. destruct Hc as [Hc | Hc].
    + rewrite G4, !in_app_iff in Hc. rewrite List.Forall_forall in A1, A2, A3, A4.
      destruct Hc as [[[Hc | Hc] | Hc] | Hc].
      * apply (Hsafe cu); [now left | now apply A1].
      * apply (Hsafe cl); [right; now left | now apply A2].
      * apply (Hsafe cn); [right; right; now left | now apply A3].
      * apply (Hsafe Utils.symbolChars); [right; right; right; now left | now apply A4].
    + rewrite List.Forall_forall in Hall. apply Hall in Hc. rewrite C4, !in_app_iff in Hc.
      destruct Hc as [[[Hc | Hc] | Hc] | Hc].
      * destruct iu; [| contradiction]. apply (Hsafe cu); [now left | exact Hc].
      * destruct il; [| contradiction]. apply (Hsafe cl); [right; now left | exact Hc].
      * destruct inum; [| contradiction].
        apply (Hsafe cn); [right; right; now left | exact Hc].
      * destruct isy; [| contradiction].
        apply (Hsafe Utils.symbolChars); [right; right; right; now left | exact Hc].
Qed.

(** ** Catalog *)
Section KeyFacts.
Import GoStrings Utils.

Lemma substring_app_l a b : substring 0 (String.length a) (a +:+ b) = a.
Proof.
  induction a as [| c a IH]; cbn [String.length].
  - destruct b; reflexivity.
  - rewrite str_app_cons. cbn [substring]. now rewrite IH.
Qed.

Lemma substring_app_r a b :
  substring (String.length a) (String.length b) (a +:+ b) = b.
Proof.
  induction a as [| c a IH]; cbn [String.length].
  - apply substring_all.
  - rewrite str_app_cons. cbn [substring]. exact IH.
Qed.

Lemma HasSuffix_app a b : HasSuffix (a +:+ b) b = true.
Proof.
  unfold HasSuffix, slice_from. rewrite str_length_app.
  replace (String.length a + String.length b - String.length b)%nat
    with (String.length a) by lia.
  replace (String.length a + String.length b - String.length a)%nat
    with (String.length b) by lia.
  rewrite substring_app_r, String.eqb_refl, andb_true_r.
  apply Nat.leb_le. lia.
Qed.

Lemma TrimSuffix_app a b : TrimSuffix (a +:+ b) b = a.
Proof.
  unfold TrimSuffix, slice_to. rewrite HasSuffix_app, str_length_app.
  replace (String.length a + String.length b - String.length b)%nat
    with (String.length a) by lia.
  apply substring_app_l.
Qed.

Lemma dotfree_app a b : dotfree a -> dotfree b -> dotfree (a +:+ b).
Proof.
  unfold dotfree. change list_ascii_of_string with bytes_of.
  rewrite bytes_of_app. apply Forall_app_2.
Qed.

Lemma dotfree_cons c s : c <> "."%char -> dotfree s -> dotfree (String c s).
Proof. intros Hc Hs. now constructor. Qed.

(** A key without ["."] does not contain [".checker"], extension
    included. *)
Lemma dotfree_no_checker key :
  dotfree key -> Contains (key +:+ ".gpg") ".checker" = false.
Proof.
  induction key as [| c key IH]; intros Hfree.
  - reflexivity.
  - inversion Hfree as [| ? ? Hc Hrest]; subst.
    rewrite str_app_cons. cbn [Contains String.prefix].
    destruct (ascii_dec "." c) as [<- |]; [contradiction |].
    now apply IH.
Qed.

Lemma digit_not_dot n : GoTime.digit n <> "."%char.
Proof.
  unfold GoTime.digit. intros H.
  apply (f_equal nat_of_ascii) in H.
  rewrite nat_ascii_embedding in H.
  - change (nat_of_ascii ".") with 46%nat in H. lia.
  - pose proof (Nat.mod_upper_bound n 10). lia.
Qed.

Lemma digits_dotfree fuel : forall n acc,
  dotfree acc -> dotfree (GoTime.digits fuel n acc).
Proof.
  induction fuel as [| fuel IH]; intros n acc Hacc; cbn [GoTime.digits].
  - exact Hacc.
  - assert (dotfree (String (GoTime.digit n) acc))
      by (apply dotfree_cons; [apply digit_not_dot | exact Hacc]).
    destruct (n / 10 =? 0)%nat; [assumption | now apply IH].
Qed.

Lemma zeros_dotfree k : dotfree (GoTime.zeros k).
Proof.
  induction k as [| k IH]; [constructor |].
  apply dotfree_cons; [discriminate | exact IH].
Qed.

Lemma appendInt_dotfree n width : dotfree (GoTime.appendInt n width).
Proof.
  unfold GoTime.appendInt, GoTime.itoa.
  apply dotfree_app; [apply zeros_dotfree |].
  apply digits_dotfree. constructor.
Qed.

Lemma Format_dotfree t : dotfree (GoTime.Format_20060102_150405 t).
Proof.
  unfold GoTime.Format_20060102_150405.
  repeat (apply dotfree_app; [apply appendInt_dotfree |]).
  apply dotfree_cons; [discriminate |].
  repeat (apply dotfree_app; [apply appendInt_dotfree |]).
  apply appendInt_dotfree.
Qed.

Lemma name_class_lower_not_dot c :
  in_name_class c = true -> lower_byte c <> "."%char.
Proof.
  destruct c as [[] [] [] [] [] [] [] []]; vm_compute; congruence.
Qed.

(** The cleaned, lower-cased name has no ["."]. *)
Lemma clean_lower_dotfree s : forall skip, dotfree (ToLower (clean_from skip s)).
Proof.
  induction s as [| c s IH]; intros skip; cbn [clean_from].
  - constructor.
  - destruct skip as [| skip]; [| apply IH].
    destruct (in_name_class c) eqn:E; cbn [ToLower].
    + apply dotfree_cons; [now apply name_class_lower_not_dot | apply IH].
    + apply dotfree_cons; [vm_compute; congruence | apply IH].
Qed.

Lemma substring_dotfree s : forall n, dotfree s -> dotfree (substring 0 n s).
Proof.
  induction s as [| c s IH]; intros [| n] Hs; cbn [substring]; try constructor.
  - inversion Hs; assumption.
  - inversion Hs; subst. now apply IH.
Qed.

Lemma GenerateFilename_dotfree t label : dotfree (GenerateFilename t label).
Proof.
  unfold GenerateFilename.
  apply dotfree_app.
  - destruct (20 <? _)%nat; [apply substring_dotfree |]; apply clean_lower_dotfree.
  - apply dotfree_cons; [discriminate | apply Format_dotfree].
Qed.

(** A codec key is not the name of the validation record. *)
Lemma dotfree_not_validation key :
  dotfree key -> key <> Menus.validationKey.
Proof.
  intros Hfree ->. inversion Hfree as [| ? ? Hc _]. now apply Hc.
Qed.

Lemma GenerateFilename_not_init t label :
  GenerateFilename t label +:+ ".gpg" <> "init.gpg".
Proof.
  intros H. apply (f_equal (fun s => TrimSuffix s ".gpg")) in H.
  rewrite TrimSuffix_app in H.
  change (TrimSuffix "init.gpg" ".gpg") with "init" in H.
  unfold GenerateFilename in H.
  apply (f_equal (fun s => memb "_" s)) in H.
  change (memb "_" "init") with false in H.
  assert (Hin : In "_"%char (bytes_of
    ((if (20 <? String.length (ToLower (clean_from 0 label)))%nat
      then slice_to (ToLower (clean_from 0 label)) 20
      else ToLower (clean_from 0 label))
     +:+ "_" +:+ GoTime.Format_20060102_150405 t))).
  { rewrite bytes_of_app. apply in_or_app. right.
    rewrite str_app_cons. now left. }
  apply memb_In in Hin. congruence.
Qed.

End KeyFacts.

Section CatalogFacts.
Import Encryption Menus.
Context {X : Externals}.

(** An entry is appended to the list or the list is left as it is. *)
Lemma visit_acc w entries d : visit w entries d = (entries ++ visit w [] d)%list.
Proof.
  unfold visit.
  destruct (Os.IsDir d || negb (GoStrings.HasSuffix (Os.Name d) ".gpg"));
    [now rewrite app_nil_r |].
  destruct (String.eqb (Os.Name d) "init.gpg"); [now rewrite app_nil_r |].
  destruct (GoStrings.Contains (Os.Name d) ".checker"); [now rewrite app_nil_r |].
  destruct (DecryptPasswordFromFile _ w) as [data [e |]];
    [now rewrite app_nil_r | reflexivity].
Qed.

Lemma fold_visit w ds : forall entries,
  fold_left (visit w) ds entries = (entries ++ flat_map (visit w []) ds)%list.
Proof.
  induction ds as [| d ds IH]; intros entries; cbn [fold_left flat_map].
  - now rewrite app_nil_r.
  - rewrite IH, visit_acc, <- app_assoc. reflexivity.
Qed.

Lemma visit_directory w d : Os.IsDir d = true -> visit w [] d = [].
Proof. unfold visit. now intros ->. Qed.

Lemma visit_undecryptable w d : undecryptable_entry w d -> visit w [] d = [].
Proof.
  intros [_ Hfail]. unfold visit, key_of in *.
  destruct (Os.IsDir d || negb (GoStrings.HasSuffix (Os.Name d) ".gpg"));
    [reflexivity |].
  destruct (String.eqb (Os.Name d) "init.gpg"); [reflexivity |].
  destruct (GoStrings.Contains (Os.Name d) ".checker"); [reflexivity |].
  destruct (DecryptPasswordFromFile _ w) as [data [e |]];
    [reflexivity | now contradiction Hfail].
Qed.

Lemma visit_record w d :
  record_entry w d ->
  exists entry, visit w [] d = [entry] /\ Filename entry = key_of d.
Proof.
  intros (Hfile & (t & label & Hname) & Hopen).
  unfold visit, key_of in *. rewrite Hfile, Hname in *.
  rewrite HasSuffix_app. cbn [negb orb].
  destruct (String.eqb_spec (Utils.GenerateFilename t label +:+ ".gpg") "init.gpg")
    as [Heq |]; [now apply GenerateFilename_not_init in Heq |].
  rewrite dotfree_no_checker by apply GenerateFilename_dotfree.
  destruct (DecryptPasswordFromFile _ w) as [data [e |]]; [discriminate |].
  eexists. split; reflexivity.
Qed.

Lemma visit_listing w ds :
  Forall (fun d => Os.IsDir d = true \/ record_entry w d) ds ->
  map Filename (flat_map (visit w []) ds)
  = map key_of (List.filter (fun d => negb (Os.IsDir d)) ds).
Proof.
  induction 1 as [| d ds [Hdir | Hrec] _ IH]; cbn [flat_map List.filter].
  - reflexivity.
  - rewrite (visit_directory _ _ Hdir), Hdir. exact IH.
  - destruct (visit_record _ _ Hrec) as (entry & -> & Hkey).
    destruct Hrec as (-> & _). cbn [negb app map]. now rewrite Hkey, IH.
Qed.

Lemma record_key_dotfree w d : record_entry w d -> dotfree (key_of d).
Proof.
  intros (_ & (t & label & Hname) & _). unfold key_of.
  rewrite Hname, TrimSuffix_app. apply GenerateFilename_dotfree.
Qed.

End CatalogFacts.

(** C4. For a store whose listing holds directories, [N] records that
    open under the active passphrase and one file that fails to decrypt,
    [getAllPasswordEntries] returns no error and exactly the [N] records,
    in the order of the listing; the validation record is not among
    them. *)
Theorem getAllPasswordEntries_skips_undecryptable
    {X : Encryption.Externals} (w : World)
    (pre post : list Os.DirEntry) (bad : Os.DirEntry) (N : nat) :
  Os.ReadDir (Fileio.FolderLocation (passwordFolder w)) (fs w)
  = Ok (pre ++ bad :: post)%list ->
  Forall (fun d => Os.IsDir d = true \/ record_entry w d) (pre ++ post) ->
  length (List.filter (fun d => negb (Os.IsDir d)) (pre ++ post)) = N ->
  undecryptable_entry w bad ->
  exists entries w',
    Menus.getAllPasswordEntries w = (Ok entries, w')
    /\ length entries = N
    /\ map Menus.Filename entries
       = map key_of (List.filter (fun d => negb (Os.IsDir d)) (pre ++ post))
    /\ ~ In Menus.validationKey (map Menus.Filename entries).
Proof.
  intros Hdir Hall HN Hbad.
  unfold Menus.getAllPasswordEntries, Fileio.RefreshDirectoryListing.
  rewrite Hdir.
  set (w1 := set_passwordFolder _ w).
  change (Fileio.Dirs (passwordFolder w1)) with (pre ++ bad :: post)%list.
  assert (Hframe : forall key,
             Encryption.DecryptPasswordFromFile key w1
             = Encryption.DecryptPasswordFromFile key w)
    by (intros key; now apply DecryptPasswordFromFile_frame).
  assert (Hall1 : Forall (fun d => Os.IsDir d = true \/ record_entry w1 d) (pre ++ post)).
  { revert Hall. apply List.Forall_impl.
    intros d [Hd | (Hf & Hn & Ho)]; [now left |].
    right. split; [exact Hf |]. split; [exact Hn |]. now rewrite Hframe. }
  assert (Hbad1 : undecryptable_entry w1 bad).
  { destruct Hbad as [Hf Ho]. split; [exact Hf | now rewrite Hframe]. }
  eexists _, _. split; [reflexivity |].
  rewrite fold_visit. cbn [app].
  assert (Hflat : flat_map (Menus.visit w1 []) (pre ++ bad :: post)
                  = flat_map (Menus.visit w1 []) (pre ++ post)).
  { rewrite !flat_map_app. cbn [flat_map].
    now rewrite (visit_undecryptable _ _ Hbad1). }
  rewrite Hflat.
  pose proof (visit_listing w1 _ Hall1) as Hmap.
  split; [| split].
  - rewrite <- HN, <- (length_map Menus.Filename), Hmap. apply length_map.
  - exact Hmap.
  - rewrite Hmap. intros Hin. apply in_map_iff in Hin as (d & Hkey & Hd).
    apply filter_In in Hd as [Hd Hfile].
    rewrite List.Forall_forall in Hall. destruct (Hall d Hd) as [Hdir' | Hrec].
    + rewrite Hdir' in Hfile. discriminate.
    + apply record_key_dotfree in Hrec. now apply dotfree_not_validation in Hrec.
Qed.

Lemma getAllPasswordEntries_skips_undecryptable_witness :
  exists entries w',
    Menus.getAllPasswordEntries Sample.stocked = (Ok entries, w')
    /\ length entries = 2%nat
    /\ map Menus.Filename entries
       = ["github_20240101_120000"; "gitlab_20240101_120005"].
Proof.
  destruct (getAllPasswordEntries_skips_undecryptable Sample.stocked
              [Os.mkDirEntry ".checker" true]
              [Os.mkDirEntry "github_20240101_120000.gpg" false;
               Os.mkDirEntry "gitlab_20240101_120005.gpg" false]
              (Os.mkDirEntry "broken_20240101_120000.gpg" false) 2)
    as (entries & w' & H1 & H2 & H3 & _).
  - vm_compute. reflexivity.
  - constructor; [left; reflexivity |].
    constructor.
    { right. split; [reflexivity |]. split; [| vm_compute; reflexivity].
      exists (mkTime 2024 1 1 12 0 0), "GitHub". vm_compute. reflexivity. }
    constructor; [| constructor].
    right. split; [reflexivity |]. split; [| vm_compute; reflexivity].
    exists (mkTime 2024 1 1 12 0 5), "GitLab". vm_compute. reflexivity.
  - reflexivity.
  - split; [reflexivity | vm_compute; discriminate].
  - exists entries, w'. auto.
Defined.

Lemma GeneratePassword_meets_options_witness :
  exists password k',
    Utils.GeneratePassword Utils.DefaultPasswordOptions Sample.entropy 0
    = (Ok password, k')
    /\ Z.of_nat (String.length password) = 16%Z
    /\ has_char_from password Utils.uppercaseChars
    /\ no_char_from password Utils.ambiguousChars.
Proof.
  destruct (GeneratePassword_meets_options Sample.entropy 0 Utils.DefaultPasswordOptions)
    as (password & k' & H & Hlen & Hu & _ & _ & _ & Ha).
  - intros k. discriminate.
  - cbn. lia.
  - reflexivity.
  - exists password, k'. auto.
Defined.

(** * Further properties *)

(** ** Paths *)
Section PathFacts.
Import GoStrings Os Fileio.


Lemma str_app_inv_l (a b c : string) : a +:+ b = a +:+ c -> b = c.
Proof.
  induction a as [| x a IH]; [easy |].
  rewrite !str_app_cons. intros [= H]. now apply IH.
Qed.


Lemma prefix_app p r : String.prefix p (p +:+ r) = true.
Proof.
  induction p as [| c p IH]; [now destruct r |].
  rewrite str_app_cons. cbn [String.prefix].
  destruct (ascii_dec c c); [exact IH | contradiction].
Qed.

Lemma prefix_inv p : forall s,
  String.prefix p s = true -> s = p +:+ slice_from s (String.length p).
Proof.
  induction p as [| c p IH]; intros s H.
  - now rewrite slice_from_0.
  - destruct s as [| x s]; [discriminate |]. cbn [String.prefix] in H.
    destruct (ascii_dec c x) as [<- |]; [| discriminate].
    rewrite str_app_cons. cbn [String.length]. rewrite slice_from_cons.
    f_equal. now apply IH.
Qed.

Lemma slice_from_app p r : slice_from (p +:+ r) (String.length p) = r.
Proof.
  unfold slice_from. rewrite str_length_app.
  replace (String.length p + String.length r - String.length p)%nat
    with (String.length r) by lia.
  apply substring_app_r.
Qed.

Lemma Contains_char s c : Contains s (String c "") = memb c s.
Proof.
  induction s as [| x s IH]; [reflexivity |].
  cbn [Contains String.prefix]. unfold memb, bytes_of in *.
  cbn [list_ascii_of_string existsb]. rewrite IH.
  destruct (ascii_dec c x) as [<- | Hne].
  - rewrite Ascii.eqb_refl. now destruct s.
  - apply Ascii.eqb_neq in Hne. now rewrite Hne.
Qed.

Lemma memb_app c a b : memb c (a +:+ b) = memb c a || memb c b.
Proof. unfold memb. now rewrite bytes_of_app, existsb_app. Qed.

Lemma last_index_no_match s sub :
  Contains s sub = false -> last_index s sub = None.
Proof.
  induction s as [| c s IH]; cbn [Contains last_index].
  - rewrite orb_false_r. now intros ->.
  - intros H. apply orb_false_iff in H as [Hp Hc].
    now rewrite (IH Hc), Hp.
Qed.

(** The last ["/"] of [dir/name] is the one that joins them. *)
Lemma last_index_join dir name :
  Contains name "/" = false ->
  last_index (dir +:+ "/" +:+ name) "/" = Some (String.length dir).
Proof.
  intros Hname. induction dir as [| c dir IH].
  - rewrite str_app_nil_l. change ("/" +:+ name) with (String "/" name).
    cbn [last_index]. rewrite (last_index_no_match _ _ Hname).
    change (String "/" name) with ("/" +:+ name). now rewrite prefix_app.
  - rewrite str_app_cons. cbn [last_index String.length]. now rewrite IH.
Qed.

Lemma parent_join dir name :
  Contains name "/" = false -> parent (dir +:+ "/" +:+ name) = Some dir.
Proof.
  intros Hname. unfold parent. rewrite (last_index_join _ _ Hname).
  unfold slice_to. now rewrite substring_app_l.
Qed.

Lemma str_app_longer (a b : string) : b <> "" -> a <> a +:+ b.
Proof.
  intros Hb H. apply (f_equal String.length) in H.
  rewrite str_length_app in H. destruct b; [contradiction | cbn in H; lia].
Qed.

End PathFacts.

(** ** Store: writes and deletions touch one file *)
Section StoreFrame.
Import Os Fileio.

Lemma WriteFile_other name data perm fs e fs' other :
  WriteFile name data perm fs = (e, fs') -> other <> name ->
  nodes fs' !! other = nodes fs !! other.
Proof.
  unfold WriteFile. intros H Hne.
  destruct (nodes fs !! name) as [[c old | d] |];
    [| | destruct (match parent name with Some dir => is_directory fs dir | None => true end)];
    injection H as <- <-; cbn; try reflexivity;
    now apply lookup_insert_ne.
Qed.


Lemma WriteToFile_unfold pf key b fs :
  WriteToFile pf key b fs = WriteFile (path_of pf key) b write_perm fs.
Proof. unfold WriteToFile. now destruct (WriteFile _ _ _ _) as [[e |] f]. Qed.

End StoreFrame.





(** ** Directory listings *)
Section ListingFacts.
Import GoStrings Os Fileio.

Lemma In_insert_sorted e l d : In d (insert_sorted e l) <-> d = e \/ In d l.
Proof.
  induction l as [| x l IH]; cbn [insert_sorted].
  - cbn. intuition.
  - destruct (String.leb (Name e) (Name x)); cbn [In]; [intuition |].
    rewrite IH. intuition.
Qed.

Lemma In_sorted l d : In d (foldr insert_sorted [] l) <-> In d l.
Proof.
  induction l as [| x l IH]; cbn [foldr]; [reflexivity |].
  rewrite In_insert_sorted, IH. cbn. intuition.
Qed.

Lemma entry_in_spec dir path node d :
  entry_in dir (path, node) = Some d <->
  path = dir +:+ "/" +:+ Name d
  /\ Name d <> ""
  /\ Contains (Name d) "/" = false
  /\ IsDir d = node_is_dir node.
Proof.
  unfold entry_in. split.
  - destruct (String.prefix (dir +:+ "/") path) eqn:Hp; [| discriminate].
    apply prefix_inv in Hp. rewrite str_length_app in Hp. cbn [String.length] in Hp.
    set (name := slice_from path (String.length dir + 1)) in *.
    destruct (String.eqb_spec name "") as [| Hne]; [discriminate |].
    destruct (Contains name "/") eqn:Hc; [discriminate |].
    cbn [orb]. intros [= <-]. cbn [Name IsDir].
    rewrite <- str_app_assoc. repeat split; auto.
  - intros (-> & Hne & Hc & Hd).
    rewrite <- str_app_assoc, prefix_app.
    replace (String.length dir + 1)%nat with (String.length (dir +:+ "/"))
      by (rewrite str_length_app; reflexivity).
    rewrite slice_from_app, Hc.
    destruct (String.eqb_spec (Name d) "") as [| _]; [contradiction |].
    cbn [orb]. destruct d as [n b]. cbn [Name IsDir] in *. subst b.
    now destruct node.
Qed.

(** What [os.ReadDir] lists: the nodes directly in the directory. *)
Lemma ReadDir_In dir fs ds d :
  ReadDir dir fs = Ok ds ->
  (In d ds <->
   exists node,
     nodes fs !! (dir +:+ "/" +:+ Name d) = Some node
     /\ Name d <> "" /\ Contains (Name d) "/" = false
     /\ IsDir d = node_is_dir node).
Proof.
  unfold ReadDir. destruct (is_directory fs dir); [| discriminate].
  intros [= <-]. rewrite In_sorted, <- list_elem_of_In, list_elem_of_omap.
  split.
  - intros ([path node] & Hin & He). apply elem_of_map_to_list in Hin.
    apply entry_in_spec in He as (-> & ? & ? & ?). eauto.
  - intros (node & Hn & ? & ? & ?).
    exists (dir +:+ "/" +:+ Name d, node). split.
    + now apply elem_of_map_to_list.
    + apply entry_in_spec. auto.
Qed.

Lemma Contains_slash_app a b :
  Contains a "/" = false -> Contains b "/" = false ->
  Contains (a +:+ b) "/" = false.
Proof. rewrite !Contains_char, memb_app. now intros -> ->. Qed.

End ListingFacts.



(** ** Start-up *)
Section StartupFacts.
Import GoStrings Os Fileio.

Lemma Mkdir_spec name perm fs e fs' :
  Mkdir name perm fs = (e, fs') ->
  (e <> None /\ fs' = fs)
  \/ (e = None /\ nodes fs !! name = None
      /\ fs' = mkFS (<[name := Directory (Z.ldiff perm (umask fs))]> (nodes fs))
                    (umask fs)).
Proof.
  unfold Mkdir. destruct (nodes fs !! name) as [n |] eqn:E.
  - intros [= <- <-]. left. split; [discriminate | reflexivity].
  - destruct (match parent name with Some dir => is_directory fs dir | None => true end);
      intros [= <- <-].
    + right. auto.
    + left. split; [discriminate | reflexivity].
Qed.



Lemma ReadDir_is_directory dir fs :
  is_directory fs dir = true <-> exists ds, ReadDir dir fs = Ok ds.
Proof.
  unfold ReadDir. destruct (is_directory fs dir); split; eauto; try discriminate.
  intros [ds H]. discriminate.
Qed.

(** A directory that is missing, in a parent that exists, is created by
    [os.Mkdir] with the permission bits asked for, minus the umask. *)
Lemma Mkdir_creates dir name perm fs :
  is_directory fs dir = true ->
  Contains name "/" = false ->
  nodes fs !! (dir +:+ "/" +:+ name) = None ->
  nodes (snd (Mkdir (dir +:+ "/" +:+ name) perm fs)) !! (dir +:+ "/" +:+ name)
  = Some (Directory (Z.ldiff perm (umask fs))).
Proof.
  intros Hdir Hname Hnone. unfold Mkdir.
  rewrite Hnone, (parent_join _ _ Hname), Hdir. cbn. apply lookup_insert_eq.
Qed.

End StartupFacts.



(** X5. First run: in a home directory that has no store yet,
    [InitPasswordFolder] does not stop the process; it creates the store
    directory and its [.checker] subdirectory, both with mode [0750]
    minus the umask, and reports the store as not initialized. *)
Theorem InitPasswordFolder_first_run (home : string) (fs : Os.FileSystem) :
  Os.is_directory fs home = true ->
  Os.nodes fs !! (home +:+ "/.password-manager-store") = None ->
  Os.nodes fs !! ((home +:+ "/.password-manager-store") +:+ "/.checker") = None ->
  Os.nodes fs !! ((home +:+ "/.password-manager-store") +:+ "/.checker/init.gpg") = None ->
  exists pf fs',
    Fileio.InitPasswordFolder home fs = Fileio.Ready pf fs'
    /\ Fileio.InitCheck pf = false
    /\ Os.nodes fs' !! (home +:+ "/.password-manager-store")
       = Some (Os.Directory (Z.ldiff 488 (Os.umask fs)))
    /\ Os.nodes fs' !! ((home +:+ "/.password-manager-store") +:+ "/.checker")
       = Some (Os.Directory (Z.ldiff 488 (Os.umask fs))).
Proof.
  intros Hhome Hroot Hchk Hinit.
  unfold Fileio.InitPasswordFolder, Fileio.getDir.
  set (root := home +:+ "/.password-manager-store") in *.
  unfold Os.ReadDir_IsNotExist at 1. rewrite Hroot.
  pose proof (Mkdir_creates home ".password-manager-store" Fileio.dir_perm fs
                Hhome eq_refl Hroot) as Hmk.
  change (home +:+ "/" +:+ ".password-manager-store") with root in Hmk.
  destruct (Os.Mkdir root Fileio.dir_perm fs) as [e fs1] eqn:E1. cbn [snd] in *.
  assert (Hfs1 : fs1 = Os.mkFS (<[root := Os.Directory (Z.ldiff Fileio.dir_perm (Os.umask fs))]>
                                  (Os.nodes fs)) (Os.umask fs)).
  { apply Mkdir_spec in E1 as [[_ ->] | (_ & _ & ->)]; [| reflexivity].
    rewrite Hroot in Hmk. discriminate. }
  assert (Hdir1 : Os.is_directory fs1 root = true)
    by (unfold Os.is_directory; now rewrite Hmk).
  destruct (proj1 (ReadDir_is_directory root fs1) Hdir1) as [dirs ->].
  assert (Hne : root <> root +:+ "/.checker") by (apply str_app_longer; discriminate).
  assert (Hne' : root <> root +:+ "/.checker/init.gpg") by (apply str_app_longer; discriminate).
  assert (Hchk1 : Os.nodes fs1 !! (root +:+ "/.checker") = None)
    by (rewrite Hfs1; cbn [Os.nodes]; now rewrite lookup_insert_ne).
  replace (Os.ReadDir (root +:+ "/.checker") fs1) with (@Err (list Os.DirEntry) "no such file or directory")
    by (unfold Os.ReadDir, Os.is_directory; now rewrite Hchk1).
  unfold Os.ReadDir_IsNotExist. rewrite Hchk1.
  pose proof (Mkdir_creates root ".checker" Fileio.dir_perm fs1 Hdir1 eq_refl Hchk1) as Hmk2.
  change (root +:+ "/" +:+ ".checker") with (root +:+ "/.checker") in Hmk2.
  destruct (Os.Mkdir (root +:+ "/.checker") Fileio.dir_perm fs1) as [e2 fs2] eqn:E2.
  cbn [snd] in *.
  assert (Hfs2 : fs2 = Os.mkFS (<[root +:+ "/.checker" :=
                                   Os.Directory (Z.ldiff Fileio.dir_perm (Os.umask fs1))]>
                                  (Os.nodes fs1)) (Os.umask fs1)).
  { apply Mkdir_spec in E2 as [[_ ->] | (_ & _ & ->)]; [| reflexivity].
    rewrite Hchk1 in Hmk2. discriminate. }
  unfold Fileio.finish_getDir, Fileio.FileExists, Os.Stat_IsNotExist.
  assert (Hinit2 : Os.nodes fs2 !! (root +:+ "/.checker/init.gpg") = None).
  { rewrite Hfs2, Hfs1. cbn [Os.nodes].
    rewrite lookup_insert_ne, lookup_insert_ne; auto.
    intros Heq. apply str_app_inv_l in Heq. discriminate. }
  rewrite Hinit2. cbn [negb].
  eexists _, _. split; [reflexivity |]. split; [reflexivity |].
  split.
  - rewrite Hfs2, Hfs1. cbn [Os.nodes]. rewrite lookup_insert_ne by auto.
    now rewrite lookup_insert_eq.
  - rewrite Hmk2, Hfs1. reflexivity.
Qed.

Lemma InitPasswordFolder_first_run_witness :
  exists pf fs',
    Fileio.InitPasswordFolder "/home/u"
      (Os.mkFS (<["/home/u" := Os.Directory 493]> ∅) 18) = Fileio.Ready pf fs'
    /\ Fileio.InitCheck pf = false
    /\ Os.nodes fs' !! "/home/u/.password-manager-store" = Some (Os.Directory 488).
Proof.
  destruct (InitPasswordFolder_first_run "/home/u"
              (Os.mkFS (<["/home/u" := Os.Directory 493]> ∅) 18))
    as (pf & fs' & H1 & H2 & H3 & _); try (vm_compute; reflexivity).
  exists pf, fs'. auto.
Defined.

(** ** Sealing and opening *)
Section SealOpenFacts.
Import Encryption.
Context {X : Externals}.

(** A seal that succeeds leaves the record sealed under the active
    passphrase. *)
Lemma EncryptPasswordAndWriteToFile_sealed key data w w' :
  EncryptPasswordAndWriteToFile key data w = (None, w') ->
  sealed_under w' key (Fileio.Password (passwordFolder w)) data
  /\ passwordFolder w' = passwordFolder w
  /\ options w' = options w
  /\ stdout w' = stdout w
  /\ ticks w' = ticks w.
Proof.
  unfold EncryptPasswordAndWriteToFile.
  destruct (json_Marshal data) as [js |] eqn:Ejs; [| discriminate].
  destruct (pgp_Encrypt (seed w) _ js) as [c |] eqn:Ec; [| discriminate].
  cbn [next_seed passwordFolder fs].
  destruct (Fileio.WriteToFile (passwordFolder w) key c (fs w)) as [[e |] fs1] eqn:Ew;
    [discriminate |].
  intros [= <-]. split; [| auto].
  exists (seed w), js, c. repeat split; auto.
  change (Fileio.ReadFromFile (passwordFolder w) key fs1 = Ok c).
  rewrite WriteToFile_unfold in Ew. apply WriteFile_lookup in Ew as [perm Hp].
  rewrite ReadFromFile_ReadFile. unfold Os.ReadFile. now rewrite Hp.
Qed.


End SealOpenFacts.

(** X6. Seal/open round trip: after [EncryptPasswordAndWriteToFile key
    data] succeeded, [DecryptPasswordFromFile key] returns [data] with
    no error, and opening the record under any passphrase other than the
    active one fails (for a cipher and a codec that keep their
    contract). *)
Theorem Seal_Open_roundtrip
    {X : Encryption.Externals} {C : Encryption.Contract X}
    (key : string) (data : Encryption.Data) (w w' : World) :
  Encryption.EncryptPasswordAndWriteToFile key data w = (None, w') ->
  Encryption.DecryptPasswordFromFile key w' = (data, None)
  /\ forall p, p <> Fileio.Password (passwordFolder w) ->
               snd (Open key p w') <> None.
Proof.
  intros H. apply EncryptPasswordAndWriteToFile_sealed in H as (Hs & Hpf & _).
  split.
  - rewrite <- (Open_sealed _ _ _ _ Hs). unfold Open.
    apply DecryptPasswordFromFile_frame; cbn; now rewrite ?Hpf.
  - intros p Hp. now apply (Open_sealed_other _ _ p _ _ Hs).
Qed.

Lemma Seal_Open_roundtrip_witness :
  Encryption.DecryptPasswordFromFile "bank_20240101_120000"
    (snd (Encryption.EncryptPasswordAndWriteToFile "bank_20240101_120000"
            (Encryption.mkData "pw" "carol" "" "" (Sample.clock 1) (Sample.clock 1))
            Sample.stocked))
  = (Encryption.mkData "pw" "carol" "" "" (Sample.clock 1) (Sample.clock 1), None).
Proof.
  apply (Seal_Open_roundtrip (C := sample_contract) "bank_20240101_120000"
           (Encryption.mkData "pw" "carol" "" "" (Sample.clock 1) (Sample.clock 1))
           Sample.stocked).
  vm_compute. reflexivity.
Defined.



(** X8. [DecryptPasswordFromFile] on a key that has no file fails, and
    whenever it fails, for whatever reason (no file, a file that does
    not decrypt), the record it returns is the zero [Data]. *)
Theorem DecryptPasswordFromFile_missing
    {X : Encryption.Externals} (key : string) (w : World) :
  Os.nodes (fs w) !! Fileio.path_of (passwordFolder w) key = None ->
  (exists e,
     Encryption.DecryptPasswordFromFile key w = (Encryption.zeroData, Some e))
  /\ forall key' e,
       snd (Encryption.DecryptPasswordFromFile key' w) = Some e ->
       fst (Encryption.DecryptPasswordFromFile key' w) = Encryption.zeroData.
Proof.
  intros H. split.
  - unfold Encryption.DecryptPasswordFromFile.
    rewrite ReadFromFile_ReadFile. unfold Os.ReadFile. rewrite H. eauto.
  - intros key' e. unfold Encryption.DecryptPasswordFromFile.
    destruct (Fileio.ReadFromFile _ key' _) as [blob | e1]; [| reflexivity].
    destruct (Encryption.pgp_Decrypt _ blob) as [pt | e2]; [| reflexivity].
    destruct (Encryption.json_Unmarshal pt _). discriminate.
Qed.

Lemma DecryptPasswordFromFile_missing_witness :
  exists e,
    Encryption.DecryptPasswordFromFile "nosuch" Sample.stocked
    = (Encryption.zeroData, Some e).
Proof.
  destruct (DecryptPasswordFromFile_missing "nosuch" Sample.stocked) as [H _];
    [vm_compute; reflexivity | exact H].
Defined.

(** ** Generator: errors, alphabet, shuffle *)
Section GeneratorMore.
Import Utils.

(** What a run of [GeneratePassword] on valid options and a healthy
    source looks like: a permutation of the guaranteed characters
    followed by draws from the active charset. *)
Lemma GeneratePassword_shape src k opts :
  healthy src ->
  (8 <= Length opts <= 64)%Z ->
  (0 < classes_requested opts)%nat ->
  exists slice k',
    GeneratePassword opts src k = (Ok (string_of_list_ascii slice), k')
    /\ length slice = Z.to_nat (Length opts)
    /\ Forall (fun c => In c (bytes_of (active_charset opts))) slice
    /\ (IncludeUppercase opts = true ->
        exists c, In c slice /\ In c (bytes_of uppercaseChars))
    /\ (IncludeLowercase opts = true ->
        exists c, In c slice /\ In c (bytes_of lowercaseChars))
    /\ (IncludeNumbers opts = true ->
        exists c, In c slice /\ In c (bytes_of numberChars))
    /\ (IncludeSymbols opts = true ->
        exists c, In c slice /\ In c (bytes_of symbolChars)).
Proof.
  intros Hs [Hlo Hhi] Hcls.
  destruct opts as [len iu il inum isy ex].
  unfold classes_requested, active_charset, GeneratePassword in *;
    cbn [Length IncludeUppercase IncludeLowercase IncludeNumbers IncludeSymbols
         ExcludeAmbiguous] in *.
  replace ((len <? 8)%Z || (len >? 64)%Z) with false by (symmetry; apply orb_false_iff; lia).
  replace (negb iu && negb il && negb inum && negb isy) with false
    by (destruct iu, il, inum, isy; try reflexivity; cbn in Hcls; lia).
  destruct (class_facts ex uppercaseChars) as (Une & Usub & _); [cbn; auto |].
  destruct (class_facts ex lowercaseChars) as (Lne & Lsub & _); [cbn; auto |].
  destruct (class_facts ex numberChars) as (Nne & Nsub & _); [cbn; auto |].
  destruct symbol_facts as (Sne & _).
  cbv zeta in *.
  set (cu := if ex then _ else uppercaseChars) in *.
  set (cl := if ex then _ else lowercaseChars) in *.
  set (cn := if ex then _ else numberChars) in *.
  destruct (class_block_healthy src Hs iu cu "" "" k Une)
    as (cs1 & g1 & k1 & n1 & E1 & C1 & G1 & A1 & L1).
  rewrite (bind_eq _ _ _ _ _ _ E1).
  destruct (class_block_healthy src Hs il cl cs1 g1 k1 Lne)
    as (cs2 & g2 & k2 & n2 & E2 & C2 & G2 & A2 & L2).
  rewrite (bind_eq _ _ _ _ _ _ E2).
  destruct (class_block_healthy src Hs inum cn cs2 g2 k2 Nne)
    as (cs3 & g3 & k3 & n3 & E3 & C3 & G3 & A3 & L3).
  rewrite (bind_eq _ _ _ _ _ _ E3).
  destruct (class_block_healthy src Hs isy symbolChars cs3 g3 k3 Sne)
    as (cs4 & g4 & k4 & n4 & E4 & C4 & G4 & A4 & L4).
  rewrite (bind_eq _ _ _ _ _ _ E4).
  rewrite C3, C2, C1 in C4. rewrite G3, G2, G1 in G4.
  change (bytes_of "") with (@nil ascii) in C4, G4.
  rewrite app_nil_l in C4, G4.
  clear E1 E2 E3 E4 C1 C2 C3 G1 G2 G3.
  assert (Hact : bytes_of ((if iu then cu else "") +:+ (if il then cl else "")
                           +:+ (if inum then cn else "")
                           +:+ (if isy then symbolChars else ""))
                 = bytes_of cs4).
  { rewrite C4, !bytes_of_app, !app_assoc. now destruct iu, il, inum, isy. }
  rewrite Hact.
  set (n := Z.to_nat len).
  assert (Hg4 : String.length g4 = length (bytes_of g4)) by (symmetry; apply length_bytes_of).
  assert (Hglen : (length (bytes_of g4) <= 4)%nat).
  { rewrite G4, !length_app, L1, L2, L3, L4. destruct iu, il, inum, isy; cbn; lia. }
  assert (Hcs : cs4 <> "").
  { apply bytes_of_nonempty. rewrite C4.
    assert (Hu : bytes_of cu <> []) by (intros H0; apply Une; now destruct cu).
    assert (Hl : bytes_of cl <> []) by (intros H0; apply Lne; now destruct cl).
    assert (Hn : bytes_of cn <> []) by (intros H0; apply Nne; now destruct cn).
    destruct iu, il, inum, isy; try (cbn in Hcls; lia);
      destruct (bytes_of cu), (bytes_of cl), (bytes_of cn); try contradiction;
      discriminate. }
  change (list_ascii_of_string g4) with (bytes_of g4).
  pose proof (place_app (bytes_of g4) [] (replicate n zero)) as Hplace.
  cbn [length app] in Hplace. rewrite Hplace by (rewrite length_replicate; lia).
  clear Hplace. rewrite Hg4.
  destruct (fill_healthy src Hs cs4 Hcs (n - length (bytes_of g4)) (bytes_of g4)
              (drop (length (bytes_of g4)) (replicate n zero)) k4)
    as (new & k5 & Hfill & Hnew & Hall).
  { rewrite length_drop, length_replicate. reflexivity. }
  rewrite (bind_eq _ _ _ _ _ _ Hfill).
  destruct (shuffleBytes_healthy src Hs (bytes_of g4 ++ new) k5)
    as (slice & k6 & Hsh & Hperm).
  rewrite (bind_eq _ _ _ _ _ _ Hsh). unfold ret.
  exists slice, k6. split; [reflexivity |].
  assert (Hin : forall c, In c slice <-> In c (bytes_of g4 ++ new)).
  { intros c. split; apply Permutation_in; [| symmetry]; exact Hperm. }
  assert (Hone : forall (b : bool) (ni : list ascii) chars class,
             length ni = (if b then 1 else 0)%nat ->
             Forall (fun c => In c (bytes_of chars)) ni ->
             subsetb chars class = true ->
             (forall c, In c ni -> In c (bytes_of g4)) ->
             b = true -> exists c, In c slice /\ In c (bytes_of class)).
  { intros b ni chars class Hl Hf Hsub Hg ->.
    destruct ni as [| c [| ? ?]]; try discriminate Hl.
    exists c. split.
    - apply Hin, in_or_app. left. apply Hg. now left.
    - apply (subsetb_In _ _ Hsub). now inversion Hf. }
  split; [| split; [| split; [| split; [| split]]]].
  - rewrite (Permutation_length Hperm), length_app, Hnew. lia.
  - apply List.Forall_forall. intros c Hc. apply Hin, in_app_iff in Hc as [Hc | Hc].
    + rewrite G4, !in_app_iff in Hc. rewrite List.Forall_forall in A1, A2, A3, A4.
      rewrite C4, !in_app_iff.
      destruct Hc as [[[Hc | Hc] | Hc] | Hc].
      * destruct iu; [| now destruct n1]. left; left; left. now apply A1.
      * destruct il; [| now destruct n2]. left; left; right. now apply A2.
      * destruct inum; [| now destruct n3]. left; right. now apply A3.
      * destruct isy; [| now destruct n4]. right. now apply A4.
    + rewrite List.Forall_forall in Hall. now apply Hall.
  - apply (Hone iu n1 cu); auto. intros c Hc. rewrite G4, !in_app_iff. tauto.
  - apply (Hone il n2 cl); auto. intros c Hc. rewrite G4, !in_app_iff. tauto.
  - apply (Hone inum n3 cn); auto. intros c Hc. rewrite G4, !in_app_iff. tauto.
  - apply (Hone isy n4 symbolChars); auto; try solve [vm_compute; reflexivity].
    intros c Hc. rewrite G4, !in_app_iff. tauto.
Qed.

End GeneratorMore.

(** X9. Option errors: a length below 8 or above 64, or no class
    selected, makes [GeneratePassword] return an error before it draws
    anything from the entropy source. *)
Theorem GeneratePassword_rejects_options
    (src : Utils.Entropy) (k : nat) (opts : Utils.PasswordOptions) :
  (Utils.Length opts < 8)%Z \/ (64 < Utils.Length opts)%Z
  \/ classes_requested opts = 0%nat ->
  exists msg, Utils.GeneratePassword opts src k = (Err msg, k).
Proof.
  intros H. unfold Utils.GeneratePassword.
  destruct ((Utils.Length opts <? 8)%Z || (Utils.Length opts >? 64)%Z) eqn:E;
    [eexists; reflexivity |].
  apply orb_false_iff in E as [E1 E2].
  destruct H as [H | [H | H]]; [lia | lia |].
  unfold classes_requested in H.
  destruct (Utils.IncludeUppercase opts), (Utils.IncludeLowercase opts),
    (Utils.IncludeNumbers opts), (Utils.IncludeSymbols opts);
    try (cbn in H; lia).
  eexists. reflexivity.
Qed.

Lemma GeneratePassword_rejects_options_witness :
  exists msg,
    Utils.GeneratePassword
      (Utils.mkPasswordOptions 7 true true true true false) Sample.entropy 0
    = (Err msg, 0%nat).
Proof.
  apply (GeneratePassword_rejects_options Sample.entropy 0
           (Utils.mkPasswordOptions 7 true true true true false)).
  left. cbn. lia.
Defined.

(** X10. With an entropy source that does not fail and valid options,
    every character of the generated password belongs to the active
    charset: nothing outside the requested classes is ever produced. *)
Theorem GeneratePassword_alphabet
    (src : Utils.Entropy) (k : nat) (opts : Utils.PasswordOptions) :
  healthy src ->
  (8 <= Utils.Length opts <= 64)%Z ->
  (0 < classes_requested opts)%nat ->
  exists password k',
    Utils.GeneratePassword opts src k = (Ok password, k')
    /\ forall c, In c (bytes_of password) -> In c (bytes_of (active_charset opts)).
Proof.
  intros Hs Hlen Hcls.
  destruct (GeneratePassword_shape src k opts Hs Hlen Hcls)
    as (slice & k' & H & _ & Hall & _).
  exists (string_of_list_ascii slice), k'. split; [exact H |].
  intros c. rewrite bytes_of_string_of_list.
  rewrite List.Forall_forall in Hall. apply Hall.
Qed.

Lemma GeneratePassword_alphabet_witness :
  exists password k',
    Utils.GeneratePassword
      (Utils.mkPasswordOptions 8 false false true false true) Sample.entropy 0
    = (Ok password, k')
    /\ forall c, In c (bytes_of password) -> In c (bytes_of "23456789").
Proof.
  apply (GeneratePassword_alphabet Sample.entropy 0
           (Utils.mkPasswordOptions 8 false false true false true)).
  - intros k. discriminate.
  - cbn. lia.
  - cbn. lia.
Defined.

Section ShuffleFacts.
Import Utils.

Lemma swap_Permutation_any slice i j : swap slice i j ≡ₚ slice.
Proof.
  unfold swap.
  destruct (slice !! i) as [x |] eqn:Hx; [| reflexivity].
  destruct (slice !! j) as [y |] eqn:Hy; [| reflexivity].
  now apply Permutation_insert_swap.
Qed.

Lemma shuffle_from_Permutation src : forall i slice k,
  fst (fst (shuffle_from i slice src k)) ≡ₚ slice.
Proof.
  induction i as [| i IH]; intros slice k; cbn [shuffle_from].
  - reflexivity.
  - unfold bind, rand_Int. destruct (src k) as [v |]; [| reflexivity].
    rewrite IH. apply swap_Permutation_any.
Qed.

Lemma replace_char_filter a s :
  bytes_of (GoStrings.ReplaceAll s (String a "") "")
  = List.filter (fun c => negb (Ascii.eqb c a)) (bytes_of s).
Proof.
  unfold GoStrings.ReplaceAll.
  induction s as [| c s IH]; [reflexivity |].
  cbn [GoStrings.replace_from String.prefix String.length Nat.sub].
  unfold bytes_of in *. cbn [list_ascii_of_string List.filter].
  destruct (ascii_dec a c) as [<- | Hne].
  - rewrite Ascii.eqb_refl. cbn [negb].
    replace (String.prefix "" s) with true by (now destruct s).
    rewrite str_app_nil_l. exact IH.
  - replace (Ascii.eqb c a) with false
      by (symmetry; apply Ascii.eqb_neq; congruence).
    cbn [negb list_ascii_of_string]. now rewrite IH.
Qed.

Lemma remove_chars_filter amb : forall s,
  bytes_of (fold_left (fun result a => GoStrings.ReplaceAll result (String a "") "")
              amb s)
  = List.filter (fun c => negb (existsb (Ascii.eqb c) amb)) (bytes_of s).
Proof.
  induction amb as [| a amb IH]; intros s; cbn [fold_left existsb].
  - induction (bytes_of s) as [| c l IHl]; cbn; [reflexivity | now f_equal].
  - rewrite IH, replace_char_filter.
    induction (bytes_of s) as [| c l IHl]; cbn [List.filter]; [reflexivity |].
    destruct (Ascii.eqb c a); cbn [negb orb List.filter]; [exact IHl |].
    destruct (existsb (Ascii.eqb c) amb); cbn [negb]; now rewrite IHl.
Qed.

End ShuffleFacts.

(** X11. Whatever the entropy source answers, and whether it fails on
    the way or not, the slice [shuffleBytes] leaves is a permutation of
    the one it was given: no byte is lost, added or changed. *)
Theorem shuffleBytes_permutes
    (src : Utils.Entropy) (k : nat) (slice : list ascii) :
  fst (fst (Utils.shuffleBytes slice src k)) ≡ₚ slice.
Proof. unfold Utils.shuffleBytes. apply shuffle_from_Permutation. Qed.

(** X12. For every charset, [removeAmbiguousChars] keeps, in order,
    exactly the characters that are not among ["0O1lI"]. *)
Theorem removeAmbiguousChars_filter (charset : string) :
  bytes_of (Utils.removeAmbiguousChars charset)
  = List.filter (fun c => negb (memb c Utils.ambiguousChars)) (bytes_of charset).
Proof. unfold Utils.removeAmbiguousChars. apply remove_chars_filter. Qed.

(** ** Strength *)
Section StrengthFacts.
Import GoStrings Utils.

Lemma any_byte_In class s :
  any_byte class s = true <-> exists c, In c (bytes_of s) /\ class c = true.
Proof.
  induction s as [| x s IH]; cbn [any_byte].
  - split; [discriminate | intros (c & [] & _)].
  - rewrite orb_true_iff, IH. unfold bytes_of. cbn [list_ascii_of_string In]. split.
    + intros [H | (c & Hc & Hp)]; eauto.
    + intros (c & [<- | Hc] & Hp); eauto.
Qed.

Lemma any_byte_class class chars s :
  forallb class (bytes_of chars) = true ->
  (exists c, In c (bytes_of s) /\ In c (bytes_of chars)) ->
  any_byte class s = true.
Proof.
  rewrite forallb_forall. intros Hall (c & Hs & Hc).
  apply any_byte_In. eauto.
Qed.

Lemma some_class_of_byte c :
  is_lower c || is_upper c || is_digit c || negb (is_alnum c) = true.
Proof. unfold is_alnum. now destruct (is_lower c), (is_upper c), (is_digit c). Qed.

End StrengthFacts.

(** X13. [EvaluatePasswordStrength] never indexes its table out of
    range: for every password the score is between 0 and 4 and the
    label is the entry of the table at the score; the score is 0, "Very
    Weak", for the empty password and for no other. *)
Theorem EvaluatePasswordStrength_range (password : string) :
  (0 <= fst (Utils.EvaluatePasswordStrength password) <= 4)%Z
  /\ snd (Utils.EvaluatePasswordStrength password)
     = nth_error ["Very Weak"; "Weak"; "Fair"; "Good"; "Strong"]
         (Z.to_nat (fst (Utils.EvaluatePasswordStrength password)))
  /\ snd (Utils.EvaluatePasswordStrength password) <> None
  /\ (fst (Utils.EvaluatePasswordStrength password) = 0%Z <-> password = "").
Proof.
  unfold Utils.EvaluatePasswordStrength.
  destruct password as [| c t].
  - cbn. repeat split; auto; try lia; discriminate.
  - pose proof (some_class_of_byte c) as Hc.
    cbn [Utils.any_byte].
    destruct (8 <=? GoStrings.len (String c t))%Z,
      (12 <=? GoStrings.len (String c t))%Z,
      (GoStrings.is_lower c), (GoStrings.is_upper c), (GoStrings.is_digit c),
      (negb (Utils.is_alnum c)) eqn:E6,
      (Utils.any_byte GoStrings.is_lower t), (Utils.any_byte GoStrings.is_upper t),
      (Utils.any_byte GoStrings.is_digit t),
      (Utils.any_byte (fun c => negb (Utils.is_alnum c)) t);
      try discriminate Hc; cbv;
      (split; [split; discriminate |]); (split; [reflexivity |]);
      (split; [discriminate |]); split; intros H; discriminate H.
Qed.

(** X14. Generator and meter agree: with an entropy source that does
    not fail, a password generated with a valid length and at least
    three requested classes is rated 4, "Strong". *)
Theorem generated_password_is_strong
    (src : Utils.Entropy) (k : nat) (opts : Utils.PasswordOptions) :
  healthy src ->
  (8 <= Utils.Length opts <= 64)%Z ->
  (3 <= classes_requested opts)%nat ->
  exists password k',
    Utils.GeneratePassword opts src k = (Ok password, k')
    /\ Utils.EvaluatePasswordStrength password = (4%Z, Some "Strong").
Proof.
  intros Hs Hlen Hcls.
  destruct (GeneratePassword_shape src k opts Hs Hlen) as
    (slice & k' & H & Hl & _ & Hu & Hlw & Hn & Hsy); [lia |].
  exists (string_of_list_ascii slice), k'. split; [exact H |].
  set (pw := string_of_list_ascii slice).
  assert (Hlen8 : (8 <=? GoStrings.len pw)%Z = true).
  { apply Z.leb_le. unfold GoStrings.len, pw.
    rewrite <- length_bytes_of, bytes_of_string_of_list, Hl. lia. }
  assert (HU : Utils.IncludeUppercase opts = true ->
               Utils.any_byte GoStrings.is_upper pw = true).
  { intros Hi. apply (any_byte_class _ Utils.uppercaseChars); [reflexivity |].
    unfold pw. rewrite bytes_of_string_of_list. auto. }
  assert (HL : Utils.IncludeLowercase opts = true ->
               Utils.any_byte GoStrings.is_lower pw = true).
  { intros Hi. apply (any_byte_class _ Utils.lowercaseChars); [reflexivity |].
    unfold pw. rewrite bytes_of_string_of_list. auto. }
  assert (HN : Utils.IncludeNumbers opts = true ->
               Utils.any_byte GoStrings.is_digit pw = true).
  { intros Hi. apply (any_byte_class _ Utils.numberChars); [reflexivity |].
    unfold pw. rewrite bytes_of_string_of_list. auto. }
  assert (HS : Utils.IncludeSymbols opts = true ->
               Utils.any_byte (fun c => negb (Utils.is_alnum c)) pw = true).
  { intros Hi. apply (any_byte_class _ Utils.symbolChars); [reflexivity |].
    unfold pw. rewrite bytes_of_string_of_list. auto. }
  unfold Utils.EvaluatePasswordStrength. rewrite Hlen8.
  unfold classes_requested in Hcls.
  destruct (Utils.IncludeUppercase opts), (Utils.IncludeLowercase opts),
    (Utils.IncludeNumbers opts), (Utils.IncludeSymbols opts);
    try (cbn in Hcls; lia);
    try rewrite (HU eq_refl); try rewrite (HL eq_refl);
    try rewrite (HN eq_refl); try rewrite (HS eq_refl);
    destruct (12 <=? GoStrings.len pw)%Z,
      (Utils.any_byte GoStrings.is_lower pw), (Utils.any_byte GoStrings.is_upper pw),
      (Utils.any_byte GoStrings.is_digit pw),
      (Utils.any_byte (fun c => negb (Utils.is_alnum c)) pw);
    reflexivity.
Qed.

Lemma generated_password_is_strong_witness :
  exists password k',
    Utils.GeneratePassword Utils.DefaultPasswordOptions Sample.entropy 0
    = (Ok password, k')
    /\ Utils.EvaluatePasswordStrength password = (4%Z, Some "Strong").
Proof.
  apply (generated_password_is_strong Sample.entropy 0 Utils.DefaultPasswordOptions).
  - intros k. discriminate.
  - cbn. lia.
  - cbn. lia.
Defined.

(** ** Truncation, keys, sanitizing *)
Section TextFacts.
Import GoStrings Utils.

Lemma length_substring_0 s : forall n,
  String.length (substring 0 n s) = Nat.min n (String.length s).
Proof.
  induction s as [| c s IH]; intros [| n]; cbn [substring String.length Nat.min];
    try reflexivity.
  now rewrite IH.
Qed.

Lemma key_char_digit n : key_char (GoTime.digit n) = true.
Proof.
  unfold key_char, is_digit, GoTime.digit.
  pose proof (Nat.mod_upper_bound n 10).
  rewrite nat_ascii_embedding by lia.
  replace (48 <=? 48 + n mod 10)%nat with true by (symmetry; apply Nat.leb_le; lia).
  replace (48 + n mod 10 <=? 57)%nat with true by (symmetry; apply Nat.leb_le; lia).
  cbn [andb]. now rewrite orb_true_r.
Qed.

Lemma key_char_lower c : in_name_class c = true -> key_char (lower_byte c) = true.
Proof. destruct c as [[] [] [] [] [] [] [] []]; vm_compute; congruence. Qed.

Lemma keyok_app a b :
  Forall (fun c => key_char c = true) (bytes_of a) ->
  Forall (fun c => key_char c = true) (bytes_of b) ->
  Forall (fun c => key_char c = true) (bytes_of (a +:+ b)).
Proof. rewrite bytes_of_app. apply Forall_app_2. Qed.

Lemma keyok_digits fuel : forall n acc,
  Forall (fun c => key_char c = true) (bytes_of acc) ->
  Forall (fun c => key_char c = true) (bytes_of (GoTime.digits fuel n acc)).
Proof.
  induction fuel as [| fuel IH]; intros n acc Hacc; cbn [GoTime.digits]; [exact Hacc |].
  assert (Forall (fun c => key_char c = true) (bytes_of (String (GoTime.digit n) acc)))
    by (constructor; [apply key_char_digit | exact Hacc]).
  destruct (n / 10 =? 0)%nat; [assumption | now apply IH].
Qed.

Lemma keyok_appendInt n width :
  Forall (fun c => key_char c = true) (bytes_of (GoTime.appendInt n width)).
Proof.
  unfold GoTime.appendInt, GoTime.itoa. apply keyok_app.
  - induction (width - _)%nat as [| k IH]; [constructor |].
    constructor; [reflexivity | exact IH].
  - apply keyok_digits. constructor.
Qed.

Lemma keyok_Format t :
  Forall (fun c => key_char c = true) (bytes_of (GoTime.Format_20060102_150405 t)).
Proof.
  unfold GoTime.Format_20060102_150405.
  repeat (apply keyok_app; [apply keyok_appendInt |]).
  constructor; [reflexivity |].
  repeat (apply keyok_app; [apply keyok_appendInt |]).
  apply keyok_appendInt.
Qed.

Lemma keyok_clean s : forall skip,
  Forall (fun c => key_char c = true) (bytes_of (ToLower (clean_from skip s))).
Proof.
  induction s as [| c s IH]; intros skip; cbn [clean_from]; [constructor |].
  destruct skip as [| skip]; [| apply IH].
  destruct (in_name_class c) eqn:E; cbn [ToLower];
    (constructor; [| apply IH]); [now apply key_char_lower | reflexivity].
Qed.

Lemma keyok_substring s : forall n,
  Forall (fun c => key_char c = true) (bytes_of s) ->
  Forall (fun c => key_char c = true) (bytes_of (substring 0 n s)).
Proof.
  induction s as [| c s IH]; intros [| n] Hs; cbn [substring]; try constructor.
  - now inversion Hs.
  - inversion Hs; subst. now apply IH.
Qed.

Lemma GenerateFilename_keyok t label :
  Forall (fun c => key_char c = true) (bytes_of (GenerateFilename t label)).
Proof.
  unfold GenerateFilename. apply keyok_app.
  - destruct (20 <? _)%nat; [apply keyok_substring |]; apply keyok_clean.
  - constructor; [reflexivity | apply keyok_Format].
Qed.

Lemma GenerateFilename_no_slash t label :
  Contains (GenerateFilename t label) "/" = false.
Proof.
  rewrite Contains_char. destruct (memb "/" _) eqn:E; [| reflexivity].
  apply memb_In in E. pose proof (GenerateFilename_keyok t label) as Hok.
  rewrite List.Forall_forall in Hok. apply Hok in E. discriminate E.
Qed.

Lemma In_substring s : forall n c,
  In c (bytes_of (substring 0 n s)) -> In c (bytes_of s).
Proof.
  induction s as [| x s IH]; intros [| n] c; cbn [substring]; try easy.
  unfold bytes_of in *. cbn [list_ascii_of_string In].
  intros [-> | H]; [now left | right; eauto].
Qed.

(** The bytes of a rune of a string are bytes of the string. *)
Lemma In_split_runes s : forall skip r c,
  In r (GoUnicode.split_runes skip s) -> In c (bytes_of r) -> In c (bytes_of s).
Proof.
  induction s as [| x s IH]; intros skip r c; cbn [GoUnicode.split_runes]; [easy |].
  destruct skip as [| skip].
  - intros [<- | Hr] Hc.
    + eapply In_substring; eauto.
    + unfold bytes_of in *. cbn [list_ascii_of_string In]. right. eapply IH; eauto.
  - intros Hr Hc. unfold bytes_of in *. cbn [list_ascii_of_string In].
    right. eapply IH; eauto.
Qed.

Lemma In_drop_spaces runes r : In r (GoUnicode.drop_spaces runes) -> In r runes.
Proof.
  induction runes as [| x runes IH]; cbn [GoUnicode.drop_spaces]; [easy |].
  destruct (GoUnicode.IsSpace x); [intros H; right; now apply IH | easy].
Qed.

Lemma In_join runes c :
  In c (bytes_of (GoUnicode.join runes)) ->
  exists r, In r runes /\ In c (bytes_of r).
Proof.
  induction runes as [| x runes IH]; cbn [GoUnicode.join]; [easy |].
  rewrite bytes_of_app, in_app_iff. intros [H | H].
  - exists x. split; [now left | exact H].
  - destruct (IH H) as (r & Hr & Hc). exists r. split; [now right | exact Hc].
Qed.

(** [TrimSpace] only removes bytes. *)
Lemma In_TrimSpace s c :
  In c (bytes_of (GoUnicode.TrimSpace s)) -> In c (bytes_of s).
Proof.
  unfold GoUnicode.TrimSpace. intros H.
  apply In_join in H as (r & Hr & Hc).
  apply in_rev, In_drop_spaces, in_rev, In_drop_spaces in Hr.
  eapply In_split_runes; eauto.
Qed.

Lemma strip_controls_clean s c :
  In c (bytes_of (strip_controls s)) -> is_control c = false /\ In c (bytes_of s).
Proof.
  induction s as [| x s IH]; cbn [strip_controls]; [easy |].
  unfold bytes_of in *. destruct (is_control x) eqn:E;
    cbn [list_ascii_of_string In].
  - intros H. destruct (IH H). auto.
  - intros [<- | H]; [auto |]. destruct (IH H). auto.
Qed.

End TextFacts.

(** X15. [TruncateString] with a non-negative [maxLen] returns a string
    of [min(len(s), maxLen)] bytes: [s] itself when it fits, and, when
    it does not and [maxLen] is above 3, the first [maxLen-3] bytes
    followed by ["..."].  With a negative [maxLen] the slice expression
    is out of range: the function panics. *)
Theorem TruncateString_bounds (s : string) (maxLen : Z) :
  ((0 <= maxLen)%Z ->
   exists r,
     Utils.TruncateString s maxLen = Some r
     /\ GoStrings.len r = Z.min (GoStrings.len s) maxLen
     /\ ((GoStrings.len s <= maxLen)%Z -> r = s)
     /\ ((3 < maxLen < GoStrings.len s)%Z ->
         r = GoStrings.slice_to s (Z.to_nat (maxLen - 3)) +:+ "..."))
  /\ ((maxLen < 0)%Z -> Utils.TruncateString s maxLen = None).
Proof.
  unfold Utils.TruncateString, GoStrings.len, GoStrings.slice_to. split.
  - intros Hpos.
    destruct (Z.leb_spec (Z.of_nat (String.length s)) maxLen) as [Hfit | Hlong].
    + exists s. repeat split; auto; lia.
    + destruct (Z.leb_spec maxLen 3) as [Hsmall | Hbig].
      * replace (maxLen <? 0)%Z with false by (symmetry; apply Z.ltb_ge; lia).
        eexists. split; [reflexivity |].
        rewrite length_substring_0. repeat split; lia.
      * eexists. split; [reflexivity |].
        rewrite str_length_app, length_substring_0. cbn [String.length].
        repeat split; auto; lia.
  - intros Hneg.
    replace (Z.of_nat (String.length s) <=? maxLen)%Z with false
      by (symmetry; apply Z.leb_gt; lia).
    replace (maxLen <=? 3)%Z with true by (symmetry; apply Z.leb_le; lia).
    now replace (maxLen <? 0)%Z with true by (symmetry; apply Z.ltb_lt; lia).
Qed.

(** X16. A key made by [GenerateFilename] is a cleaned name of at most
    20 bytes, ["_"], and the timestamp; all its bytes are lower-case
    letters, digits, ["-"] or ["_"], so it holds no ["/"] and no ["."],
    whatever the label. *)
Theorem GenerateFilename_shape (t : Time) (label : string) :
  exists name,
    Utils.GenerateFilename t label
    = name +:+ "_" +:+ GoTime.Format_20060102_150405 t
    /\ (String.length name <= 20)%nat
    /\ Forall (fun c => key_char c = true)
         (bytes_of (Utils.GenerateFilename t label))
    /\ GoStrings.Contains (Utils.GenerateFilename t label) "/" = false.
Proof.
  pose proof (GenerateFilename_keyok t label) as Hok.
  pose proof (GenerateFilename_no_slash t label) as Hslash.
  unfold Utils.GenerateFilename in *.
  eexists. split; [reflexivity |]. split; [| split; [exact Hok | exact Hslash]].
  destruct (20 <? _)%nat eqn:E.
  - unfold GoStrings.slice_to. rewrite length_substring_0. lia.
  - apply Nat.ltb_ge in E. exact E.
Qed.

(** X17. [SanitizeInput] returns only bytes of its input, and none of
    them is a control character ([0x00] to [0x1F], [0x7F]). *)
Theorem SanitizeInput_no_control (input : string) (c : ascii) :
  In c (bytes_of (Utils.SanitizeInput input)) ->
  Utils.is_control c = false /\ In c (bytes_of input).
Proof.
  unfold Utils.SanitizeInput. intros H.
  apply In_TrimSpace in H. now apply strip_controls_clean.
Qed.

Lemma SanitizeInput_no_control_witness :
  Utils.is_control "b" = false /\ In "b"%char (bytes_of "  a b  ").
Proof.
  apply (SanitizeInput_no_control "  a b  " "b").
  vm_compute. auto.
Defined.

(** ** Set-up of a new store *)
Section SetupFacts.
Import Encryption Menus.
Context {X : Externals}.

Lemma sealed_under_frame w1 w2 key p record :
  fs w1 = fs w2 ->
  Fileio.FolderLocation (passwordFolder w1) = Fileio.FolderLocation (passwordFolder w2) ->
  sealed_under w1 key p record -> sealed_under w2 key p record.
Proof.
  intros Hfs Hloc (sd & js & blob & Hjs & Henc & Hrd).
  exists sd, js, blob. repeat split; auto.
  rewrite ReadFromFile_ReadFile in *. unfold Fileio.path_of in *.
  now rewrite <- Hfs, <- Hloc.
Qed.

(** The first loop leaves with a master password of at least 8 bytes in
    the folder, or returns; it does not touch the file system. *)
Lemma master_password_loop_inv script : forall w,
  match master_password_loop script w with
  | Break _ _ w1 =>
      (8 <= GoStrings.len (Fileio.Password (passwordFolder w1)))%Z
      /\ fs w1 = fs w
      /\ Fileio.FolderLocation (passwordFolder w1)
         = Fileio.FolderLocation (passwordFolder w)
  | Returned _ w1 => fs w1 = fs w
  | Waiting => True
  end.
Proof.
  induction script as [| ev script IH]; intros w; cbn [master_password_loop]; [exact I |].
  destruct ev as [value | | err]; cbn [run_password_input].
  - destruct (Types.Quit (options (set_Password value w))); [reflexivity |].
    unfold validatePassword.
    cbn [set_Password set_passwordFolder passwordFolder Fileio.Password].
    destruct (Z.ltb_spec (GoStrings.len value) 8).
    + specialize (IH (set_Password "" (set_ErrorMessage
          "Master password must be at least 8 characters long" (set_Password value w)))).
      destruct (master_password_loop script _); auto.
    + repeat split; auto.
  - destruct (Types.Quit (options (set_Quit true w))); [reflexivity |].
    unfold validatePassword.
    cbn [set_Quit passwordFolder].
    destruct (Z.ltb_spec (GoStrings.len (Fileio.Password (passwordFolder w))) 8).
    + specialize (IH (set_Password "" (set_ErrorMessage
          "Master password must be at least 8 characters long" (set_Quit true w)))).
      destruct (master_password_loop script _); auto.
    + repeat split; auto.
  - reflexivity.
Qed.

(** The second loop leaves with a phrase of at least 12 bytes, or
    returns; it touches neither the file system nor the folder. *)
Lemma phrase_loop_inv script : forall phrase w,
  match phrase_loop script phrase w with
  | Break phrase' _ w1 =>
      (12 <= GoStrings.len phrase')%Z
      /\ fs w1 = fs w /\ passwordFolder w1 = passwordFolder w
  | Returned _ w1 => fs w1 = fs w
  | Waiting => True
  end.
Proof.
  induction script as [| ev script IH]; intros phrase w; cbn [phrase_loop]; [exact I |].
  destruct ev as [value | | err]; cbn [run_phrase_input].
  - destruct (Types.Quit (options (set_ErrorMessage "" w))); [reflexivity |].
    unfold validatePhrase. destruct (Z.ltb_spec (GoStrings.len value) 12).
    + specialize (IH "" (set_ErrorMessage
          "Phrase must be at least 12 characters long" (set_ErrorMessage "" w))).
      destruct (phrase_loop script _ _); auto.
    + repeat split; auto.
  - destruct (Types.Quit (options (set_Quit true (set_ErrorMessage "" w))));
      [reflexivity |].
    unfold validatePhrase. destruct (Z.ltb_spec (GoStrings.len phrase) 12).
    + specialize (IH "" (set_ErrorMessage
          "Phrase must be at least 12 characters long"
          (set_Quit true (set_ErrorMessage "" w)))).
      destruct (phrase_loop script _ _); auto.
    + repeat split; auto.
  - reflexivity.
Qed.

End SetupFacts.

(** X18. Whatever the user answers, when the set-up dialogue of [Login]
    completes, the validation record is sealed under a master password
    of at least 8 bytes, its secret is a phrase of at least 12 bytes,
    the store is marked initialized and the passphrase typed during
    set-up has been cleared from the session. *)
Theorem setup_seals_valid_secrets
    {X : Encryption.Externals} (script rest : list Menus.Prompt) (w w' : World) :
  Menus.setup script w = Menus.Break tt rest w' ->
  exists master phrase created updated,
    (8 <= GoStrings.len master)%Z
    /\ (12 <= GoStrings.len phrase)%Z
    /\ sealed_under w' Menus.validationKey master
         (Encryption.mkData phrase "" "" "" created updated)
    /\ Fileio.InitCheck (passwordFolder w') = true
    /\ Fileio.Password (passwordFolder w') = "".
Proof.
  unfold Menus.setup.
  pose proof (master_password_loop_inv script w) as H1.
  destruct (Menus.master_password_loop script w) as [r w1 | [] s1 w1 |]; try discriminate.
  destruct H1 as (Hm & _ & _).
  pose proof (phrase_loop_inv s1 "" w1) as H2.
  destruct (Menus.phrase_loop s1 "" w1) as [r w2 | phrase s2 w2 |]; try discriminate.
  destruct H2 as (Hp & _ & Hpf).
  set (w3 := next_tick (next_tick (set_InitCheck false w2))).
  set (data := Encryption.mkData _ _ _ _ _ _).
  change (next_tick (next_tick (set_InitCheck false w2))) with w3.
  destruct (Encryption.EncryptPasswordAndWriteToFile Menus.validationKey data w3)
    as [[e |] w4] eqn:E; [discriminate |].
  intros [= _ <-].
  apply EncryptPasswordAndWriteToFile_sealed in E as (Hs & _).
  exists (Fileio.Password (passwordFolder w1)), phrase. eexists _, _.
  split; [exact Hm |]. split; [exact Hp |].
  split; [| split; reflexivity].
  change (Fileio.Password (passwordFolder w3))
    with (Fileio.Password (passwordFolder w2)) in Hs.
  rewrite Hpf in Hs. eapply sealed_under_frame; [| | exact Hs]; reflexivity.
Qed.

Lemma setup_seals_valid_secrets_witness :
  exists master phrase created updated,
    (8 <= GoStrings.len master)%Z
    /\ (12 <= GoStrings.len phrase)%Z
    /\ sealed_under Sample.bootstrapped Menus.validationKey master
         (Encryption.mkData phrase "" "" "" created updated).
Proof.
  destruct (setup_seals_valid_secrets
              [Menus.Enter "short"; Menus.Enter "correcthorse";
               Menus.Enter "the quick brown fox jumps"] [] Sample.fresh
              Sample.bootstrapped)
    as (m & p & c & u & H1 & H2 & H3 & _).
  - vm_compute. reflexivity.
  - exists m, p, c, u. auto.
Defined.



Section BootstrapFacts.
Import Encryption Menus.
Context {X : Externals} {C : Contract X}.

Lemma validation_path pf :
  Fileio.path_of pf validationKey
  = (Fileio.FolderLocation pf +:+ "/.checker") +:+ "/" +:+ "init.gpg".
Proof. unfold Fileio.path_of, validationKey. now rewrite str_app_assoc. Qed.

(** Sealing a record that does not exist yet, in a directory that does,
    under a non-empty passphrase, succeeds. *)
Lemma EncryptPasswordAndWriteToFile_new dir name key data w :
  Fileio.path_of (passwordFolder w) key = dir +:+ "/" +:+ name ->
  GoStrings.Contains name "/" = false ->
  Os.is_directory (fs w) dir = true ->
  Os.nodes (fs w) !! Fileio.path_of (passwordFolder w) key = None ->
  Fileio.Password (passwordFolder w) <> "" ->
  exists w', EncryptPasswordAndWriteToFile key data w = (None, w').
Proof.
  intros Hpath Hname Hdir Hnone Hpw. unfold EncryptPasswordAndWriteToFile.
  destruct (json_total data) as [js ->].
  destruct (pgp_total (seed w) _ js Hpw) as [c ->].
  cbn [next_seed passwordFolder fs].
  rewrite WriteToFile_unfold. unfold Os.WriteFile.
  rewrite Hnone, Hpath, (parent_join _ _ Hname), Hdir. eauto.
Qed.

End BootstrapFacts.

(** X20. First-run scenario: on a store that is not initialized (its
    [.checker] directory exists, the validation record does not), a user
    who gives a master password of at least 8 bytes and a phrase of at
    least 12 bytes and then logs in is accepted exactly when the
    password of the login is the master password just chosen; either
    way the store is now initialized and the validation record is
    sealed under the master password. *)
Theorem bootstrap_then_login
    {X : Encryption.Externals} {C : Encryption.Contract X}
    (w : World) (master phrase attempt : string) :
  Fileio.InitCheck (passwordFolder w) = false ->
  Types.Quit (options w) = false ->
  Os.is_directory (fs w)
    (Fileio.FolderLocation (passwordFolder w) +:+ "/.checker") = true ->
  Os.nodes (fs w) !! Fileio.path_of (passwordFolder w) Menus.validationKey = None ->
  fst (Menus.validatePassword master) = true ->
  fst (Menus.validatePhrase phrase) = true ->
  exists w' created updated,
    Menus.Login [Menus.Enter master; Menus.Enter phrase; Menus.Enter attempt] w
    = Some ((String.eqb attempt master, None), w')
    /\ Fileio.InitCheck (passwordFolder w') = true
    /\ sealed_under w' Menus.validationKey master
         (Encryption.mkData phrase "" "" "" created updated).
Proof.
  intros Hinit Hquit Hdir Hnone Hm Hp.
  pose proof (validatePassword_nonempty _ Hm) as Hnonempty.
  unfold Menus.Login. cbn [set_ErrorMessage passwordFolder]. rewrite Hinit. cbn [negb].
  unfold Menus.setup.
  cbn [Menus.master_password_loop Menus.run_password_input].
  replace (Types.Quit (options (set_Password master (set_ErrorMessage "" w))))
    with false by (symmetry; exact Hquit).
  change (Fileio.Password (passwordFolder (set_Password master (set_ErrorMessage "" w))))
    with master.
  destruct (Menus.validatePassword master) as [[] msg1] eqn:Em; [| discriminate Hm].
  cbn [Menus.phrase_loop Menus.run_phrase_input].
  replace (Types.Quit (options (set_ErrorMessage ""
             (set_Password master (set_ErrorMessage "" w)))))
    with false by (symmetry; exact Hquit).
  destruct (Menus.validatePhrase phrase) as [[] msg2] eqn:Ep; [| discriminate Hp].
  set (w3 := next_tick (next_tick (set_InitCheck false _))).
  set (data := Encryption.mkData _ _ _ _ _ _).
  destruct (EncryptPasswordAndWriteToFile_new
              (Fileio.FolderLocation (passwordFolder w) +:+ "/.checker") "init.gpg"
              Menus.validationKey data w3) as [w4 E].
  { exact (validation_path (passwordFolder w3)). }
  { reflexivity. }
  { exact Hdir. }
  { exact Hnone. }
  { exact Hnonempty. }
  rewrite E.
  apply EncryptPasswordAndWriteToFile_sealed in E as (Hs & Hpf & _).
  change (Fileio.Password (passwordFolder w3)) with master in Hs.
  cbn [Menus.run_password_input].
  set (w5 := set_Password attempt _).
  assert (Hs5 : sealed_under w5 Menus.validationKey master data).
  { eapply sealed_under_frame; [| | exact Hs]; reflexivity. }
  assert (Hopen : Encryption.DecryptPasswordFromFile Menus.validationKey w5
                  = Open Menus.validationKey attempt w5).
  { unfold Open. apply DecryptPasswordFromFile_frame; reflexivity. }
  rewrite Hopen.
  destruct (String.eqb_spec attempt master) as [-> | Hne].
  - rewrite (Open_sealed _ _ _ _ Hs5).
    eexists _, _, _. split; [reflexivity |]. split; [reflexivity |].
    eapply sealed_under_frame; [| | exact Hs5]; reflexivity.
  - pose proof (Open_sealed_other _ _ attempt _ _ Hs5 Hne) as Hfail.
    destruct (Open Menus.validationKey attempt w5) as [d [e |]];
      [| now contradiction Hfail].
    eexists _, _, _. split; [reflexivity |]. split; [reflexivity |].
    exact Hs5.
Qed.

Lemma bootstrap_then_login_witness :
  exists w' created updated,
    Menus.Login [Menus.Enter "correcthorse"; Menus.Enter "the quick brown fox jumps";
                 Menus.Enter "wrongsecret1"] Sample.fresh
    = Some ((false, None), w')
    /\ Fileio.InitCheck (passwordFolder w') = true
    /\ sealed_under w' Menus.validationKey "correcthorse"
         (Encryption.mkData "the quick brown fox jumps" "" "" "" created updated).
Proof.
  apply (bootstrap_then_login (C := sample_contract) Sample.fresh
           "correcthorse" "the quick brown fox jumps" "wrongsecret1");
    vm_compute; reflexivity.
Defined.

(** ** Catalog: what is listed *)
Section CatalogMore.
Import GoStrings Encryption Menus.
Context {X : Externals}.

Lemma substring_split s : forall k,
  (k <= String.length s)%nat ->
  s = substring 0 k s +:+ substring k (String.length s - k) s.
Proof.
  induction s as [| c s IH]; intros [| k] Hk.
  - reflexivity.
  - cbn in Hk. lia.
  - change (substring 0 0 (String c s)) with "".
    now rewrite str_app_nil_l, Nat.sub_0_r, substring_all.
  - cbn [String.length substring Nat.sub]. rewrite str_app_cons. f_equal.
    apply IH. cbn in Hk. lia.
Qed.

Lemma HasSuffix_inv s suffix :
  HasSuffix s suffix = true -> s = TrimSuffix s suffix +:+ suffix.
Proof.
  intros H. unfold TrimSuffix. rewrite H. unfold HasSuffix in H.
  apply andb_true_iff in H as [Hlen Heq].
  apply Nat.leb_le in Hlen. apply String.eqb_eq in Heq.
  unfold slice_from, slice_to in *.
  set (k := (String.length s - String.length suffix)%nat) in *.
  transitivity (substring 0 k s +:+ substring k (String.length s - k) s).
  - apply substring_split. subst k. lia.
  - f_equal. exact Heq.
Qed.

(** What it takes for the loop to append an entry. *)
Lemma visit_sound w d e :
  In e (visit w [] d) ->
  Os.IsDir d = false
  /\ Os.Name d = Filename e +:+ ".gpg"
  /\ Contains (Os.Name d) ".checker" = false
  /\ exists data,
       DecryptPasswordFromFile (Filename e) w = (data, None)
       /\ e = mkPasswordEntry (Filename e)
                (Utils.ParseFilenameToSiteName (Filename e))
                (Encryption.Username data) (Encryption.Email data)
                (Encryption.CreatedAt data).
Proof.
  unfold visit.
  destruct (Os.IsDir d); [easy |]. cbn [orb].
  destruct (HasSuffix (Os.Name d) ".gpg") eqn:Hsuf; [| easy]. cbn [negb].
  destruct (String.eqb (Os.Name d) "init.gpg"); [easy |].
  destruct (Contains (Os.Name d) ".checker") eqn:Hchk; [easy |].
  destruct (DecryptPasswordFromFile _ w) as [data [err |]] eqn:Ed; [easy |].
  intros [<- | []]. cbn [Filename].
  split; [reflexivity |]. split; [now apply HasSuffix_inv |].
  split; [reflexivity |]. exists data. auto.
Qed.

Lemma getAllPasswordEntries_unfold w ds :
  Os.ReadDir (Fileio.FolderLocation (passwordFolder w)) (fs w) = Ok ds ->
  getAllPasswordEntries w
  = (Ok (flat_map (visit w []) ds),
     set_passwordFolder
       (Fileio.mkPasswordFolder (Fileio.FolderLocation (passwordFolder w)) ds
          (Fileio.InitCheck (passwordFolder w)) (Fileio.Password (passwordFolder w)))
       w).
Proof.
  intros Hdir. unfold getAllPasswordEntries, Fileio.RefreshDirectoryListing.
  rewrite Hdir. set (w1 := set_passwordFolder _ w).
  change (Fileio.Dirs (passwordFolder w1)) with ds.
  rewrite fold_visit. cbn [app].
  replace (flat_map (visit w1 []) ds) with (flat_map (visit w []) ds);
    [reflexivity |].
  apply flat_map_ext. intros d. unfold visit.
  now rewrite (DecryptPasswordFromFile_frame _ w1 w).
Qed.

(** A file named by the codec that opens is listed with the fields of
    its record. *)
Lemma visit_codec_record w t label data :
  DecryptPasswordFromFile (Utils.GenerateFilename t label) w = (data, None) ->
  visit w [] (Os.mkDirEntry (Utils.GenerateFilename t label +:+ ".gpg") false)
  = [mkPasswordEntry (Utils.GenerateFilename t label)
       (Utils.ParseFilenameToSiteName (Utils.GenerateFilename t label))
       (Encryption.Username data) (Encryption.Email data)
       (Encryption.CreatedAt data)].
Proof.
  intros Hopen. unfold visit. cbn [Os.IsDir Os.Name].
  rewrite HasSuffix_app. cbn [negb orb].
  destruct (String.eqb_spec (Utils.GenerateFilename t label +:+ ".gpg") "init.gpg")
    as [Heq |]; [now apply GenerateFilename_not_init in Heq |].
  rewrite dotfree_no_checker by apply GenerateFilename_dotfree.
  now rewrite TrimSuffix_app, Hopen.
Qed.

End CatalogMore.

(** X21. Whatever the store holds, every entry [getAllPasswordEntries]
    returns stands for a regular file [<Filename>.gpg] of the listing
    that decrypts under the active passphrase; its site name is decoded
    from the file name and its user name, email and creation time are
    those of the decrypted record; it is never the validation record.
    The file system is not touched. *)
Theorem getAllPasswordEntries_sound
    {X : Encryption.Externals} (w w' : World) (entries : list Menus.PasswordEntry) :
  Menus.getAllPasswordEntries w = (Ok entries, w') ->
  fs w' = fs w
  /\ forall e, In e entries ->
       Menus.Filename e <> Menus.validationKey
       /\ In (Os.mkDirEntry (Menus.Filename e +:+ ".gpg") false)
             (Fileio.Dirs (passwordFolder w'))
       /\ exists data,
            Encryption.DecryptPasswordFromFile (Menus.Filename e) w = (data, None)
            /\ e = Menus.mkPasswordEntry (Menus.Filename e)
                     (Utils.ParseFilenameToSiteName (Menus.Filename e))
                     (Encryption.Username data) (Encryption.Email data)
                     (Encryption.CreatedAt data).
Proof.
  intros H.
  destruct (Os.ReadDir (Fileio.FolderLocation (passwordFolder w)) (fs w))
    as [ds | err] eqn:Hdir.
  - rewrite (getAllPasswordEntries_unfold _ _ Hdir) in H. injection H as <- <-.
    split; [reflexivity |]. intros e He.
    apply in_flat_map in He as (d & Hd & He).
    apply visit_sound in He as (Hfile & Hname & Hchk & Hdata).
    split; [| split; [| exact Hdata]].
    + intros Heq. rewrite Hname, Heq in Hchk. discriminate Hchk.
    + cbn [set_passwordFolder passwordFolder Fileio.Dirs].
      rewrite <- Hname, <- Hfile. now destruct d.
  - unfold Menus.getAllPasswordEntries, Fileio.RefreshDirectoryListing in H.
    rewrite Hdir in H. discriminate H.
Qed.

Lemma getAllPasswordEntries_sound_witness :
  fs (snd (Menus.getAllPasswordEntries Sample.stocked)) = fs Sample.stocked.
Proof.
  apply (getAllPasswordEntries_sound Sample.stocked _
           (match fst (Menus.getAllPasswordEntries Sample.stocked) with
            | Ok l => l | Err _ => [] end)).
  vm_compute. reflexivity.
Defined.

(** ** The event loop *)
Section ProgramFacts.
Import Tea.
Context {M : Type}.
Variable update :
  M -> Msg -> Types.Options -> option ((M * bool) * Types.Options).
Variable I : M -> Types.Options -> Prop.
Hypothesis step : forall m o msg,
  I m o -> exists m' quit o', update m msg o = Some ((m', quit), o') /\ I m' o'.

Lemma deliver_invariant msgs : forall m o,
  I m o -> exists m' o', deliver update msgs m o = Some (m', o') /\ I m' o'.
Proof.
  induction msgs as [| msg msgs IH]; intros m o Hm; cbn [deliver].
  - eauto.
  - destruct (step m o msg Hm) as (m1 & quit & o1 & -> & H1). now apply IH.
Qed.

Lemma Run_invariant msgs : forall m o,
  I m o ->
  match Run update msgs m o with
  | Panic => False
  | Pending m' o' => I m' o'
  | Done m' o' => I m' o'
  end.
Proof.
  induction msgs as [| msg msgs IH]; intros m o Hm; cbn [Run].
  - exact Hm.
  - destruct (step m o msg Hm) as (m1 & quit & o1 & -> & H1).
    destruct quit; [exact H1 | now apply IH].
Qed.

End ProgramFacts.

(** ** The password list *)
Section ListFacts.
Import Tea PasswordList.

Lemma index_Some {A} (l : list A) (i : Z) :
  (0 <= i < GoSlice.len l)%Z -> exists x, GoSlice.index l i = Some x /\ In x l.
Proof.
  intros [Hlo Hhi]. unfold GoSlice.index, GoSlice.len in *.
  destruct (Z.ltb_spec i 0) as [| _]; [lia |].
  destruct (lookup_lt_is_Some_2 l (Z.to_nat i)) as [x Hx]; [lia |].
  exists x. split; [exact Hx |].
  apply list_elem_of_In. now apply list_elem_of_lookup_2 in Hx.
Qed.

Lemma list_step es m o msg :
  list_inv es m ->
  exists m' quit o', Update m msg o = Some ((m', quit), o') /\ list_inv es m'.
Proof.
  intros Hinv. pose proof Hinv as (He & Hc & Hs). unfold Update.
  destruct msg as [key |]; [| now eauto 6].
  destruct (key_in key ["ctrl+c"; "esc"; "q"]); [now eauto 6 |].
  destruct (key_in key ["enter"; " "]).
  { destruct ((GoSlice.len (entries m) >? 0)%Z
              && (cursor m <? GoSlice.len (entries m))%Z) eqn:Hsel;
      [| now eauto 6].
    apply andb_true_iff in Hsel as [_ Hlt]. apply Z.ltb_lt in Hlt.
    destruct (index_Some (entries m) (cursor m)) as (e & -> & Hin); [lia |].
    do 3 eexists. split; [reflexivity |].
    repeat split; cbn; try tauto; try lia. intros _. now rewrite <- He. }
  destruct (key_in key ["up"; "k"]).
  { do 3 eexists. split; [reflexivity |].
    destruct (Z.gtb_spec (cursor m) 0); [| easy].
    repeat split; cbn; try tauto; lia. }
  destruct (key_in key ["down"; "j"]).
  { do 3 eexists. split; [reflexivity |].
    destruct (Z.ltb_spec (cursor m) (GoSlice.len (entries m) - 1)); [| easy].
    rewrite He in *. repeat split; cbn; try tauto; lia. }
  destruct (key_in key ["home"]).
  { do 3 eexists. split; [reflexivity |].
    repeat split; cbn; try tauto; lia. }
  destruct (key_in key ["end"]); [| now eauto 6].
  do 3 eexists. split; [reflexivity |].
  destruct (Z.gtb_spec (GoSlice.len (entries m)) 0); [| easy].
  rewrite He in *. repeat split; cbn; try tauto; lia.
Qed.

Lemma list_inv_New es : list_inv es (NewPasswordList es).
Proof.
  repeat split; cbn; try lia; discriminate.
Qed.

End ListFacts.

(** ** The detail view and the confirmation dialog *)
Section DialogFacts.
Import Tea.

Lemma key_in_In key keys : key_in key keys = true <-> In key keys.
Proof.
  unfold key_in. rewrite existsb_exists. split.
  - intros (k & Hin & Heq). apply String.eqb_eq in Heq. now subst.
  - intros Hin. exists key. split; [exact Hin | apply String.eqb_refl].
Qed.

Lemma key_in_false key keys : ~ In key keys -> key_in key keys = false.
Proof.
  intros H. destruct (key_in key keys) eqn:E; [| reflexivity].
  now apply key_in_In in E.
Qed.

Lemma key_in_app key ks1 ks2 :
  key_in key (ks1 ++ ks2)%list = key_in key ks1 || key_in key ks2.
Proof. unfold key_in. apply existsb_app. Qed.

(** Without the key [d], the detail view ends with no deletion
    requested. *)
Lemma Detail_Run_no_request msgs : forall m o,
  (forall key, In (KeyMsg key) msgs -> ~ In key delete_keys) ->
  Detail.deleteRequested m = false ->
  match Run Detail.Update msgs m o with
  | Panic => False
  | Pending m' _ | Done m' _ => Detail.deleteRequested m' = false
  end.
Proof.
  induction msgs as [| msg msgs IH]; intros m o Hkeys Hm; cbn [Run].
  - exact Hm.
  - assert (Hrest : forall key, In (KeyMsg key) msgs -> ~ In key delete_keys)
      by (intros key Hin; apply Hkeys; now right).
    unfold Detail.Update. destruct msg as [key |]; [| now apply IH].
    destruct (key_in key ["ctrl+c"; "esc"; "q"; "backspace"]); [exact Hm |].
    destruct (key_in key ["v"; " "]); [now apply IH |].
    rewrite (key_in_false key ["d"; "D"]) by (apply Hkeys; now left).
    destruct (key_in key ["enter"]); [exact Hm | now apply IH].
Qed.

Lemma Detail_Run_total msgs : forall m o, Run Detail.Update msgs m o <> Panic.
Proof.
  induction msgs as [| msg msgs IH]; intros m o; cbn [Run]; [easy |].
  unfold Detail.Update. destruct msg as [key |]; [| apply IH].
  repeat (match goal with
          | |- context [if ?b then _ else _] => destruct b
          end; try easy; try apply IH).
Qed.

(** Without [y] and without a key that moves the cursor to Yes, the
    dialog never ends confirmed. *)
Lemma Confirm_Run_default_no msgs : forall m o,
  (forall key, In (KeyMsg key) msgs -> ~ In key yes_keys) ->
  Confirm.confirmed m = false -> Confirm.cursor m = 0%Z ->
  match Run Confirm.Update msgs m o with
  | Panic => False
  | Pending m' _ | Done m' _ => Confirm.confirmed m' = false
  end.
Proof.
  induction msgs as [| msg msgs IH]; intros m o Hkeys Hm Hc; cbn [Run].
  - exact Hm.
  - assert (Hrest : forall key, In (KeyMsg key) msgs -> ~ In key yes_keys)
      by (intros key Hin; apply Hkeys; now right).
    unfold Confirm.Update. destruct msg as [key |]; [| now apply IH].
    assert (Hkey : ~ In key yes_keys)
      by (apply Hkeys; now left).
    destruct (key_in key ["ctrl+c"; "esc"; "n"; "N"]); [exact Hm |].
    rewrite (key_in_false key ["y"; "Y"]) by (intros Hin; apply Hkey; unfold yes_keys; cbn in *; tauto).
    destruct (key_in key ["enter"; " "]).
    { rewrite Hc. exact Hm. }
    destruct (key_in key ["up"; "k"]); [now apply IH |].
    rewrite (key_in_false key ["down"; "j"]) by (intros Hin; apply Hkey; unfold yes_keys; cbn in *; tauto).
    rewrite (key_in_false key ["tab"]) by (intros Hin; apply Hkey; unfold yes_keys; cbn in *; tauto).
    now apply IH.
Qed.

Lemma Confirm_Run_total msgs : forall m o, Run Confirm.Update msgs m o <> Panic.
Proof.
  induction msgs as [| msg msgs IH]; intros m o; cbn [Run]; [easy |].
  unfold Confirm.Update. destruct msg as [key |]; [| apply IH].
  repeat (match goal with
          | |- context [if key_in ?k ?l then _ else _] => destruct (key_in k l)
          end; try easy; try apply IH).
Qed.

Lemma List_Run_inv es msgs o :
  match Run PasswordList.Update msgs (PasswordList.NewPasswordList es) o with
  | Panic => False
  | Pending m' _ | Done m' _ => list_inv es m'
  end.
Proof.
  pose proof (Run_invariant PasswordList.Update (fun m _ => list_inv es m)
                (fun m o msg => list_step es m o msg) msgs
                (PasswordList.NewPasswordList es) o (list_inv_New es)) as H.
  now destruct (Run _ _ _ _).
Qed.

End DialogFacts.

(** ** Browsing the store *)
Section BrowseFacts.
Import Encryption Menus Tea MenuViews.
Context {X : Externals}.

Lemma has_key_false keys msgs :
  has_key keys msgs = false ->
  forall key, In (KeyMsg key) msgs -> ~ In key keys.
Proof.
  intros H key Hin Hk. apply key_in_In in Hk.
  assert (has_key keys msgs = true); [| congruence].
  apply existsb_exists. now exists (KeyMsg key).
Qed.

Lemma pressed_here keys msgs sessions :
  has_key keys msgs = true -> pressed keys (Ok msgs :: sessions) = true.
Proof. intros H. unfold pressed. cbn [existsb]. now rewrite H. Qed.

Lemma pressed_later keys s sessions :
  pressed keys sessions = true -> pressed keys (s :: sessions) = true.
Proof.
  unfold pressed. intros H. cbn [existsb]. rewrite H. apply orb_true_r.
Qed.

Lemma getAllPasswordEntries_fs w : fs (snd (getAllPasswordEntries w)) = fs w.
Proof.
  unfold getAllPasswordEntries.
  now destruct (Fileio.RefreshDirectoryListing _ _) as [[err |] pf].
Qed.

Lemma DeleteFile_outcome pf key fs0 r fs' :
  Fileio.DeleteFile pf key fs0 = (r, fs') ->
  (r <> None /\ fs' = fs0)
  \/ (r = None
      /\ fs' = Os.mkFS (delete (Fileio.path_of pf key) (Os.nodes fs0))
                 (Os.umask fs0)).
Proof.
  unfold Fileio.DeleteFile, Os.Remove.
  destruct (negb (Fileio.FileExists _ fs0)); [intros [= <- <-]; now left |].
  destruct (Os.nodes fs0 !! Fileio.path_of pf key) as [[c perm | perm] |].
  - intros [= <- <-]. now right.
  - destruct (Os.has_children fs0 _); intros [= <- <-]; [now left | now right].
  - intros [= <- <-]. now left.
Qed.

Lemma Detail_requested msgs m0 o m o' :
  Detail.deleteRequested m0 = false ->
  Run Detail.Update msgs m0 o = Done m o' ->
  Detail.deleteRequested m = true ->
  has_key delete_keys msgs = true.
Proof.
  intros H0 Hrun Hreq.
  destruct (has_key delete_keys msgs) eqn:H; [reflexivity |].
  pose proof (Detail_Run_no_request msgs m0 o (has_key_false _ _ H) H0) as Hno.
  rewrite Hrun in Hno. congruence.
Qed.

Lemma Confirm_confirmed msgs m0 o m o' :
  Confirm.confirmed m0 = false -> Confirm.cursor m0 = 0%Z ->
  Run Confirm.Update msgs m0 o = Done m o' ->
  Confirm.confirmed m = true ->
  has_key yes_keys msgs = true.
Proof.
  intros H0 Hc Hrun Hyes.
  destruct (has_key yes_keys msgs) eqn:H; [reflexivity |].
  pose proof (Confirm_Run_default_no msgs m0 o (has_key_false _ _ H) H0 Hc) as Hno.
  rewrite Hrun in Hno. congruence.
Qed.

Lemma browse_post_step {R} s sessions w0 w (e : Ending (bool * R)) :
  browse_post sessions w e ->
  (forall keys, pressed keys sessions = true -> pressed keys s = true) ->
  Os.nodes (fs w) ⊆ Os.nodes (fs w0) ->
  (fs w = fs w0 \/ pressed delete_keys s && pressed yes_keys s = true) ->
  browse_post s w0 e.
Proof.
  destruct e as [r w' | |]; cbn; [| trivial | trivial].
  intros (H1 & H2 & H3) Htail Hsub Hfs. split; [exact H1 |]. split.
  - now transitivity (Os.nodes (fs w)).
  - destruct H3 as [-> | H3]; [exact Hfs |]. right.
    apply andb_true_iff in H3 as [Ha Hb]. apply andb_true_iff.
    split; now apply Htail.
Qed.

Lemma browse_post_return {R} sessions w0 (r : bool * R) w :
  fst r = false -> fs w = fs w0 -> browse_post sessions w0 (Returns r w).
Proof. intros H1 H2. cbn. rewrite H2. auto. Qed.

Ltac tail_pressed :=
  let keys := fresh "keys" in
  let H := fresh "H" in
  intros keys H; repeat apply pressed_later; exact H.

Lemma list_loop_post n : forall sessions entries w,
  (length sessions <= n)%nat ->
  browse_post sessions w (list_loop sessions entries w).
Proof.
  induction n as [| n IH]; intros sessions entries w Hn.
  { destruct sessions; [exact I | cbn in Hn; lia]. }
  destruct sessions as [| [msgs1 | err] s1]; cbn [list_loop];
    [exact I | | now apply browse_post_return].
  pose proof (List_Run_inv entries msgs1 (options w)) as Hl.
  destruct (Run PasswordList.Update msgs1 _ _) as [| lm o1 | lm o1];
    [contradiction | exact I |].
  destruct (negb (PasswordList.selected lm)); [now apply browse_post_return |].
  destruct (DecryptPasswordFromFile _ _) as [data [err |]].
  { eapply browse_post_step;
      [apply IH; cbn in Hn; lia | tail_pressed | reflexivity | now left]. }
  destruct s1 as [| [msgs2 | err] s2];
    [exact I | | now apply browse_post_return].
  pose proof (Detail_Run_total msgs2
                (Detail.NewPasswordDetail data
                   (Filename (PasswordList.selectedEntry lm))
                   (SiteName (PasswordList.selectedEntry lm)))
                (options (set_options o1 w))) as Hd.
  destruct (Run Detail.Update msgs2 _ _) as [| dm o2 | dm o2] eqn:Edetail;
    [contradiction | exact I |].
  destruct (Detail.deleteRequested dm) eqn:Ereq; cbn [negb].
  2:{ eapply browse_post_step;
        [apply IH; cbn in Hn; lia | tail_pressed | reflexivity | now left]. }
  destruct s2 as [| [msgs3 | err] s3];
    [exact I | | now apply browse_post_return].
  pose proof (Confirm_Run_total msgs3
                (Confirm.NewConfirmDialog
                   (SiteName (PasswordList.selectedEntry lm))
                   (Filename (PasswordList.selectedEntry lm)) "delete")
                (options (set_options o2 (set_options o1 w)))) as Hc.
  destruct (Run Confirm.Update msgs3 _ _) as [| cm o3 | cm o3] eqn:Econfirm;
    [contradiction | exact I |].
  destruct (Confirm.confirmed cm) eqn:Eyes; cbn [negb].
  2:{ eapply browse_post_step;
        [apply IH; cbn in Hn; lia | tail_pressed | reflexivity | now left]. }
  assert (Hpressed :
            pressed delete_keys (Ok msgs1 :: Ok msgs2 :: Ok msgs3 :: s3)
            && pressed yes_keys (Ok msgs1 :: Ok msgs2 :: Ok msgs3 :: s3) = true).
  { pose proof (Detail_requested _ _ _ _ _
                (eq_refl : Detail.deleteRequested (Detail.NewPasswordDetail _ _ _)
                           = false) Edetail Ereq) as Hk1.
    pose proof (Confirm_confirmed _ _ _ _ _
                (eq_refl : Confirm.confirmed (Confirm.NewConfirmDialog _ _ _)
                           = false)
                (eq_refl : Confirm.cursor (Confirm.NewConfirmDialog _ _ _) = 0%Z)
                Econfirm Eyes) as Hk2.
    apply andb_true_iff. split.
    - apply pressed_later. now apply pressed_here.
    - do 2 apply pressed_later. now apply pressed_here. }
  destruct (Fileio.DeleteFile _ _ _) as [r fs'] eqn:Edel.
  apply DeleteFile_outcome in Edel as [[Hr ->] | [-> ->]].
  { destruct r as [err |]; [| contradiction].
    eapply browse_post_step;
      [apply IH; cbn in Hn; lia | tail_pressed | reflexivity | now left]. }
  match goal with
  | |- context [set_fs ?f ?w0] => set (w4 := set_fs f w0)
  end.
  assert (Hsub : Os.nodes (fs w4) ⊆ Os.nodes (fs w)) by apply delete_subseteq.
  destruct (Fileio.RefreshDirectoryListing _ _) as [[err |] pf].
  { eapply browse_post_step;
      [apply IH; cbn in Hn; lia | tail_pressed | exact Hsub | now right]. }
  pose proof (getAllPasswordEntries_fs (set_passwordFolder pf w4)) as Hfs.
  destruct (getAllPasswordEntries _) as [[entries' | err] w5]; cbn [snd] in Hfs.
  - eapply browse_post_step;
      [apply IH; cbn in Hn; lia | tail_pressed | | now right].
    cbn [print fs]. rewrite Hfs. exact Hsub.
  - cbn. rewrite Hfs. split; [reflexivity |]. split; [exact Hsub | now right].
Qed.

Lemma ListAllPasswords_post sessions w :
  browse_post sessions w (ListAllPasswords sessions w).
Proof.
  unfold ListAllPasswords.
  pose proof (getAllPasswordEntries_fs (set_ErrorMessage "" w)) as Hfs.
  destruct (getAllPasswordEntries _) as [[entries | err] w1]; cbn [snd] in Hfs;
    [| now apply browse_post_return].
  destruct (GoSlice.len entries =? 0)%Z.
  - destruct sessions as [| [msgs | err] s1];
      [exact I | | now apply browse_post_return].
    pose proof (List_Run_inv entries msgs (options w1)) as Hl.
    destruct (Run PasswordList.Update msgs _ _) as [| lm o1 | lm o1];
      [contradiction | exact I | now apply browse_post_return].
  - eapply browse_post_step;
      [now apply (list_loop_post (length sessions)) | auto | | now left];
      now rewrite Hfs.
Qed.

End BrowseFacts.

(** X22. [ListAllPasswords] removes nothing unless it was asked to and the
    request was confirmed: when no message is the key [d] or [D] of the
    detail view, or none is [y], [Y] or a key that moves the cursor of
    the confirmation dialog ([down], [j], [tab]), the file system is
    left as it was.  In particular Enter alone never confirms: the
    dialog opens on No. *)
Theorem ListAllPasswords_deletes_only_on_request
    {X : Encryption.Externals}
    (sessions : list (result (list Tea.Msg))) (w w' : World)
    (r : bool * option string) :
  pressed delete_keys sessions && pressed yes_keys sessions = false ->
  MenuViews.ListAllPasswords sessions w = MenuViews.Returns r w' ->
  fs w' = fs w.
Proof.
  intros Hquiet Hr. pose proof (ListAllPasswords_post sessions w) as H.
  rewrite Hr in H. destruct H as (_ & _ & [H | H]); [exact H | congruence].
Qed.

Lemma ListAllPasswords_deletes_only_on_request_witness :
  fs (Sample.after_browse Sample.browse_declined) = fs Sample.stocked.
Proof.
  apply (ListAllPasswords_deletes_only_on_request Sample.browse_declined
           Sample.stocked (Sample.after_browse Sample.browse_declined)
           (false, None));
    vm_compute; reflexivity.
Defined.

(** X23. [ListAllPasswords] never panics, never returns [true] (whatever was
    viewed or deleted), and never adds or changes a file: every file
    that is there afterwards was there before, with the same content. *)
Theorem ListAllPasswords_only_removes
    {X : Encryption.Externals}
    (sessions : list (result (list Tea.Msg))) (w : World) :
  MenuViews.ListAllPasswords sessions w <> MenuViews.Panics
  /\ forall r w',
       MenuViews.ListAllPasswords sessions w = MenuViews.Returns r w' ->
       fst r = false /\ Os.nodes (fs w') ⊆ Os.nodes (fs w).
Proof.
  pose proof (ListAllPasswords_post sessions w) as H. split.
  - intros Hp. now rewrite Hp in H.
  - intros r w' Hr. rewrite Hr in H. destruct H as (H1 & H2 & _). auto.
Qed.

Lemma ListAllPasswords_only_removes_witness :
  Os.nodes (fs (Sample.after_browse Sample.browse_confirmed))
  ⊆ Os.nodes (fs Sample.stocked)
  /\ is_Ok (Fileio.ReadFromFile (passwordFolder Sample.stocked)
              Sample.github_key
              (fs (Sample.after_browse Sample.browse_confirmed)))
     = false.
Proof.
  split; [| vm_compute; reflexivity].
  apply (proj2 (ListAllPasswords_only_removes Sample.browse_confirmed
                  Sample.stocked)
           (false, None) (Sample.after_browse Sample.browse_confirmed)).
  vm_compute. reflexivity.
Defined.

(** ** The password form *)
Section FormFacts.
Import Tea Form.
Context {T : Bubbles.TextInput}.

Lemma modify_Some {A} (l : list A) (i : Z) (f : A -> A) :
  (0 <= i < GoSlice.len l)%Z ->
  exists l', GoSlice.modify l i f = Some l' /\ length l' = length l.
Proof.
  intros Hi. unfold GoSlice.modify.
  destruct (index_Some l i Hi) as (x & -> & _).
  eexists. split; [reflexivity |]. apply length_insert.
Qed.

Lemma validate_from_Some fields inputs : forall i,
  (0 <= i)%Z -> (i + GoSlice.len fields <= GoSlice.len inputs)%Z ->
  exists b, validate_from i fields inputs = Some b.
Proof.
  unfold GoSlice.len.
  induction fields as [| f fields IH]; intros i Hi Hlen; cbn [validate_from].
  - eauto.
  - cbn [length] in Hlen.
    destruct (index_Some inputs i) as (ti & -> & _);
      [unfold GoSlice.len; lia |].
    destruct (Required f); [destruct (String.eqb _ ""); [eauto |] |];
      apply IH; lia.
Qed.

Lemma store_values_Some fields inputs : forall i,
  (0 <= i)%Z -> (i + GoSlice.len fields <= GoSlice.len inputs)%Z ->
  exists fields',
    store_values i fields inputs = Some fields'
    /\ map Label fields' = map Label fields
    /\ map Required fields' = map Required fields
    /\ (validate_from i fields inputs = Some true ->
        Forall (fun f => Required f = true ->
                         GoUnicode.TrimSpace (Value f) <> "") fields').
Proof.
  unfold GoSlice.len.
  induction fields as [| f fields IH]; intros i Hi Hlen;
    cbn [store_values validate_from].
  - exists []. auto.
  - cbn [length] in Hlen.
    destruct (index_Some inputs i) as (ti & -> & _);
      [unfold GoSlice.len; lia |].
    destruct (IH (i + 1)%Z) as (fields' & -> & Hl & Hr & Hv); [lia | lia |].
    eexists. split; [reflexivity |]. cbn [map Label Required].
    rewrite Hl, Hr. split; [reflexivity |]. split; [reflexivity |].
    intros Hvalid. constructor.
    + cbn [Required Value]. intros Hreq. rewrite Hreq in Hvalid.
      destruct (String.eqb_spec (GoUnicode.TrimSpace (Bubbles.Value ti)) "");
        [discriminate | assumption].
    + apply Hv. destruct (Required f); [| exact Hvalid].
      now destruct (String.eqb _ "").
Qed.

Lemma form_fields_len m :
  map Label (fields m) = map Label password_fields ->
  GoSlice.len (fields m) = 5%Z.
Proof.
  intros H. apply (f_equal (@length _)) in H. rewrite !length_map in H.
  unfold GoSlice.len. rewrite H. reflexivity.
Qed.

Lemma form_move m next (o : Types.Options) :
  form_inv m -> (0 <= next < 5)%Z ->
  exists m' quit o',
    match move next m with
    | None => None
    | Some m => Some ((m, false), o)
    end = Some ((m', quit, o') : (FormModel * bool) * Types.Options)
    /\ form_inv m'.
Proof.
  intros (Hl & Hr & Hn & Hc & Hs) Hnext. unfold move.
  destruct (modify_Some (inputs m) (currentField m) Bubbles.Blur)
    as (l1 & -> & Hl1); [unfold GoSlice.len; lia |].
  destruct (modify_Some l1 next Bubbles.Focus) as (l2 & -> & Hl2);
    [unfold GoSlice.len; lia |].
  do 3 eexists. split; [reflexivity |].
  repeat split; cbn; try assumption; try lia.
Qed.

Lemma form_forward m msg (o : Types.Options) :
  form_inv m ->
  exists m' quit o',
    match forward msg m with
    | None => None
    | Some m => Some ((m, false), o)
    end = Some ((m', quit, o') : (FormModel * bool) * Types.Options)
    /\ form_inv m'.
Proof.
  intros (Hl & Hr & Hn & Hc & Hs). unfold forward.
  destruct (modify_Some (inputs m) (currentField m)
              (fun ti => Bubbles.Update ti msg))
    as (l1 & -> & Hl1); [unfold GoSlice.len; lia |].
  do 3 eexists. split; [reflexivity |].
  repeat split; cbn; try assumption; try lia.
Qed.

Lemma form_step m o msg :
  form_inv m ->
  exists m' quit o', Update m msg o = Some ((m', quit), o') /\ form_inv m'.
Proof.
  intros Hinv. pose proof Hinv as (Hl & Hr & Hn & Hc & Hs). unfold Update.
  assert (Hlast : (GoSlice.len (inputs m) - 1 = 4)%Z)
    by (unfold GoSlice.len; lia).
  rewrite Hlast.
  destruct msg as [key |]; [| now apply form_forward].
  destruct (key_in key ["ctrl+c"; "esc"]).
  { do 3 eexists. split; [reflexivity |]. repeat split; cbn; try assumption; lia. }
  destruct (key_in key ["enter"]).
  { destruct (Z.ltb_spec (currentField m) 4); [apply form_move; [assumption | lia] |].
    unfold validateForm.
    pose proof (form_fields_len m Hl) as Hfl.
    destruct (store_values_Some (fields m) (inputs m) 0)
      as (fields' & Hstore & Hl' & Hr' & Hvalid);
      [lia | unfold GoSlice.len in *; lia |].
    destruct (validate_from_Some (fields m) (inputs m) 0) as ([|] & Hv);
      [lia | unfold GoSlice.len in *; lia | |]; rewrite Hv.
    - rewrite Hstore. do 3 eexists. split; [reflexivity |].
      repeat split; cbn [fields inputs currentField submitted];
        try congruence; try lia. intros _. now apply Hvalid.
    - do 3 eexists. split; [reflexivity | exact Hinv]. }
  destruct (key_in key ["tab"; "shift+tab"; "up"; "down"]);
    [| now apply form_forward].
  destruct (key_in key ["up"; "shift+tab"]).
  - destruct (Z.gtb_spec (currentField m) 0);
      [apply form_move; [assumption | lia] | now apply form_forward].
  - destruct (Z.ltb_spec (currentField m) 4);
      [apply form_move; [assumption | lia] | now apply form_forward].
Qed.

Lemma form_inv_New : form_inv NewPasswordForm.
Proof. repeat split; cbn; try lia; discriminate. Qed.

Lemma Form_Run_inv msgs o :
  match Run Update msgs NewPasswordForm o with
  | Panic => False
  | Pending m' _ | Done m' _ => form_inv m'
  end.
Proof.
  pose proof (Run_invariant Update (fun m _ => form_inv m)
                (fun m o msg => form_step m o msg) msgs
                NewPasswordForm o form_inv_New) as H.
  now destruct (Run _ _ _ _).
Qed.

Lemma form_data m :
  map Label (fields m) = map Label password_fields ->
  exists f0 f1 f2 f3 f4,
    fields m = [f0; f1; f2; f3; f4]
    /\ at_key (GetFormData m) "site_service_name" = Value f0
    /\ at_key (GetFormData m) "username" = Value f1
    /\ at_key (GetFormData m) "email" = Value f2
    /\ at_key (GetFormData m) "url" = Value f3
    /\ at_key (GetFormData m) "password" = Value f4.
Proof.
  intros H. unfold GetFormData.
  destruct (fields m) as [| f0 [| f1 [| f2 [| f3 [| f4 [| f5 rest]]]]]];
    try discriminate H.
  cbn [map password_fields Label] in H. injection H as H0 H1 H2 H3 H4.
  exists f0, f1, f2, f3, f4. split; [reflexivity |].
  cbn [fold_left]. rewrite H0, H1, H2, H3, H4.
  change (data_key "Site/Service Name") with "site_service_name".
  change (data_key "Username") with "username".
  change (data_key "Email") with "email".
  change (data_key "URL") with "url".
  change (data_key "Password") with "password".
  unfold at_key.
  repeat split;
    repeat (rewrite lookup_insert_ne by discriminate);
    now rewrite lookup_insert_eq.
Qed.

End FormFacts.

(** X24. Whatever the user types, the password form never panics, its
    current field stays one of the five, and once it is submitted the
    values [GetFormData] returns for the two required fields (site name
    and password) are not blank. *)
Theorem Form_submitted_is_filled
    {T : Bubbles.TextInput} (msgs : list Tea.Msg) (options : Types.Options) :
  exists m options',
    Tea.deliver Form.Update msgs Form.NewPasswordForm options
    = Some (m, options')
    /\ (0 <= Form.currentField m < GoSlice.len (Form.inputs m))%Z
    /\ (Form.submitted m = true ->
        GoUnicode.TrimSpace
          (Form.at_key (Form.GetFormData m) "site_service_name") <> ""
        /\ GoUnicode.TrimSpace
             (Form.at_key (Form.GetFormData m) "password") <> "").
Proof.
  destruct (deliver_invariant Form.Update (fun m _ => form_inv m)
              (fun m o msg => form_step m o msg) msgs
              Form.NewPasswordForm options form_inv_New)
    as (m & o' & Hrun & Hl & Hr & Hn & Hc & Hs).
  exists m, o'. split; [exact Hrun |]. split.
  - unfold GoSlice.len. rewrite Hn. exact Hc.
  - intros Hsub. specialize (Hs Hsub).
    destruct (form_data m Hl) as (f0 & f1 & f2 & f3 & f4 & Hf & -> & _ & _ & _ & ->).
    rewrite Hf in Hs, Hr. cbn [map Form.password_fields Form.Required] in Hr.
    injection Hr as Hr0 _ _ _ Hr4.
    rewrite !List.Forall_cons_iff in Hs.
    destruct Hs as (H0 & _ & _ & _ & H4 & _). auto.
Qed.

Lemma Form_submitted_is_filled_witness :
  exists m options',
    Tea.deliver Form.Update Sample.add_session Form.NewPasswordForm
      (Types.mkOptions true false "") = Some (m, options')
    /\ Form.submitted m = true
    /\ Form.at_key (Form.GetFormData m) "password" = "pw-123456"
    /\ GoUnicode.TrimSpace (Form.at_key (Form.GetFormData m) "password") <> "".
Proof.
  destruct (Form_submitted_is_filled Sample.add_session
              (Types.mkOptions true false "")) as (m & o' & Hrun & _ & H).
  vm_compute in Hrun. injection Hrun as <- <-.
  do 2 eexists. split; [vm_compute; reflexivity |].
  split; [reflexivity |]. split; [vm_compute; reflexivity |].
  now apply H.
Defined.

(** ** Adding a record *)
Section AddFacts.
Import Encryption Menus Tea MenuViews.
Context {X : Externals} {T : Bubbles.TextInput}.

Lemma WriteFile_keeps_directory name data perm fs0 fs' d :
  Os.WriteFile name data perm fs0 = (None, fs') ->
  Os.is_directory fs0 d = true -> Os.is_directory fs' d = true.
Proof.
  intros Hw Hd. unfold Os.is_directory in *.
  destruct (Os.nodes fs0 !! d) as [[c p | p] |] eqn:Ed; try discriminate.
  assert (Hne : d <> name).
  { intros ->. unfold Os.WriteFile in Hw. rewrite Ed in Hw. discriminate. }
  now rewrite (WriteFile_other _ _ _ _ _ _ d Hw Hne), Ed.
Qed.

Lemma EncryptPasswordAndWriteToFile_keeps_directory key data w w' d :
  EncryptPasswordAndWriteToFile key data w = (None, w') ->
  Os.is_directory (fs w) d = true -> Os.is_directory (fs w') d = true.
Proof.
  unfold EncryptPasswordAndWriteToFile.
  destruct (json_Marshal data) as [js |]; [| discriminate].
  destruct (pgp_Encrypt (seed w) _ js) as [c |]; [| discriminate].
  cbn [next_seed passwordFolder fs].
  destruct (Fileio.WriteToFile (passwordFolder w) key c (fs w)) as [[e |] fs1] eqn:Ew;
    [discriminate |].
  intros [= <-]. cbn [set_fs fs]. rewrite WriteToFile_unfold in Ew.
  now apply (WriteFile_keeps_directory _ _ _ _ _ _ Ew).
Qed.

(** What a call that returns [true] has done. *)
Lemma AddNewPassword_true msgs w e w' :
  AddNewPassword (Ok msgs) w = Returns (true, e) w' ->
  exists m o' w4,
    Run Form.Update msgs Form.NewPasswordForm (options (set_ErrorMessage "" w))
    = Done m o'
    /\ EncryptPasswordAndWriteToFile
         (Utils.GenerateFilename (time_Now (S (ticks w))) (entered_site m))
         (entered_record m (time_Now (ticks w)))
         (next_tick (next_tick (set_options o' (set_ErrorMessage "" w))))
       = (None, w4)
    /\ fs w' = fs w4 /\ passwordFolder w' = passwordFolder w4.
Proof.
  unfold AddNewPassword.
  destruct (Run Form.Update msgs _ _) as [| m o' | m o']; try discriminate.
  destruct (Form.cancelled m); [discriminate |].
  destruct (negb (Form.submitted m)); [discriminate |].
  destruct (_ || _); [discriminate |].
  destruct (EncryptPasswordAndWriteToFile _ _ _) as [[err |] w4] eqn:Eenc;
    [discriminate |].
  intros [= <- <-]. exists m, o', w4. split; [reflexivity |].
  split; [exact Eenc |].
  unfold print_unless_empty.
  repeat match goal with
         | |- context [if ?b then _ else _] => destruct b
         end; auto.
Qed.


(** A record of the store that opens under the session passphrase is
    listed. *)
Lemma sealed_record_listed {C : Contract X} w t label data :
  Os.is_directory (fs w) (Fileio.FolderLocation (passwordFolder w)) = true ->
  sealed_under w (Utils.GenerateFilename t label)
    (Fileio.Password (passwordFolder w)) data ->
  DecryptPasswordFromFile (Utils.GenerateFilename t label) w = (data, None)
  /\ exists entries w'',
       getAllPasswordEntries w = (Ok entries, w'')
       /\ In (mkPasswordEntry (Utils.GenerateFilename t label)
                (Utils.ParseFilenameToSiteName (Utils.GenerateFilename t label))
                (Encryption.Username data) (Encryption.Email data)
                (Encryption.CreatedAt data)) entries.
Proof.
  intros Hdir Hsealed.
  assert (Hopen : DecryptPasswordFromFile (Utils.GenerateFilename t label) w
                  = (data, None)).
  { rewrite <- (Open_sealed _ _ _ _ Hsealed). unfold Open.
    now apply DecryptPasswordFromFile_frame. }
  split; [exact Hopen |].
  destruct (Os.ReadDir (Fileio.FolderLocation (passwordFolder w)) (fs w))
    as [ds | err] eqn:Eds;
    [| unfold Os.ReadDir in Eds; rewrite Hdir in Eds; discriminate].
  rewrite (getAllPasswordEntries_unfold _ _ Eds). do 2 eexists.
  split; [reflexivity |]. apply in_flat_map.
  exists (Os.mkDirEntry (Utils.GenerateFilename t label +:+ ".gpg") false).
  split.
  - apply (ReadDir_In _ _ _ _ Eds). cbn [Os.Name Os.IsDir].
    destruct Hsealed as (sd & js & blob & _ & _ & Hrd).
    rewrite ReadFromFile_ReadFile in Hrd. unfold Os.ReadFile, Fileio.path_of in Hrd.
    destruct (Os.nodes (fs w) !! _) as [[c perm | perm] |] eqn:En;
      try discriminate.
    exists (Os.File c perm). repeat split; auto.
    + now destruct (Utils.GenerateFilename t label).
    + apply Contains_slash_app; [apply GenerateFilename_no_slash | reflexivity].
  - rewrite (visit_codec_record _ _ _ _ Hopen). now left.
Qed.

End AddFacts.



(** X26. A record added with [AddNewPassword] is in the store and in the
    catalog: when the call returns [true], the record made of the form's
    values (sanitized, the password as typed) opens under the session
    passphrase at a key made of the site name, and
    [getAllPasswordEntries] lists it with its user name, email and
    creation time. *)
Theorem AddNewPassword_saved_is_listed
    {X : Encryption.Externals} {C : Encryption.Contract X}
    {T : Bubbles.TextInput}
    (msgs : list Tea.Msg) (w w' : World) :
  Os.is_directory (fs w) (Fileio.FolderLocation (passwordFolder w)) = true ->
  MenuViews.AddNewPassword (Ok msgs) w = MenuViews.Returns (true, None) w' ->
  exists m o' entries w'',
    Tea.Run Form.Update msgs Form.NewPasswordForm
      (options (set_ErrorMessage "" w)) = Tea.Done m o'
    /\ Encryption.DecryptPasswordFromFile
         (Utils.GenerateFilename (Encryption.time_Now (S (ticks w)))
            (entered_site m)) w'
       = (entered_record m (Encryption.time_Now (ticks w)), None)
    /\ Menus.getAllPasswordEntries w' = (Ok entries, w'')
    /\ In (Menus.mkPasswordEntry
             (Utils.GenerateFilename (Encryption.time_Now (S (ticks w)))
                (entered_site m))
             (Utils.ParseFilenameToSiteName
                (Utils.GenerateFilename (Encryption.time_Now (S (ticks w)))
                   (entered_site m)))
             (Encryption.Username
                (entered_record m (Encryption.time_Now (ticks w))))
             (Encryption.Email
                (entered_record m (Encryption.time_Now (ticks w))))
             (Encryption.time_Now (ticks w)))
          entries.
Proof.
  intros Hdir Hadd.
  destruct (AddNewPassword_true _ _ _ _ Hadd) as (m & o' & w4 & Hrun & Henc & Hfs & Hpf).
  pose proof (EncryptPasswordAndWriteToFile_keeps_directory _ _ _ _ _ Henc Hdir)
    as Hdir4.
  apply EncryptPasswordAndWriteToFile_sealed in Henc as (Hsealed & Hpf4 & _).
  cbn [next_tick MenuViews.set_options set_ErrorMessage passwordFolder] in Hpf4, Hsealed.
  destruct (sealed_record_listed w' (Encryption.time_Now (S (ticks w)))
              (entered_site m) (entered_record m (Encryption.time_Now (ticks w))))
    as (Hopen & entries & w'' & Hlist & Hin).
  - now rewrite Hfs, Hpf, Hpf4.
  - rewrite Hpf, Hpf4.
    apply (sealed_under_frame w4); [now symmetry | now rewrite Hpf | exact Hsealed].
  - exists m, o', entries, w''. auto.
Qed.

Lemma AddNewPassword_saved_is_listed_witness :
  exists m o' entries w'',
    Tea.Run Form.Update Sample.add_session Form.NewPasswordForm
      (options (set_ErrorMessage "" Sample.stocked)) = Tea.Done m o'
    /\ Encryption.DecryptPasswordFromFile
         (Utils.GenerateFilename (Encryption.time_Now (S (ticks Sample.stocked)))
            (entered_site m)) Sample.added
       = (entered_record m (Encryption.time_Now (ticks Sample.stocked)), None)
    /\ Menus.getAllPasswordEntries Sample.added = (Ok entries, w'')
    /\ In (Menus.mkPasswordEntry
             (Utils.GenerateFilename
                (Encryption.time_Now (S (ticks Sample.stocked)))
                (entered_site m))
             (Utils.ParseFilenameToSiteName
                (Utils.GenerateFilename
                   (Encryption.time_Now (S (ticks Sample.stocked)))
                   (entered_site m)))
             (Encryption.Username
                (entered_record m (Encryption.time_Now (ticks Sample.stocked))))
             (Encryption.Email
                (entered_record m (Encryption.time_Now (ticks Sample.stocked))))
             (Encryption.time_Now (ticks Sample.stocked)))
          entries.
Proof.
  apply (AddNewPassword_saved_is_listed (C := sample_contract)
           Sample.add_session Sample.stocked Sample.added);
    vm_compute; reflexivity.
Defined.

(** ** The change form *)
Section TrimFacts.
Import GoUnicode.

Lemma rune_width_pos s : (1 <= Utf8.rune_width s)%nat.
Proof.
  unfold Utf8.rune_width.
  destruct (Utf8.lead _) as [[sz [lo hi]] |]; [| lia].
  repeat match goal with
         | |- context [if ?b then _ else _] => destruct b
         end; lia.
Qed.

Lemma length_join runes : String.length (join runes) = total_length runes.
Proof.
  induction runes as [| r runes IH]; cbn [join total_length]; [reflexivity |].
  now rewrite str_length_app, IH.
Qed.

Lemma total_length_app a b :
  total_length (a ++ b) = (total_length a + total_length b)%nat.
Proof. induction a as [| r a IH]; cbn [app total_length]; lia. Qed.

Lemma total_length_rev runes : total_length (rev runes) = total_length runes.
Proof.
  induction runes as [| r runes IH]; cbn [rev total_length]; [reflexivity |].
  rewrite total_length_app, IH. cbn [total_length]. lia.
Qed.

Lemma total_length_drop_spaces runes :
  (total_length (drop_spaces runes) <= total_length runes)%nat.
Proof.
  induction runes as [| r runes IH]; cbn [drop_spaces total_length]; [lia |].
  destruct (IsSpace r); cbn [total_length]; lia.
Qed.

Lemma total_length_split_runes s : forall skip,
  (total_length (split_runes skip s) <= String.length s - skip)%nat.
Proof.
  induction s as [| c s IH]; intros skip; cbn [split_runes]; [cbn; lia |].
  destruct skip as [| skip]; cbn [total_length String.length].
  - pose proof (rune_width_pos (String c s)) as Hw.
    pose proof (IH (Utf8.rune_width (String c s) - 1)%nat) as Hs.
    rewrite length_substring_0. cbn [String.length]. lia.
  - pose proof (IH skip). lia.
Qed.

(** [TrimSpace] never makes a string longer. *)
Lemma length_TrimSpace s :
  (String.length (TrimSpace s) <= String.length s)%nat.
Proof.
  unfold TrimSpace. rewrite length_join, total_length_rev.
  etransitivity; [apply total_length_drop_spaces |].
  rewrite total_length_rev.
  etransitivity; [apply total_length_drop_spaces |].
  pose proof (total_length_split_runes s 0). lia.
Qed.

End TrimFacts.

Section ChangeFacts.
Import Tea Change.
Context {T : Bubbles.TextInput}.

Lemma change_move m next (o : Types.Options) :
  change_inv m -> (0 <= next < 3)%Z ->
  exists m' quit o',
    match move next m with
    | None => None
    | Some m => Some ((m, false), o)
    end = Some ((m', quit, o') : (ChangeModel * bool) * Types.Options)
    /\ change_inv m'.
Proof.
  intros (Hn & Hc & Hs) Hnext. unfold move.
  destruct (modify_Some (inputs m) (currentField m) Bubbles.Blur)
    as (l1 & -> & Hl1); [unfold GoSlice.len; lia |].
  destruct (modify_Some l1 next Bubbles.Focus) as (l2 & -> & Hl2);
    [unfold GoSlice.len; lia |].
  do 3 eexists. split; [reflexivity |].
  repeat split; cbn [inputs currentField submitted currentPass newPass confirmPass];
    try lia; now apply Hs.
Qed.

Lemma change_forward m msg (o : Types.Options) :
  change_inv m ->
  exists m' quit o',
    match forward msg m with
    | None => None
    | Some m => Some ((m, false), o)
    end = Some ((m', quit, o') : (ChangeModel * bool) * Types.Options)
    /\ change_inv m'.
Proof.
  intros (Hn & Hc & Hs). unfold forward.
  destruct (modify_Some (inputs m) (currentField m)
              (fun ti => Bubbles.Update ti msg))
    as (l1 & -> & Hl1); [unfold GoSlice.len; lia |].
  do 3 eexists. split; [reflexivity |].
  repeat split; cbn [inputs currentField submitted currentPass newPass confirmPass];
    try lia; now apply Hs.
Qed.

Lemma change_values m :
  length (inputs m) = 3%nat ->
  exists t0 t1 t2,
    inputs m = [t0; t1; t2]
    /\ value_at m CurrentPasswordField = Some (Bubbles.Value t0)
    /\ value_at m NewPasswordField = Some (Bubbles.Value t1)
    /\ value_at m ConfirmPasswordField = Some (Bubbles.Value t2)
    /\ trimmed m CurrentPasswordField
       = Some (GoUnicode.TrimSpace (Bubbles.Value t0))
    /\ trimmed m NewPasswordField
       = Some (GoUnicode.TrimSpace (Bubbles.Value t1))
    /\ trimmed m ConfirmPasswordField
       = Some (GoUnicode.TrimSpace (Bubbles.Value t2)).
Proof.
  intros H. unfold value_at, trimmed.
  destruct (inputs m) as [| t0 [| t1 [| t2 [| t3 rest]]]]; try discriminate H.
  exists t0, t1, t2. repeat split.
Qed.

Lemma change_step m o msg :
  change_inv m ->
  exists m' quit o', Update m msg o = Some ((m', quit), o') /\ change_inv m'.
Proof.
  intros Hinv. pose proof Hinv as (Hn & Hc & Hs). unfold Update.
  assert (Hlast : (GoSlice.len (inputs m) - 1 = 2)%Z)
    by (unfold GoSlice.len; lia).
  rewrite Hlast.
  destruct msg as [key |]; [| now apply change_forward].
  destruct (key_in key ["ctrl+c"; "esc"]).
  { do 3 eexists. split; [reflexivity |].
    repeat split;
      cbn [inputs currentField submitted currentPass newPass confirmPass];
      try lia; now apply Hs. }
  destruct (key_in key ["enter"]).
  { destruct (Z.ltb_spec (currentField m) 2);
      [apply change_move; [assumption | lia] |].
    destruct (change_values m Hn)
      as (t0 & t1 & t2 & _ & Hv0 & Hv1 & Hv2 & Ht0 & Ht1 & Ht2).
    unfold validateForm. rewrite Ht0, Ht1, Ht2.
    destruct (String.eqb_spec (GoUnicode.TrimSpace (Bubbles.Value t0)) "")
      as [| Hcur]; cbn [orb];
      [do 3 eexists; split; [reflexivity | exact Hinv] |].
    destruct (_ || _);
      [do 3 eexists; split; [reflexivity | exact Hinv] |].
    destruct (Z.ltb_spec (GoStrings.len (GoUnicode.TrimSpace (Bubbles.Value t1))) 8);
      [do 3 eexists; split; [reflexivity | exact Hinv] |].
    destruct (String.eqb_spec (GoUnicode.TrimSpace (Bubbles.Value t1))
                (GoUnicode.TrimSpace (Bubbles.Value t2))) as [Heq |]; cbn [negb];
      [| do 3 eexists; split; [reflexivity | exact Hinv]].
    rewrite Hv0, Hv1, Hv2. do 3 eexists. split; [reflexivity |].
    repeat split;
      cbn [inputs currentField submitted currentPass newPass confirmPass];
      try lia; assumption. }
  destruct (key_in key ["tab"; "shift+tab"; "up"; "down"]);
    [| now apply change_forward].
  destruct (key_in key ["up"; "shift+tab"]).
  - destruct (Z.gtb_spec (currentField m) 0);
      [apply change_move; [assumption | lia] | now apply change_forward].
  - destruct (Z.ltb_spec (currentField m) 2);
      [apply change_move; [assumption | lia] | now apply change_forward].
Qed.

Lemma change_inv_New : change_inv NewChangePasswordForm.
Proof. repeat split; cbn; try lia; discriminate. Qed.

(** The message about the confirmation cannot be the one shown. *)
Lemma change_error m :
  change_inv m ->
  exists msg, getValidationError m = Some msg
              /\ msg <> "Password confirmation is required".
Proof.
  intros (Hn & Hc & _).
  destruct (change_values m Hn)
    as (t0 & t1 & t2 & _ & _ & _ & _ & Ht0 & Ht1 & Ht2).
  unfold getValidationError. rewrite Ht0, Ht1, Ht2.
  destruct (Z.gtb_spec (currentField m) ConfirmPasswordField) as [Hgt | _];
    [unfold ConfirmPasswordField in Hgt; lia |].
  rewrite andb_false_r.
  repeat match goal with
         | |- context [if ?b then _ else _] => destruct b
         end; eexists; (split; [reflexivity | discriminate]).
Qed.

End ChangeFacts.

(** X27. Whatever the user types, the change form never panics, and once it
    is submitted the values it hands to [ChangeMasterPassword] are
    those [validateForm] accepted: the current password is not blank,
    the new password passes [validatePassword] (8 bytes or more), and
    the new password and its confirmation are equal up to surrounding
    white space. *)
Theorem Change_submitted_is_valid
    {T : Bubbles.TextInput} (msgs : list Tea.Msg) (options : Types.Options) :
  exists m options',
    Tea.deliver Change.Update msgs Change.NewChangePasswordForm options
    = Some (m, options')
    /\ (Menus.submitted (Change.final m) = true ->
        GoUnicode.TrimSpace (Menus.currentPass (Change.final m)) <> ""
        /\ Menus.validatePassword (Menus.newPass (Change.final m)) = (true, "")
        /\ GoUnicode.TrimSpace (Menus.newPass (Change.final m))
           = GoUnicode.TrimSpace (Menus.confirmPass (Change.final m))).
Proof.
  destruct (deliver_invariant Change.Update (fun m _ => change_inv m)
              (fun m o msg => change_step m o msg) msgs
              Change.NewChangePasswordForm options change_inv_New)
    as (m & o' & Hrun & Hn & Hc & Hs).
  exists m, o'. split; [exact Hrun |]. cbn [Change.final Menus.submitted
    Menus.currentPass Menus.newPass Menus.confirmPass].
  intros Hsub. destruct (Hs Hsub) as (H1 & H2 & H3).
  split; [exact H1 |]. split; [| exact H3].
  unfold Menus.validatePassword.
  pose proof (length_TrimSpace (Change.newPass m)) as Hlen.
  unfold GoStrings.len in *.
  destruct (Z.ltb_spec (Z.of_nat (String.length (Change.newPass m))) 8);
    [lia | reflexivity].
Qed.

Lemma Change_submitted_is_valid_witness :
  exists m options',
    Tea.deliver Change.Update Sample.change_session Change.NewChangePasswordForm
      (Types.mkOptions true false "") = Some (m, options')
    /\ Change.final m
       = Menus.mkChangeModel true false "correcthorse" "newpassword"
           "newpassword "
    /\ Menus.validatePassword (Menus.newPass (Change.final m)) = (true, "").
Proof.
  destruct (Change_submitted_is_valid Sample.change_session
              (Types.mkOptions true false "")) as (m & o' & Hrun & H).
  vm_compute in Hrun. injection Hrun as <- <-.
  do 2 eexists. split; [vm_compute; reflexivity |].
  split; [reflexivity |]. now apply H.
Defined.

(** ** Rotation and the other records *)
Section RotationMore.
Import Encryption Menus.
Context {X : Externals}.




End RotationMore.





(** ** The main menu *)
Section QuitFacts.
Import Tea.
Context {M : Type}.
Variable update :
  M -> Msg -> Types.Options -> option ((M * bool) * Types.Options).
Variable I Q : M -> Types.Options -> Prop.
Hypothesis step : forall m o msg,
  I m o ->
  exists m' quit o',
    update m msg o = Some ((m', quit), o')
    /\ I m' o' /\ (quit = true -> Q m' o').


End QuitFacts.

Section MenuFacts.
Import Tea MainMenu MenuViews.




End MenuFacts.


